(** * generate_transaction_uat_data.py: a shallow embedding

    The script fills four SQL Server tables (Categories, Suppliers,
    Customers, Products) with seeded fake data and a fixed rate of
    deliberate data-quality defects.  It is one straight-line module:
    configuration constants, two seeded generators (Python's [random]
    module and a [Faker] object), one helper that builds supplier names,
    one helper that commits every tenth batch, and the body that talks to
    the database through a [pyodbc] connection.

    The embedding keeps that shape.  The two generators and the wall clock
    are the script's only sources of variation, so they are interfaces
    here ([PyRandom], [Faker], a clock function); the script itself is a
    program in a small monad that threads the generator states, can raise
    the Python exceptions the script can raise, and records every database
    call and every printed line, in order, as an event.

    Conventions:
    - Python [int] is [Z]; [//] is [Z.div] and [%] is [Z.modulo] (both
      floor, as in Python); a division by zero raises.
    - Python [float] draws are exact rationals [Q]: [random.random()] is a
      rational in the half-open unit interval and [random.uniform(a, b)] is
      [a + (b - a) * random()], computed without rounding.  A binary64
      rendering of [uniform] is given besides, to evaluate its end points.
    - Python [str] is [string] over 8-bit characters; [lower], [title],
      [split], [strip] and [replace] are the ASCII fragments of the Python
      methods.
    - Timestamps are [Z] (seconds since the epoch).
    - Database calls always succeed: the driver is not modelled, only the
      calls made to it. *)

From Stdlib Require Import ZArith QArith List String Ascii Bool Lia Lqa.
From Stdlib Require Import FunctionalExtensionality.
From Stdlib Require Import Floats.
Import ListNotations.

Local Open Scope string_scope.
Local Open Scope list_scope.
Local Open Scope Z_scope.

(** ** Python strings (ASCII fragment) *)

Module PyStr.

Definition code (c : ascii) : N := N_of_ascii c.

Definition isupper (c : ascii) : bool := ((65 <=? code c) && (code c <=? 90))%N.
Definition islower (c : ascii) : bool := ((97 <=? code c) && (code c <=? 122))%N.
Definition isalpha (c : ascii) : bool := isupper c || islower c.

(** [str.isspace] on one ASCII character: tab, newline, vertical tab,
    form feed, carriage return, the four separators 0x1c-0x1f, space. *)
Definition isspace (c : ascii) : bool :=
  ((code c =? 32) || ((9 <=? code c) && (code c <=? 13))
   || ((28 <=? code c) && (code c <=? 31)))%N.

Definition lower_char (c : ascii) : ascii :=
  if isupper c then ascii_of_N (code c + 32) else c.
Definition upper_char (c : ascii) : ascii :=
  if islower c then ascii_of_N (code c - 32) else c.

(** [s.lower()] *)
Fixpoint lower (s : string) : string :=
  match s with
  | EmptyString => EmptyString
  | String c s' => String (lower_char c) (lower s')
  end.

(** [s.title()]: a letter that follows a non-letter is upper-cased, a
    letter that follows a letter is lower-cased. *)
Fixpoint title_from (prev_cased : bool) (s : string) : string :=
  match s with
  | EmptyString => EmptyString
  | String c s' =>
      String (if prev_cased then lower_char c else upper_char c)
             (title_from (isalpha c) s')
  end.
Definition title (s : string) : string := title_from false s.

(** [s.split()] with no argument: the maximal runs of non-space
    characters, in order; no empty token.  [cur] is the token being
    read, if any. *)
Fixpoint split_from (cur : option string) (s : string) : list string :=
  match s with
  | EmptyString => match cur with Some t => [t] | None => [] end
  | String c s' =>
      if isspace c
      then match cur with
           | Some t => t :: split_from None s'
           | None => split_from None s'
           end
      else match cur with
           | Some t => split_from (Some (t ++ String c EmptyString)%string) s'
           | None => split_from (Some (String c EmptyString)) s'
           end
  end.
Definition split (s : string) : list string := split_from None s.

(** [s.lstrip()], [s.rstrip()], [s.strip()] *)
Fixpoint lstrip (s : string) : string :=
  match s with
  | EmptyString => EmptyString
  | String c s' => if isspace c then lstrip s' else s
  end.
Fixpoint rstrip (s : string) : string :=
  match s with
  | EmptyString => EmptyString
  | String c s' =>
      match rstrip s' with
      | EmptyString => if isspace c then EmptyString else String c EmptyString
      | r => String c r
      end
  end.
Definition strip (s : string) : string := rstrip (lstrip s).

(** [s.replace(old, "")] for a non-empty [old]: every occurrence, left to
    right, without overlap, is cut out.  [skip] counts the characters of
    a match still to be dropped. *)
Fixpoint remove_from (old : string) (skip : nat) (s : string) : string :=
  match s with
  | EmptyString => EmptyString
  | String c s' =>
      match skip with
      | S k => remove_from old k s'
      | O => if prefix old s
             then remove_from old (Nat.pred (String.length old)) s'
             else String c (remove_from old O s')
      end
  end.
Definition remove (old s : string) : string :=
  match old with
  | EmptyString => s
  | _ => remove_from old O s
  end.

(** [s[:n]] for [n >= 0] *)
Definition take (n : nat) (s : string) : string := substring 0 n s.

(** [s[0]] and [s[-1]] of a list of tokens *)
Definition first_of (l : list string) : string := hd EmptyString l.
Definition last_of (l : list string) : string := last l EmptyString.

End PyStr.

(** ** The two generator libraries, as interfaces *)

(** Python's [random] module.  The script only uses [seed], [random],
    [choice], [randint] and [uniform]; in CPython the last three are
    defined from two primitives, [random()] and [_randbelow(n)], which are
    the operations of this interface.  The laws are the documented ranges:
    [random()] is in the half-open unit interval and [_randbelow(n)] is in
    [0, n). *)
Class PyRandom (R : Type) : Type := {
  seeded : Z -> R;
  next_random : R -> Q * R;
  next_below : Z -> R -> Z * R;
  next_random_unit : forall r, (0 <= fst (next_random r) /\ fst (next_random r) < 1)%Q;
  next_below_range : forall n r, 0 < n -> 0 <= fst (next_below n r) < n
}.

(** The [Faker] object.  Each provider call returns a value and advances
    the generator.  [date_time_between] takes the two relative dates as
    the script writes them (["-5y"], ["now"], ["+1d"], ["+30d"], ["-3y"])
    and resolves them against the wall clock, so the clock reading is an
    argument. *)
Class Faker (F : Type) : Type := {
  faker_seeded : Z -> F;
  draw_name : F -> string * F;
  draw_email : F -> string * F;
  draw_phone_number : F -> string * F;
  draw_country : F -> string * F;
  draw_company : F -> string * F;
  draw_bs : F -> string * F;
  draw_last_name : F -> string * F;
  draw_date_time_between : Z -> string -> string -> F -> Z * F
}.

(** ** Rows, events, exceptions *)

Record supplier : Type := {
  sup_name : string;
  sup_contact : string;
  sup_country : string;
  sup_phone : string
}.

Record customer : Type := {
  cust_name : option string;
  cust_email : string;
  cust_phone : string;
  cust_country : string;
  cust_created : Z;
  cust_is_active : Z
}.

Record product : Type := {
  prod_name : option string;
  prod_category_id : Z;
  prod_supplier_id : Z;
  prod_unit_price : Q;
  prod_stock_quantity : Z;
  prod_created : Z
}.

Inductive table : Type := Categories | Suppliers | Customers | Products.

Inductive rows : Type :=
| CategoryRows (l : list (string * string))
| SupplierRows (l : list supplier)
| CustomerRows (l : list customer)
| ProductRows (l : list product).

Inductive exn : Type :=
| ValueError (msg : string)
| ZeroDivisionError
| IndexError.

(** A printed line: fixed text, or an f-string with one number in it
    (the digits themselves, [{n:,}], are not modelled). *)
Inductive message : Type :=
| Text (s : string)
| Count (before : string) (n : Z) (after : string)
| Shown (e : exn).

(** What the script does to the outside world, in order. *)
Inductive event : Type :=
| Stdout (m : message)
| Connect (conn_string : string)
| ExecuteDropIfExists (t : table)
| ExecuteCreateTable (t : table)
| Executemany (rs : rows)
| Commit
| CursorClose
| ConnClose.

Inductive result (A : Type) : Type :=
| Ok (a : A)
| Raise (e : exn).
Arguments Ok {A} a.
Arguments Raise {A} e.

(** ** Configuration *)

Record Config : Type := {
  BATCH_SIZE : Z;
  CUSTOMERS_TOTAL : Z;
  PRODUCTS_TOTAL : Z
}.

Definition script_config : Config :=
  {| BATCH_SIZE := 10000; CUSTOMERS_TOTAL := 900000; PRODUCTS_TOTAL := 150000 |}.

Definition COMMIT_EVERY_N_BATCHES : Z := 10.

(** ** Constant data *)

Definition PRODUCT_NAMES : list string :=
  [ "Wireless Bluetooth Headphones";
    "USB-C Charging Cable";
    "Portable Power Bank";
    "Laptop Stand";
    "Wireless Mouse";
    "Stainless Steel Water Bottle";
    "Coffee Maker";
    "Blender";
    "Non-Stick Frying Pan";
    "Kitchen Knife Set";
    "Cotton T-Shirt";
    "Denim Jeans";
    "Running Shoes";
    "Winter Jacket";
    "Baseball Cap";
    "Electric Toothbrush";
    "Yoga Mat";
    "Resistance Bands";
    "Face Moisturizer";
    "Shampoo & Conditioner Set";
    "Notebook Set";
    "Ballpoint Pens (Pack of 10)";
    "Desk Organizer";
    "Sticky Notes";
    "Printer Paper (500 Sheets)" ].

Definition SUPPLIER_SUFFIXES : list string :=
  ["LLC"; "Ltd"; "PLC"; "Inc"; "Corp"; "Co"; "Group"; "Industries"; ""].

Definition SUPPLIER_TYPES : list string :=
  [ "Electronics"; "Distribution"; "Supply"; "Manufacturing"; "Trading";
    "Global"; "International"; "Wholesale"; "Solutions"; "Technologies" ].

Definition EMAIL_DOMAINS : list string :=
  ["gmail.com"; "yahoo.com"; "outlook.com"; "hotmail.com"; "email.com"; "mail.com"].

Definition categories_data : list (string * string) :=
  [ ("Electronics", "Electronic devices and accessories");
    ("Clothing", "Apparel and fashion items");
    ("Food", "Food and beverages");
    ("Books", "Books and publications");
    ("Toys", "Toys and games");
    ("Sports", "Sports equipment and gear");
    ("Home", "Home and garden products");
    ("Beauty", "Beauty and personal care") ].

(** [range(n)] *)
Definition range (n : Z) : list Z := map Z.of_nat (seq 0 (Z.to_nat n)).

(** [s * n] for a string [s] *)
Fixpoint str_mul (s : string) (n : nat) : string :=
  match n with
  | O => EmptyString
  | S k => (s ++ str_mul s k)%string
  end.

Definition newline : string := String (ascii_of_nat 10) EmptyString.

(** ** The script's monad *)

Section Script.

Context {R F : Type} {random_lib : PyRandom R} {faker_lib : Faker F}.

(** The wall clock: [clock k] is what the [k]-th reading returns. *)
Variable clock : nat -> Z.

(** The process environment after [load_dotenv()]. *)
Variable getenv : string -> option string.

(** The module-level variables that change while the script runs: the
    state of the global [random] generator, the state of the generator
    behind [fake], the number of clock readings so far, and whether
    [conn] and [cursor] hold an object ([true]) or [None]. *)
Record state : Type := {
  rng : R;
  fake : F;
  ticks : nat;
  conn : bool;
  cursor : bool
}.

Definition with_rng (r : R) (st : state) : state :=
  {| rng := r; fake := fake st; ticks := ticks st; conn := conn st; cursor := cursor st |}.
Definition with_fake (f : F) (st : state) : state :=
  {| rng := rng st; fake := f; ticks := ticks st; conn := conn st; cursor := cursor st |}.
Definition with_tick (st : state) : state :=
  {| rng := rng st; fake := fake st; ticks := S (ticks st); conn := conn st; cursor := cursor st |}.
Definition with_conn (c k : bool) (st : state) : state :=
  {| rng := rng st; fake := fake st; ticks := ticks st; conn := c; cursor := k |}.

(** A program takes the state and gives a value or an exception, the
    new state, and the events it caused. *)
Definition M (A : Type) : Type := state -> result A * state * list event.

Definition ret {A} (a : A) : M A := fun st => (Ok a, st, []).

Definition bind {A B} (m : M A) (k : A -> M B) : M B :=
  fun st =>
    match m st with
    | (Ok a, st1, ev1) =>
        match k a st1 with
        | (r, st2, ev2) => (r, st2, ev1 ++ ev2)
        end
    | (Raise e, st1, ev1) => (Raise e, st1, ev1)
    end.

Definition raise {A} (e : exn) : M A := fun st => (Raise e, st, []).

Definition emit (e : event) : M unit := fun st => (Ok tt, st, [e]).

Local Notation "x <- m ;; k" := (bind m (fun x => k))
  (at level 100, m at next level, right associativity).
Local Notation "m ;; k" := (bind m (fun _ => k))
  (at level 100, right associativity).

(** [for x in l: acc = body(acc, x)] *)
Fixpoint for_each {A S : Type} (l : list A) (acc : S) (body : S -> A -> M S) : M S :=
  match l with
  | [] => ret acc
  | x :: l' => acc' <- body acc x ;; for_each l' acc' body
  end.

(** [[f(x) for x in l]], and a loop that appends [f(x)] to a list *)
Fixpoint for_list {A B : Type} (l : list A) (f : A -> M B) : M (list B) :=
  match l with
  | [] => ret []
  | x :: l' => y <- f x ;; ys <- for_list l' f ;; ret (y :: ys)
  end.

(** [try: body / except Exception as e: handler(e); raise / finally: cleanup] *)
Definition try_except_finally (body : M unit) (handler : exn -> M unit)
           (cleanup : M unit) : M unit :=
  fun st =>
    match body st with
    | (Ok _, st1, ev1) =>
        match cleanup st1 with
        | (r, st2, ev2) => (r, st2, ev1 ++ ev2)
        end
    | (Raise e, st1, ev1) =>
        match handler e st1 with
        | (_, st2, ev2) =>
            match cleanup st2 with
            | (_, st3, ev3) => (Raise e, st3, ev1 ++ ev2 ++ ev3)
            end
        end
    end.

(** *** The [random] module *)

(** [random.seed(n)] *)
Definition random_seed (n : Z) : M unit :=
  fun st => (Ok tt, with_rng (seeded n) st, []).

(** [random.random()] *)
Definition random_random : M Q :=
  fun st => let (x, r) := next_random (rng st) in (Ok x, with_rng r st, []).

(** [random._randbelow(n)] *)
Definition random_randbelow (n : Z) : M Z :=
  fun st => let (k, r) := next_below n (rng st) in (Ok k, with_rng r st, []).

(** [random.choice(seq)]: [seq[_randbelow(len(seq))]], and [IndexError]
    on an empty sequence. *)
Definition random_choice {A : Type} (seq : list A) : M A :=
  match seq with
  | [] => raise IndexError
  | _ =>
      k <- random_randbelow (Z.of_nat (List.length seq)) ;;
      match nth_error seq (Z.to_nat k) with
      | Some x => ret x
      | None => raise IndexError
      end
  end.

(** [random.randint(a, b)]: [a + _randbelow(b - a + 1)], and
    [ValueError] on an empty range. *)
Definition random_randint (a b : Z) : M Z :=
  if 0 <? b - a + 1
  then k <- random_randbelow (b - a + 1) ;; ret (a + k)
  else raise (ValueError "empty range for randrange()").

(** [random.uniform(a, b)]: [a + (b - a) * random()] *)
Definition random_uniform (a b : Q) : M Q :=
  x <- random_random ;; ret (a + (b - a) * x)%Q.

(** *** The [fake] object *)

(** [Faker.seed(n)] *)
Definition Faker_seed (n : Z) : M unit :=
  fun st => (Ok tt, with_fake (faker_seeded n) st, []).

Definition provider (draw : F -> string * F) : M string :=
  fun st => let (s, f) := draw (fake st) in (Ok s, with_fake f st, []).

Definition fake_name : M string := provider draw_name.
Definition fake_email : M string := provider draw_email.
Definition fake_phone_number : M string := provider draw_phone_number.
Definition fake_country : M string := provider draw_country.
Definition fake_company : M string := provider draw_company.
Definition fake_bs : M string := provider draw_bs.
Definition fake_last_name : M string := provider draw_last_name.

(** [fake.date_time_between(start_date=..., end_date=...)]: one reading
    of the clock, against which both relative dates are resolved. *)
Definition fake_date_time_between (start_date end_date : string) : M Z :=
  fun st =>
    let (t, f) := draw_date_time_between (clock (ticks st)) start_date end_date (fake st) in
    (Ok t, with_fake f (with_tick st), []).

(** *** The connection *)

Definition print (m : message) : M unit := emit (Stdout m).

(** [conn = pyodbc.connect(conn_string); cursor = conn.cursor()] *)
Definition pyodbc_connect (conn_string : string) : M unit :=
  fun st => (Ok tt, with_conn true true st, [Connect conn_string]).

Definition cursor_executemany (rs : rows) : M unit := emit (Executemany rs).
Definition conn_commit : M unit := emit Commit.

(** [a // b] *)
Definition floordiv (a b : Z) : M Z :=
  if b =? 0 then raise ZeroDivisionError else ret (a / b).

(** [l[i]] *)
Definition index {A : Type} (l : list A) (i : Z) : M A :=
  let j := if i <? 0 then i + Z.of_nat (List.length l) else i in
  if j <? 0 then raise IndexError
  else match nth_error l (Z.to_nat j) with
       | Some x => ret x
       | None => raise IndexError
       end.

(** ** The script *)

Variable cfg : Config.

(** [generate_supplier_name()] *)
Definition generate_supplier_name : M string :=
  company_type <- random_choice ["company"; "business"; "combined"] ;;
  base <-
    (if (company_type =? "company")%string then
       c <- fake_company ;;
       ret (PyStr.remove ", Ltd" (PyStr.remove ", LLC" (PyStr.remove ", Inc." c)))
     else if (company_type =? "business")%string then
       b <- fake_bs ;;
       w <- index (PyStr.split (PyStr.title b)) 0 ;;
       t <- random_choice SUPPLIER_TYPES ;;
       ret (w ++ " " ++ t)%string
     else
       l <- fake_last_name ;;
       t <- random_choice SUPPLIER_TYPES ;;
       ret (l ++ " " ++ t)%string) ;;
  suffix <- random_choice SUPPLIER_SUFFIXES ;;
  ret (PyStr.strip (base ++ " " ++ suffix)%string).

(** [commit_periodically(conn, batch_num, total_inserted, label)] *)
Definition commit_periodically (batch_num total_inserted : Z) (label : string) : M unit :=
  if (batch_num + 1) mod COMMIT_EVERY_N_BATCHES =? 0
  then conn_commit ;;
       print (Count "  ✓ Committed " total_inserted (" " ++ label ++ "..."))
  else ret tt.

(** [DROP TABLE] if it exists, then [CREATE TABLE] *)
Definition recreate_table (t : table) : M unit :=
  emit (ExecuteDropIfExists t) ;; emit (ExecuteCreateTable t).

(** TABLE 1: Categories *)
Definition table_categories : M unit :=
  print (Text "Creating dbo.Categories ...") ;;
  recreate_table Categories ;;
  cursor_executemany (CategoryRows categories_data) ;;
  conn_commit ;;
  print (Count "✓ Categories inserted: " (Z.of_nat (List.length categories_data))
               (" rows" ++ newline)).

(** One element of [suppliers_data] *)
Definition supplier_row (supplier_names : list string) (i : Z) : M supplier :=
  n <- index supplier_names i ;;
  contact <- fake_name ;;
  country <- fake_country ;;
  phone <- fake_phone_number ;;
  ret {| sup_name := n; sup_contact := contact;
         sup_country := PyStr.take 100 country; sup_phone := PyStr.take 20 phone |}.

(** TABLE 2: Suppliers *)
Definition table_suppliers : M unit :=
  print (Text "Creating dbo.Suppliers (5,000 rows) ...") ;;
  recreate_table Suppliers ;;
  supplier_names <- for_list (range 5000) (fun _ => generate_supplier_name) ;;
  suppliers_data <- for_list (range 5000) (supplier_row supplier_names) ;;
  cursor_executemany (SupplierRows suppliers_data) ;;
  conn_commit ;;
  print (Text ("✓ Suppliers inserted: 5,000 rows" ++ newline)).

(** The body of the inner customer loop: one appended tuple. *)
Definition customer_row : M customer :=
  u <- random_random ;;
  name_email <-
    (if Qlt_le_dec u (5 # 1000) then
       (* Dirty data #1: NULL CustomerName *)
       email <- fake_email ;; ret (None, email)
     else
       customer_name <- fake_name ;;
       let name_parts := PyStr.split (PyStr.lower customer_name) in
       if 2 <=? Z.of_nat (List.length name_parts) then
         let first_name := PyStr.first_of name_parts in
         let last_name := PyStr.last_of name_parts in
         v <- random_random ;;
         if Qlt_le_dec v (1 # 100) then
           (* Dirty data #2: invalid email *)
           ret (Some customer_name, (first_name ++ "." ++ last_name ++ "@invalid")%string)
         else
           domain <- random_choice EMAIL_DOMAINS ;;
           ret (Some customer_name, (first_name ++ "." ++ last_name ++ "@" ++ domain)%string)
       else
         email <- fake_email ;; ret (Some customer_name, email)) ;;
  w <- random_random ;;
  created_date <-
    (if Qlt_le_dec w (1 # 100)
     then (* Dirty data #3: future CreatedDate *)
          fake_date_time_between "+1d" "+30d"
     else fake_date_time_between "-5y" "now") ;;
  phone <- fake_phone_number ;;
  country <- fake_country ;;
  is_active <- random_choice [0; 1] ;;
  ret {| cust_name := fst name_email; cust_email := snd name_email;
         cust_phone := PyStr.take 20 phone; cust_country := PyStr.take 100 country;
         cust_created := created_date; cust_is_active := is_active |}.

(** The batched loading of Customers: from [total_batches = ...] to the
    commit after the loop.  The value is the final [total_inserted]. *)
Definition load_customers : M Z :=
  total_batches <- floordiv (CUSTOMERS_TOTAL cfg) (BATCH_SIZE cfg) ;;
  total_inserted <-
    for_each (range total_batches) 0 (fun total_inserted batch_num =>
      customers_batch <- for_list (range (BATCH_SIZE cfg)) (fun _ => customer_row) ;;
      cursor_executemany (CustomerRows customers_batch) ;;
      let total_inserted := total_inserted + Z.of_nat (List.length customers_batch) in
      commit_periodically batch_num total_inserted "customers" ;;
      (if (batch_num + 1) mod 10 =? 0
       then print (Count "  Inserted " total_inserted " customers...")
       else ret tt) ;;
      ret total_inserted) ;;
  conn_commit ;;
  print (Count "✓ Customers inserted: " total_inserted (" rows" ++ newline)) ;;
  ret total_inserted.

(** TABLE 3: Customers *)
Definition table_customers : M Z :=
  print (Text "Creating dbo.Customers (900,000 rows - batching) ...") ;;
  recreate_table Customers ;;
  conn_commit ;;
  load_customers.

(** The body of the inner product loop at index [i]: one appended tuple. *)
Definition product_row (i : Z) : M product :=
  u <- random_random ;;
  product_name <-
    (if Qlt_le_dec u (2 # 1000)
     then (* Dirty data #4: NULL ProductName *) ret None
     else n <- index PRODUCT_NAMES (i mod Z.of_nat (List.length PRODUCT_NAMES)) ;;
          ret (Some n)) ;;
  v <- random_random ;;
  unit_price <-
    (if Qlt_le_dec v (5 # 1000)
     then (* Dirty data #5: negative UnitPrice *)
          x <- random_uniform 10 1000 ;; ret (- x)%Q
     else random_uniform 5 2000) ;;
  w <- random_random ;;
  stock_quantity <-
    (if Qlt_le_dec w (1 # 100)
     then (* Dirty data #6: negative StockQuantity *)
          n <- random_randint 1 100 ;; ret (- n)
     else random_randint 0 1000) ;;
  (* Dirty data #7: orphan SupplierID; valid 1..5000, orphaned 5001..6000 *)
  supplier_id <- random_randint 1 6000 ;;
  category_id <- random_randint 1 8 ;;
  created <- fake_date_time_between "-3y" "now" ;;
  ret {| prod_name := product_name; prod_category_id := category_id;
         prod_supplier_id := supplier_id; prod_unit_price := unit_price;
         prod_stock_quantity := stock_quantity; prod_created := created |}.

(** The batched loading of Products, as for Customers. *)
Definition load_products : M Z :=
  total_batches <- floordiv (PRODUCTS_TOTAL cfg) (BATCH_SIZE cfg) ;;
  total_inserted <-
    for_each (range total_batches) 0 (fun total_inserted batch_num =>
      products_batch <- for_list (range (BATCH_SIZE cfg)) product_row ;;
      cursor_executemany (ProductRows products_batch) ;;
      let total_inserted := total_inserted + Z.of_nat (List.length products_batch) in
      commit_periodically batch_num total_inserted "products" ;;
      (if (batch_num + 1) mod 5 =? 0
       then print (Count "  Inserted " total_inserted " products...")
       else ret tt) ;;
      ret total_inserted) ;;
  conn_commit ;;
  print (Count "✓ Products inserted: " total_inserted (" rows" ++ newline)) ;;
  ret total_inserted.

(** TABLE 4: Products *)
Definition table_products : M Z :=
  print (Text "Creating dbo.Products (150,000 rows - batching) ...") ;;
  recreate_table Products ;;
  conn_commit ;;
  load_products.

Definition rule : string := str_mul "=" 70.

(** FINAL SUMMARY *)
Definition final_summary : M unit :=
  let total_rows :=
    Z.of_nat (List.length categories_data) + 5000 + CUSTOMERS_TOTAL cfg + PRODUCTS_TOTAL cfg in
  print (Text rule) ;;
  print (Text "✓ DATA GENERATION COMPLETE!") ;;
  print (Text rule) ;;
  print (Text "Data created:") ;;
  print (Count "  Categories:       " (Z.of_nat (List.length categories_data)) " rows") ;;
  print (Count "  Suppliers:        " 5000 " rows") ;;
  print (Count "  Customers:        " (CUSTOMERS_TOTAL cfg) " rows") ;;
  print (Count "  Products:         " (PRODUCTS_TOTAL cfg) " rows") ;;
  print (Text ("  " ++ str_mul "-" 30)) ;;
  print (Count "  TOTAL:            " total_rows " rows") ;;
  print (Text (newline ++ "Data quality issues included:")) ;;
  print (Text "  ✓ NULL CustomerName (~0.5%)") ;;
  print (Text "  ✓ Invalid email formats (~1%)") ;;
  print (Text "  ✓ Future CreatedDate (~1%)") ;;
  print (Text "  ✓ NULL ProductName (~0.2%)") ;;
  print (Text "  ✓ Negative UnitPrice (~0.5%)") ;;
  print (Text "  ✓ Negative StockQuantity (~1%)") ;;
  print (Text "  ✓ Orphaned SupplierID (~16%)") ;;
  print (Text rule).

(** The [try] block. *)
Definition try_body (conn_string : string) : M unit :=
  pyodbc_connect conn_string ;;
  print (Text ("✓ Connected to SQL Server" ++ newline)) ;;
  table_categories ;;
  table_suppliers ;;
  table_customers ;;
  table_products ;;
  final_summary.

(** [except Exception as e]: the driver never fails here, so the
    [pyodbc.Error] clause is never the one taken. *)
Definition except_handler (e : exn) : M unit :=
  print (Text (newline ++ "❌ General error occurred.")) ;;
  print (Shown e).

(** [finally] *)
Definition finally_cleanup : M unit :=
  fun st =>
    (Ok tt, st,
     (if cursor st then [CursorClose] else []) ++ (if conn st then [ConnClose] else [])).

Definition missing_host_message : string :=
  ("SQL_SERVER_HOST is missing. Add it to your .env file, e.g.:" ++ newline
   ++ "SQL_SERVER_HOST=Inteli5SSD-Laptop\SQLEXPRESS")%string.

(** [not s] for [s] a string or [None] *)
Definition falsy (s : option string) : bool :=
  match s with
  | None => true
  | Some EmptyString => true
  | Some _ => false
  end.

(** The module, top to bottom. *)
Definition main : M unit :=
  Faker_seed 42 ;;
  random_seed 42 ;;
  let SQL_HOST := getenv "SQL_SERVER_HOST" in
  let SQL_DB :=
    match getenv "SQL_SERVER_DB" with
    | Some v => v
    | None => "TransactionDB_UAT"
    end in
  if falsy SQL_HOST then raise (ValueError missing_host_message)
  else
    let host := match SQL_HOST with Some h => h | None => EmptyString end in
    print (Text rule) ;;
    print (Text "SQL SERVER DATA GENERATOR (1M+ ROWS)") ;;
    print (Text rule) ;;
    print (Text ("Connecting to: " ++ host)) ;;
    print (Text ("Database:      " ++ SQL_DB)) ;;
    print (Text rule) ;;
    let conn_string :=
      ("DRIVER={ODBC Driver 17 for SQL Server};" ++ "SERVER=" ++ host ++ ";"
       ++ "DATABASE=" ++ SQL_DB ++ ";" ++ "Trusted_Connection=yes;")%string in
    (fun st => (Ok tt, with_conn false false st, [])) ;;
    try_except_finally (try_body conn_string) except_handler finally_cleanup.

(** The state a fresh interpreter starts in: both generators hold
    whatever the operating system seeded them with. *)
Definition fresh (r0 : R) (f0 : F) : state :=
  {| rng := r0; fake := f0; ticks := O; conn := false; cursor := false |}.

End Script.

Arguments state R F : clear implicits.
Arguments M R F A : clear implicits.

(** ** Reading a trace *)

Definition trace {S A : Type} (out : A * S * list event) : list event := snd out.
Definition outcome {S A : Type} (out : A * S * list event) : A := fst (fst out).
Definition final {S A : Type} (out : A * S * list event) : S := snd (fst out).

(** The database calls of a trace: everything but the printed lines. *)
Definition is_stdout (e : event) : bool :=
  match e with Stdout _ => true | _ => false end.
Definition db_calls (evs : list event) : list event :=
  filter (fun e => negb (is_stdout e)) evs.

(** The row lists that were bulk-inserted, one per [executemany]. *)
Definition inserted (evs : list event) : list rows :=
  flat_map (fun e => match e with Executemany rs => [rs] | _ => [] end) evs.

Definition category_rows (evs : list event) : list (string * string) :=
  flat_map (fun e => match e with Executemany (CategoryRows l) => l | _ => [] end) evs.
Definition supplier_rows (evs : list event) : list supplier :=
  flat_map (fun e => match e with Executemany (SupplierRows l) => l | _ => [] end) evs.
Definition customer_rows (evs : list event) : list customer :=
  flat_map (fun e => match e with Executemany (CustomerRows l) => l | _ => [] end) evs.
Definition product_rows (evs : list event) : list product :=
  flat_map (fun e => match e with Executemany (ProductRows l) => l | _ => [] end) evs.

(** The batches of one table, one list per [executemany]. *)
Definition customer_batches (evs : list event) : list (list customer) :=
  flat_map (fun e => match e with Executemany (CustomerRows l) => [l] | _ => [] end) evs.
Definition product_batches (evs : list event) : list (list product) :=
  flat_map (fun e => match e with Executemany (ProductRows l) => [l] | _ => [] end) evs.

Definition is_commit (e : event) : bool :=
  match e with Commit => true | _ => false end.
Definition commits (evs : list event) : nat := List.length (filter is_commit evs).

Definition is_connect (e : event) : bool :=
  match e with Connect _ => true | _ => false end.

(** The number printed after the text [before], if such a line was printed. *)
Fixpoint reported (before : string) (evs : list event) : option Z :=
  match evs with
  | [] => None
  | Stdout (Count b n _) :: evs' =>
      if (b =? before)%string then Some n else reported before evs'
  | _ :: evs' => reported before evs'
  end.

(** ** Readings of the claims' words *)

(** A supplier id refers to a row of Suppliers when it is at most the
    number of rows inserted there: [SupplierID] is [IDENTITY(1,1)], so
    the 5000 rows get the ids 1 to 5000. *)
Definition SUPPLIERS_TOTAL : Z := 5000.
Definition orphaned (supplier_id : Z) : bool := SUPPLIERS_TOTAL <? supplier_id.

(** [random.uniform(a, b)] in binary64, as CPython computes it. *)
Definition uniform_binary64 (a b x : float) : float := (a + (b - a) * x)%float.

(** The largest value [random.random()] can return: 1 - 2^-53. *)
Definition largest_random : float := 0x1.fffffffffffffp-1%float.

(** ** Scripted generators

    Test doubles for the two libraries: each replays a script.  The
    [random] double reads raw integers off a tape, [random()] as
    [k mod 2^53 / 2^53] and [_randbelow(n)] as [k mod n]; an exhausted
    tape reads 0.  The [Faker] double reads strings off one tape and date
    offsets off another. *)

Module Scripted.

Definition pop (t : list Z) : Z * list Z :=
  match t with
  | [] => (0, [])
  | k :: t' => (k, t')
  end.

Definition two53 : positive := 9007199254740992.

Definition tape_random (t : list Z) : Q * list Z :=
  ((fst (pop t) mod Zpos two53) # two53, snd (pop t)).

Definition tape_below (n : Z) (t : list Z) : Z * list Z :=
  (fst (pop t) mod n, snd (pop t)).

Lemma tape_random_unit (t : list Z) :
  (0 <= fst (tape_random t) /\ fst (tape_random t) < 1)%Q.
Proof.
  unfold tape_random, Qle, Qlt; simpl fst.
  pose proof (Z.mod_pos_bound (fst (pop t)) (Zpos two53) eq_refl) as Hb.
  cbn [Qnum Qden]. split; lia.
Qed.

Lemma tape_below_range (n : Z) (t : list Z) :
  0 < n -> 0 <= fst (tape_below n t) < n.
Proof. intro Hn. unfold tape_below; simpl fst. apply Z.mod_pos_bound; exact Hn. Qed.

(** The [random] double whose tape after [seed(n)] is [script n]. *)
Definition random_of (script : Z -> list Z) : PyRandom (list Z) :=
  {| seeded := script;
     next_random := tape_random;
     next_below := tape_below;
     next_random_unit := tape_random_unit;
     next_below_range := tape_below_range |}.

Record tapes : Type := { strings : list string; numbers : list Z }.

Definition pop_string (f : tapes) : string * tapes :=
  match strings f with
  | [] => (EmptyString, f)
  | s :: l => (s, {| strings := l; numbers := numbers f |})
  end.

Definition DAY : Z := 86400.

(** The relative dates the script uses, in seconds. *)
Definition offset (d : string) : Z :=
  if (d =? "now")%string then 0
  else if (d =? "+1d")%string then DAY
  else if (d =? "+30d")%string then 30 * DAY
  else if (d =? "-5y")%string then - (5 * 365 * DAY)
  else if (d =? "-3y")%string then - (3 * 365 * DAY)
  else 0.

(** A timestamp between [now + offset start] and [now + offset end]. *)
Definition tape_date (now : Z) (start_date end_date : string) (f : tapes) : Z * tapes :=
  let lo := now + offset start_date in
  let hi := now + offset end_date in
  (lo + fst (pop (numbers f)) mod (hi - lo + 1),
   {| strings := strings f; numbers := snd (pop (numbers f)) |}).

(** The [Faker] double whose tapes after [Faker.seed(n)] are [script n]. *)
Definition faker_of (script : Z -> tapes) : Faker tapes :=
  {| faker_seeded := script;
     draw_name := pop_string;
     draw_email := pop_string;
     draw_phone_number := pop_string;
     draw_country := pop_string;
     draw_company := pop_string;
     draw_bs := pop_string;
     draw_last_name := pop_string;
     draw_date_time_between := tape_date |}.

(** The tape entry that [random()] reads as 1/2. *)
Definition half : Z := 4503599627370496.

End Scripted.

(** ** A postcondition calculus for the script's monad *)

(** [returns m st P]: run from [st], the program [m] does not raise, and
    its value, final state and events satisfy [P]. *)
Definition returns {R F A : Type} (m : M R F A) (st : state R F)
           (P : A -> state R F -> list event -> Prop) : Prop :=
  exists a st' evs, m st = (Ok a, st', evs) /\ P a st' evs.

(** [silent m st P]: as [returns], for a program that causes no event and
    whose postcondition reads the value only. *)
Definition silent {R F A : Type} (m : M R F A) (st : state R F) (P : A -> Prop) : Prop :=
  returns m st (fun a _ evs => P a /\ evs = []).

(** [emits K m]: every event [m] causes, whether it returns or raises,
    satisfies [K]. *)
Definition emits {R F A : Type} (K : event -> Prop) (m : M R F A) : Prop :=
  forall st, Forall K (trace (m st)).

(** ** Vocabulary of the statements *)

Create HintDb emits discriminated.

(** The database calls of loop iteration [batch_num] that inserts [batch]:
    the bulk insert, then a commit when [batch_num + 1] is a multiple of
    [COMMIT_EVERY_N_BATCHES]. *)
Definition batch_calls {B : Type} (wrap : list B -> rows) (p : Z * list B) : list event :=
  Executemany (wrap (snd p))
  :: (if (fst p + 1) mod COMMIT_EVERY_N_BATCHES =? 0 then [Commit] else []).

(** The database calls of a whole loading phase that inserts [batches]:
    the iterations in order, then the commit after the loop. *)
Definition loading_calls {B : Type} (wrap : list B -> rows) (batches : list (list B)) : list event :=
  flat_map (batch_calls wrap) (combine (range (Z.of_nat (List.length batches))) batches)
  ++ [Commit].

(** Batch numbers in [0, n) after which the periodic commit fires. *)
Definition commit_due (batch_num : Z) : bool :=
  (batch_num + 1) mod COMMIT_EVERY_N_BATCHES =? 0.

(** What holds of the product row generated at index [i] of a batch,
    whatever the draws. *)
Definition product_row_ok (i : Z) (r : product) : Prop :=
  (prod_name r = None \/
   prod_name r = nth_error PRODUCT_NAMES (Z.to_nat (i mod 25))) /\
  1 <= prod_category_id r <= 8 /\
  1 <= prod_supplier_id r <= 6000 /\
  ((-1000 < prod_unit_price r /\ prod_unit_price r <= -10) \/
   (5 <= prod_unit_price r /\ prod_unit_price r < 2000))%Q /\
  (-100 <= prod_stock_quantity r <= -1 \/ 0 <= prod_stock_quantity r <= 1000).

(** An event is fine when, if it inserts product rows, the batch
    satisfies [P]. *)
Definition product_batches_satisfy (P : list product -> Prop) (e : event) : Prop :=
  match e with
  | Executemany (ProductRows l) => P l
  | _ => True
  end.

(** The catalog entry that position [j] of a batch receives. *)
Definition name_at (j : nat) : option string :=
  nth_error PRODUCT_NAMES (Z.to_nat (Z.of_nat j mod 25)).

(** The table a bulk insert writes to. *)
Definition table_of (rs : rows) : table :=
  match rs with
  | CategoryRows _ => Categories
  | SupplierRows _ => Suppliers
  | CustomerRows _ => Customers
  | ProductRows _ => Products
  end.

(** The texts before the numbers that the four table phases print. *)
Definition progress_labels : list string :=
  [ "✓ Categories inserted: "; "  ✓ Committed "; "  Inserted ";
    "✓ Customers inserted: "; "✓ Products inserted: " ].

(** The texts before the numbers of the final summary. *)
Definition summary_labels : list string :=
  [ "  Categories:       "; "  Suppliers:        "; "  Customers:        ";
    "  Products:         "; "  TOTAL:            " ].

(** What the phase of table [t] may emit: lines (numbered ones with a
    progress label), statements on [t], bulk inserts into [t], commits. *)
Definition phase_event (t : table) (e : event) : Prop :=
  match e with
  | Stdout (Count b _ _) => In b progress_labels
  | Stdout _ => True
  | Executemany rs => table_of rs = t
  | ExecuteDropIfExists t' => t' = t
  | ExecuteCreateTable t' => t' = t
  | Commit => True
  | Connect _ => False
  | CursorClose => False
  | ConnClose => False
  end.

(** What is left of a run around its table phases: lines that carry no
    progress number, and closing the cursor and the connection. *)
Definition housekeeping (e : event) : Prop :=
  match e with
  | Stdout (Count _ _ _) => False
  | Stdout _ => True
  | CursorClose => True
  | ConnClose => True
  | _ => False
  end.

(** The database name: [os.getenv("SQL_SERVER_DB", "TransactionDB_UAT")]. *)
Definition SQL_DB_of (getenv : string -> option string) : string :=
  match getenv "SQL_SERVER_DB" with
  | Some v => v
  | None => "TransactionDB_UAT"
  end.

(** The connection string, as the script concatenates it. *)
Definition conn_string_of (host db : string) : string :=
  ("DRIVER={ODBC Driver 17 for SQL Server};" ++ "SERVER=" ++ host ++ ";"
   ++ "DATABASE=" ++ db ++ ";" ++ "Trusted_Connection=yes;")%string.

(** The six lines printed before the connection is attempted. *)
Definition banner (host db : string) : list event :=
  [ Stdout (Text rule);
    Stdout (Text "SQL SERVER DATA GENERATOR (1M+ ROWS)");
    Stdout (Text rule);
    Stdout (Text ("Connecting to: " ++ host));
    Stdout (Text ("Database:      " ++ db));
    Stdout (Text rule) ].

(** An event that inserts nothing into Categories or Suppliers. *)
Definition after_suppliers (e : event) : Prop :=
  match e with
  | Executemany (CategoryRows _) => False
  | Executemany (SupplierRows _) => False
  | _ => True
  end.

Section Vocabulary.

Context {R F : Type} {random_lib : PyRandom R} {faker_lib : Faker F}.
Variable clock : nat -> Z.
Variable cfg : Config.

(** What a loading phase does, for any property [Q] its row generator
    guarantees: it returns the number of rows inserted; it inserted
    [N // B] batches of [B] rows each; its database calls are exactly
    the schedule [loading_calls]. *)
Definition loaded {B} (wrap : list B -> rows) (Q : Z -> B -> Prop) (N : Z)
           (total : Z) (evs : list event) : Prop :=
  exists batches : list (list B),
    db_calls evs = loading_calls wrap batches /\
    Z.of_nat (List.length batches) = N / BATCH_SIZE cfg /\
    Forall (Forall2 Q (range (BATCH_SIZE cfg))) batches /\
    Forall (fun b => Z.of_nat (List.length b) = BATCH_SIZE cfg) batches /\
    total = N / BATCH_SIZE cfg * BATCH_SIZE cfg.

(** A batch of [BATCH_SIZE] product rows, each well formed at its index. *)
Definition good_batch (batch : list product) : Prop :=
  Forall2 product_row_ok (range (BATCH_SIZE cfg)) batch.

(** The state after both seeds are set and [conn] and [cursor] are
    initialised to [None]. *)
Definition seeded_state (st : state R F) : state R F :=
  with_conn false false (with_rng (seeded 42) (with_fake (faker_seeded 42) st)).

(** The state in which the [try] block starts populating the tables: it
    depends on nothing but the two seeds. *)
Definition seeded_start : state R F :=
  {| rng := seeded 42; fake := faker_seeded 42; ticks := O; conn := true; cursor := true |}.

(** The [try] block once the connection is made. *)
Definition populate : M R F unit :=
  bind (print (Text ("✓ Connected to SQL Server" ++ newline))) (fun _ =>
  bind table_categories (fun _ =>
  bind table_suppliers (fun _ =>
  bind (table_customers clock cfg) (fun _ =>
  bind (table_products clock cfg) (fun _ =>
  final_summary cfg))))).

(** The rest of the [try] block once Suppliers is loaded. *)
Definition load_and_summarise : M R F unit :=
  bind (table_customers clock cfg) (fun _ =>
  bind (table_products clock cfg) (fun _ => final_summary cfg)).

End Vocabulary.

(** ** Fixtures: concrete runs for the witnesses and counterexamples *)

Module Fixture.

Import Scripted.

Definition at_epoch : nat -> Z := fun _ => 0.
Definition at_2001 : nat -> Z := fun _ => 1000000000.

Definition env_host (k : string) : option string :=
  if (k =? "SQL_SERVER_HOST")%string then Some "localhost\SQLEXPRESS" else None.
Definition env_empty (k : string) : option string := None.

Definition no_tapes : tapes := {| strings := []; numbers := [] |}.

(** Both doubles replay an empty script whatever the seed. *)
Definition blank_random : PyRandom (list Z) := random_of (fun _ => []).
Definition blank_faker : Faker tapes := faker_of (fun _ => no_tapes).

Definition tiny : Config :=
  {| BATCH_SIZE := 2; CUSTOMERS_TOTAL := 5; PRODUCTS_TOTAL := 3 |}.
Definition one_batch : Config :=
  {| BATCH_SIZE := 10000; CUSTOMERS_TOTAL := 10000; PRODUCTS_TOTAL := 10000 |}.
Definition with_remainder : Config :=
  {| BATCH_SIZE := 10000; CUSTOMERS_TOTAL := 10005; PRODUCTS_TOTAL := 150000 |}.

Definition blank : state (list Z) tapes := fresh [] no_tapes.

(** No name defect ([u = 1/2]), no email defect ([v = 1/2]), first
    domain; the name drawn is "john smith". *)
Definition john : state (list Z) tapes :=
  fresh [half; half; 0]
        {| strings := ["john smith"; "555-0100"; "Wales"]; numbers := [] |}.

(** No name defect, price defect ([v = 0]), and [random()] returns 0
    inside [uniform]. *)
Definition defect_low : state (list Z) tapes := fresh [half; 0; 0] no_tapes.

(** No name defect, no price defect ([v = 1/2]), and [random()] returns 0
    inside [uniform]. *)
Definition normal_low : state (list Z) tapes := fresh [half; half; 0] no_tapes.

End Fixture.

(** On blank tapes every draw leaves the generators as they were, so the
    state after seeding is also the state after the Suppliers phase. *)
Definition seeded_blank : state (list Z) Scripted.tapes :=
  seeded_start (random_lib := Fixture.blank_random) (faker_lib := Fixture.blank_faker).

(** The state of the [random] generator when a product row draws its
    [supplier_id], given the state [r] the row starts from: after the
    [random()] of the name test, the [random()] of the price test, the
    [random()] inside [uniform], the [random()] of the stock test and the
    [_randbelow] inside the [randint] of the stock quantity
    ([randint(1, 100)] draws below 100, [randint(0, 1000)] below 1001). *)
Definition rng_at_supplier_id {R : Type} {random_lib : PyRandom R} (r : R) : R :=
  let r3 := snd (next_random (snd (next_random (snd (next_random r))))) in
  let w := fst (next_random r3) in
  let r4 := snd (next_random r3) in
  if Qlt_le_dec w (1 # 100)
  then snd (next_below 100 r4)
  else snd (next_below 1001 r4).

(** The state in which the five draws a product row makes before its
    [supplier_id] all read 0 off the tape and [_randbelow(6000)] reads [k]. *)
Definition supplier_draw (k : Z) : state (list Z) Scripted.tapes :=
  fresh [0; 0; 0; 0; 0; k] Fixture.no_tapes.

(** Whether a row was produced and is orphaned. *)
Definition orphaned_row (out : result product) : bool :=
  match out with
  | Ok row => orphaned (prod_supplier_id row)
  | Raise _ => false
  end.

(** ** Vocabulary of the further properties *)

(** Every character of [s] satisfies [p]. *)
Fixpoint all_chars (p : ascii -> bool) (s : string) : bool :=
  match s with
  | EmptyString => true
  | String c s' => p c && all_chars p s'
  end.

(** A string with no character other than whitespace (the empty string
    included): [not s.split()]. *)
Definition is_blank (s : string) : bool := all_chars PyStr.isspace s.

Definition starts_with_space (s : string) : bool :=
  match s with
  | EmptyString => false
  | String c _ => PyStr.isspace c
  end.

Fixpoint ends_with_space (s : string) : bool :=
  match s with
  | EmptyString => false
  | String c s' =>
      match s' with
      | EmptyString => PyStr.isspace c
      | String _ _ => ends_with_space s'
      end
  end.

(** Neither whitespace nor an upper-case letter. *)
Definition email_char (c : ascii) : bool :=
  negb (PyStr.isspace c) && negb (PyStr.isupper c).

Definition not_comma (c : ascii) : bool := negb (Ascii.eqb c ",").

(** [outcomes m Q E]: from every state, [m] either returns a value
    satisfying [Q] or raises an exception satisfying [E]. *)
Definition outcomes {R F A : Type} (m : M R F A) (Q : A -> Prop) (E : exn -> Prop) : Prop :=
  forall st, match outcome (m st) with
             | Ok a => Q a
             | Raise e => E e
             end.

(** [keeps_connection m]: [m] never rebinds [conn] or [cursor]. *)
Definition keeps_connection {R F A : Type} (m : M R F A) : Prop :=
  forall st, conn (final (m st)) = conn st /\ cursor (final (m st)) = cursor st.

Create HintDb keeps discriminated.

(** A name as [generate_supplier_name] returns it: no whitespace at
    either end. *)
Definition stripped (s : string) : Prop :=
  starts_with_space s = false /\ ends_with_space s = false /\ PyStr.strip s = s.

Definition DAY : Z := 86400.

(** What the documentation of [Faker.date_time_between] promises for the
    three pairs of relative dates the script passes, read against the
    clock: a date one to thirty days ahead, and a date not after now. *)
Definition dates_as_documented {F : Type} {faker_lib : Faker F} : Prop :=
  (forall now f, now + DAY <= fst (draw_date_time_between now "+1d" "+30d" f) <= now + 30 * DAY) /\
  (forall now f, fst (draw_date_time_between now "-5y" "now" f) <= now) /\
  (forall now f, fst (draw_date_time_between now "-3y" "now" f) <= now).

(** An event is fine when the rows it inserts, if any, satisfy the
    property given for their table. *)
Definition rows_satisfy (Ps : supplier -> Prop) (Pc : customer -> Prop) (Pp : product -> Prop)
           (e : event) : Prop :=
  match e with
  | Executemany (SupplierRows l) => Forall Ps l
  | Executemany (CustomerRows l) => Forall Pc l
  | Executemany (ProductRows l) => Forall Pp l
  | _ => True
  end.

(** A customer's creation date against the [k]-th reading of the clock:
    one to thirty days after it (the future-date defect) or not after
    it. *)
Definition customer_date_at (clock : nat -> Z) (k : nat) (r : customer) : Prop :=
  clock k + DAY <= cust_created r <= clock k + 30 * DAY \/ cust_created r <= clock k.

(** A product's creation date against the [k]-th reading of the clock:
    not after it. *)
Definition product_date_at (clock : nat -> Z) (k : nat) (r : product) : Prop :=
  prod_created r <= clock k.

(** The reading [k] is one of those numbered [lo] to [hi - 1]. *)
Definition reading_between (lo hi k : nat) : Prop := (lo <= k < hi)%nat.

(** An event is fine when every Customers or Products row it inserts has
    its creation date bounded by one of the readings [lo] to [hi - 1]. *)
Definition dated_between (clock : nat -> Z) (lo hi : nat) (e : event) : Prop :=
  rows_satisfy (fun _ => True)
               (fun r => exists k, reading_between lo hi k /\ customer_date_at clock k r)
               (fun r => exists k, reading_between lo hi k /\ product_date_at clock k r)
               e.

(** [during K lo m]: started after at least [lo] readings of the clock,
    [m] never turns the count of readings back, and every event it
    causes, whether it returns or raises, satisfies [K] at the count of
    readings [m] ends with. *)
Definition during {R F A : Type} (K : nat -> event -> Prop) (lo : nat) (m : M R F A) : Prop :=
  forall st, (lo <= ticks st)%nat ->
             (ticks st <= ticks (final (m st)))%nat /\
             Forall (K (ticks (final (m st)))) (trace (m st)).

Create HintDb during discriminated.

(** The host name: [SQL_HOST] once it is known to be set. *)
Definition SQL_HOST_of (getenv : string -> option string) : string :=
  match getenv "SQL_SERVER_HOST" with
  | Some h => h
  | None => EmptyString
  end.

(** What [except Exception as e] prints before it re-raises. *)
Definition error_report (e : exn) : list event :=
  [Stdout (Text (newline ++ "❌ General error occurred.")); Stdout (Shown e)].

Definition completion_line : event := Stdout (Text "✓ DATA GENERATION COMPLETE!").

(** An event other than opening or closing the connection. *)
Definition inside_connection (e : event) : Prop :=
  match e with
  | Connect _ => False
  | CursorClose => False
  | ConnClose => False
  | _ => True
  end.

(** An event other than the line that announces completion. *)
Definition before_completion (e : event) : Prop := e <> completion_line.

(** An event other than the printing of an exception. *)
Definition no_exception_shown (e : event) : Prop :=
  match e with
  | Stdout (Shown _) => False
  | _ => True
  end.

(** The state in which the [try] block starts populating the tables. *)
Definition started {R F : Type} {random_lib : PyRandom R} {faker_lib : Faker F}
           (st : state R F) : state R F :=
  with_conn true true (seeded_state st).

(** The statements that drop a table if it exists and create it anew. *)
Definition create_calls (t : table) : list event :=
  [ExecuteDropIfExists t; ExecuteCreateTable t].

(** Everything the Categories phase does. *)
Definition categories_events : list event :=
  [ Stdout (Text "Creating dbo.Categories ...");
    ExecuteDropIfExists Categories; ExecuteCreateTable Categories;
    Executemany (CategoryRows categories_data);
    Commit;
    Stdout (Count "✓ Categories inserted: " 8 (" rows" ++ newline)) ].

(** What the Suppliers phase does before it generates a name. *)
Definition suppliers_opening : list event :=
  [ Stdout (Text "Creating dbo.Suppliers (5,000 rows) ...");
    ExecuteDropIfExists Suppliers; ExecuteCreateTable Suppliers ].

(** What the Suppliers phase does once the rows [data] are generated. *)
Definition suppliers_closing (data : list supplier) : list event :=
  [ Executemany (SupplierRows data);
    Commit;
    Stdout (Text ("✓ Suppliers inserted: 5,000 rows" ++ newline)) ].

(** What the Customers phase does before its loading loop. *)
Definition customers_opening : list event :=
  [ Stdout (Text "Creating dbo.Customers (900,000 rows - batching) ...");
    ExecuteDropIfExists Customers; ExecuteCreateTable Customers;
    Commit ].

(** The database calls of a run that stops at the Suppliers names: the
    connection, Categories in full, Suppliers dropped and created, and
    the two [close] calls. *)
Definition calls_until_supplier_names (conn_string : string) : list event :=
  Connect conn_string
  :: create_calls Categories
  ++ [Executemany (CategoryRows categories_data); Commit]
  ++ create_calls Suppliers
  ++ [CursorClose; ConnClose].

(** The database calls of a run that stops at the Customers batch count. *)
Definition calls_until_customer_batches (conn_string : string) (suppliers : list supplier)
  : list event :=
  Connect conn_string
  :: create_calls Categories
  ++ [Executemany (CategoryRows categories_data); Commit]
  ++ create_calls Suppliers
  ++ [Executemany (SupplierRows suppliers); Commit]
  ++ create_calls Customers
  ++ [Commit; CursorClose; ConnClose].

(** The database calls of a complete run. *)
Definition calls_of_complete_run (conn_string : string) (suppliers : list supplier)
           (customers : list (list customer)) (products : list (list product)) : list event :=
  Connect conn_string
  :: create_calls Categories
  ++ [Executemany (CategoryRows categories_data); Commit]
  ++ create_calls Suppliers
  ++ [Executemany (SupplierRows suppliers); Commit]
  ++ create_calls Customers
  ++ [Commit]
  ++ loading_calls CustomerRows customers
  ++ create_calls Products
  ++ [Commit]
  ++ loading_calls ProductRows products
  ++ [CursorClose; ConnClose].

(** The lines of a trace, in order. *)
Definition printed (evs : list event) : list message :=
  flat_map (fun e => match e with Stdout m => [m] | _ => [] end) evs.

(** The lines iteration [batch_num] of a loading loop prints when the
    running total has reached [total_inserted]: the commit line every
    [COMMIT_EVERY_N_BATCHES] batches, then the progress line every
    [progress] batches. *)
Definition progress_lines (label noun : string) (progress batch_num total_inserted : Z)
  : list message :=
  (if (batch_num + 1) mod COMMIT_EVERY_N_BATCHES =? 0
   then [Count "  ✓ Committed " total_inserted (" " ++ label ++ "...")]
   else [])
  ++ (if (batch_num + 1) mod progress =? 0
      then [Count "  Inserted " total_inserted noun]
      else []).

(** ** Further fixtures *)

Module Scenario.
Import Scripted.

(** The company drawn is "Acme, Inc."; the type drawn is "company" and
    the suffix drawn is "Group". *)
Definition acme : state (list Z) tapes :=
  fresh [0; 6] {| strings := ["Acme, Inc."]; numbers := [] |}.

Definition zero_batch : Config :=
  {| BATCH_SIZE := 0; CUSTOMERS_TOTAL := 5; PRODUCTS_TOTAL := 3 |}.

(** After [random.seed], the first draw picks "business". *)
Definition business_random : PyRandom (list Z) := random_of (fun _ => [1]).

(** After [Faker.seed], the first string drawn is blank. *)
Definition blank_phrase_faker : Faker tapes :=
  faker_of (fun _ => {| strings := ["  "]; numbers := [] |}).

(** A [Faker] that returns the same values at every call. *)
Definition steady_faker : Faker unit :=
  {| faker_seeded := fun _ => tt;
     draw_name := fun f => ("Ann Lee", f);
     draw_email := fun f => ("ann@example.org", f);
     draw_phone_number := fun f => ("555-0100", f);
     draw_country := fun f => ("Wales", f);
     draw_company := fun f => ("Lee, Inc.", f);
     draw_bs := fun f => ("e-enable niches", f);
     draw_last_name := fun f => ("Lee", f);
     draw_date_time_between := fun now a b f => (now + offset a, f) |}.

Definition ten_batches : Config :=
  {| BATCH_SIZE := 1; CUSTOMERS_TOTAL := 10; PRODUCTS_TOTAL := 10 |}.

Definition small_totals : Config :=
  {| BATCH_SIZE := 10000; CUSTOMERS_TOTAL := 9999; PRODUCTS_TOTAL := -1 |}.

End Scenario.

Section Calculus.

Context {R F : Type} {random_lib : PyRandom R} {faker_lib : Faker F}.

Local Notation "x <- m ;; k" := (bind m (fun x => k))
  (at level 100, m at next level, right associativity).
Local Notation "m ;; k" := (bind m (fun _ => k))
  (at level 100, right associativity).

Lemma returns_ret {A} (a : A) (st : state R F) P :
  P a st [] -> returns (ret a) st P.
Proof. intro HP. exists a, st, []. split; [reflexivity | exact HP]. Qed.

Lemma returns_bind {A B} (m : M R F A) (k : A -> M R F B) (st : state R F) P :
  returns m st (fun a st1 ev1 =>
    returns (k a) st1 (fun b st2 ev2 => P b st2 (ev1 ++ ev2))) ->
  returns (bind m k) st P.
Proof.
  intros (a & st1 & ev1 & Hm & b & st2 & ev2 & Hk & HP).
  exists b, st2, (ev1 ++ ev2). split; [| exact HP].
  unfold bind. rewrite Hm, Hk. reflexivity.
Qed.

Lemma returns_weaken {A} (m : M R F A) (st : state R F) (P Q : A -> state R F -> list event -> Prop) :
  returns m st P -> (forall a st' evs, P a st' evs -> Q a st' evs) -> returns m st Q.
Proof.
  intros (a & st' & evs & Hm & HP) HPQ. exists a, st', evs. auto.
Qed.

Lemma returns_emit (e : event) (st : state R F) P :
  P tt st [e] -> returns (emit e) st P.
Proof. intro HP. exists tt, st, [e]. split; [reflexivity | exact HP]. Qed.

Lemma silent_ret {A} (a : A) (st : state R F) (P : A -> Prop) :
  P a -> silent (ret a) st P.
Proof. intro HP. apply returns_ret. split; [exact HP | reflexivity]. Qed.

Lemma silent_bind {A B} (m : M R F A) (k : A -> M R F B) (st : state R F)
      (Q : A -> Prop) (P : B -> Prop) :
  silent m st Q ->
  (forall a st1, Q a -> silent (k a) st1 P) ->
  silent (bind m k) st P.
Proof.
  intros Hm Hk. apply returns_bind.
  eapply returns_weaken; [exact Hm |].
  intros a st1 ev1 [HQ ->].
  eapply returns_weaken; [exact (Hk a st1 HQ) |].
  intros b st2 ev2 [HP ->]. split; [exact HP | reflexivity].
Qed.

Lemma silent_weaken {A} (m : M R F A) (st : state R F) (P Q : A -> Prop) :
  silent m st P -> (forall a, P a -> Q a) -> silent m st Q.
Proof.
  intros Hm HPQ. eapply returns_weaken; [exact Hm |].
  intros a st' evs [HP ->]. split; [apply HPQ; exact HP | reflexivity].
Qed.

(** The primitives of the two libraries. *)

Lemma silent_random (st : state R F) :
  silent random_random st (fun x => x = fst (next_random (rng st))).
Proof.
  unfold silent, returns, random_random.
  destruct (next_random (rng st)) as [x r]. simpl.
  eexists _, _, _. split; [reflexivity |]. split; reflexivity.
Qed.

Lemma silent_random_unit (st : state R F) :
  silent random_random st (fun x => (0 <= x /\ x < 1)%Q).
Proof.
  eapply silent_weaken; [apply silent_random |].
  intros x ->. apply next_random_unit.
Qed.

Lemma silent_randbelow_draw (n : Z) (st : state R F) :
  0 < n ->
  silent (random_randbelow n) st (fun k => k = fst (next_below n (rng st)) /\ 0 <= k < n).
Proof.
  intro Hn. unfold silent, returns, random_randbelow.
  pose proof (next_below_range n (rng st) Hn) as Hk.
  destruct (next_below n (rng st)) as [k r]. cbn [fst] in *.
  eexists _, _, _. split; [reflexivity |]. split; [split; [reflexivity | exact Hk] | reflexivity].
Qed.

Lemma silent_randbelow (n : Z) (st : state R F) :
  0 < n -> silent (random_randbelow n) st (fun k => 0 <= k < n).
Proof.
  intro Hn. eapply silent_weaken; [apply silent_randbelow_draw; exact Hn |].
  intros k [_ Hk]. exact Hk.
Qed.

Lemma silent_randint (a b : Z) (st : state R F) :
  a <= b -> silent (random_randint a b) st (fun n => a <= n <= b).
Proof.
  intro Hab. unfold random_randint.
  destruct (0 <? b - a + 1) eqn:Hw; [| apply Z.ltb_ge in Hw; lia].
  eapply silent_bind; [apply silent_randbelow; lia |].
  intros k st1 Hk. cbv beta in Hk. apply silent_ret. lia.
Qed.

Lemma silent_uniform (a b : Q) (st : state R F) :
  (a <= b)%Q ->
  silent (random_uniform a b) st (fun x => (a <= x)%Q /\ (a < b -> x < b)%Q).
Proof.
  intro Hab. unfold random_uniform.
  eapply silent_bind; [apply silent_random_unit |].
  intros x st1 [H0 H1]. cbv beta in H0, H1. apply silent_ret.
  split; [| intro Hlt]; nra.
Qed.

Lemma silent_choice {A} (seq : list A) (st : state R F) :
  seq <> [] ->
  silent (random_choice seq) st (fun x =>
    exists k, 0 <= k < Z.of_nat (List.length seq) /\
              k = fst (next_below (Z.of_nat (List.length seq)) (rng st)) /\
              nth_error seq (Z.to_nat k) = Some x).
Proof.
  intro Hne. unfold random_choice.
  destruct seq as [| a l]; [contradiction |].
  assert (Hlen : 0 < Z.of_nat (List.length (a :: l))) by (cbn [List.length]; lia).
  eapply silent_bind; [apply silent_randbelow_draw; exact Hlen |].
  intros k st1 [Hk Hr]. cbv beta in Hk, Hr.
  destruct (nth_error (a :: l) (Z.to_nat k)) as [x |] eqn:Hx.
  - apply silent_ret. exists k. repeat split; try lia; assumption.
  - apply nth_error_None in Hx. lia.
Qed.

Lemma silent_provider (draw : F -> string * F) (st : state R F) :
  silent (provider draw) st (fun s => s = fst (draw (fake st))).
Proof.
  unfold silent, returns, provider. destruct (draw (fake st)) as [s f]. simpl.
  eexists _, _, _. split; [reflexivity |]. split; reflexivity.
Qed.

Lemma silent_date (clock : nat -> Z) (a b : string) (st : state R F) :
  silent (fake_date_time_between clock a b) st
         (fun t => t = fst (draw_date_time_between (clock (ticks st)) a b (fake st))).
Proof.
  unfold silent, returns, fake_date_time_between.
  destruct (draw_date_time_between (clock (ticks st)) a b (fake st)) as [t f]. simpl.
  eexists _, _, _. split; [reflexivity |]. split; reflexivity.
Qed.

(** List comprehensions and appending loops. *)

Lemma silent_for_list {A B} (f : A -> M R F B) (Q : A -> B -> Prop) (l : list A) :
  (forall x st, In x l -> silent (f x) st (Q x)) ->
  forall st, silent (for_list l f) st (fun ys => Forall2 Q l ys).
Proof.
  induction l as [| x l IH]; intros Hf st.
  - apply silent_ret. constructor.
  - cbn [for_list].
    eapply silent_bind; [apply Hf; left; reflexivity |].
    intros y st1 Hy.
    eapply silent_bind; [apply IH; intros; apply Hf; right; assumption |].
    intros ys st2 Hys. apply silent_ret. constructor; assumption.
Qed.

End Calculus.

(** ** One row at a time *)

(** Step over a program whose run from the current state is known. *)
Ltac run_with H :=
  apply returns_bind; eexists _, _, _; split; [exact H |]; cbv beta.

Section Rows.

Context {R F : Type} {random_lib : PyRandom R} {faker_lib : Faker F}.
Variable clock : nat -> Z.

(** What each primitive returns, as an equation. *)

Lemma run_random (st : state R F) :
  random_random st
  = (Ok (fst (next_random (rng st))), with_rng (snd (next_random (rng st))) st, []).
Proof. unfold random_random. destruct (next_random (rng st)); reflexivity. Qed.

Lemma run_randbelow (n : Z) (st : state R F) :
  random_randbelow n st
  = (Ok (fst (next_below n (rng st))), with_rng (snd (next_below n (rng st))) st, []).
Proof. unfold random_randbelow. destruct (next_below n (rng st)); reflexivity. Qed.

Lemma run_provider (draw : F -> string * F) (st : state R F) :
  provider draw st = (Ok (fst (draw (fake st))), with_fake (snd (draw (fake st))) st, []).
Proof. unfold provider. destruct (draw (fake st)); reflexivity. Qed.

Lemma run_bind {A B} (m : M R F A) (k : A -> M R F B) (st st1 : state R F) a ev1 :
  m st = (Ok a, st1, ev1) ->
  bind m k st = (fst (fst (k a st1)), snd (fst (k a st1)), ev1 ++ snd (k a st1)).
Proof.
  intro Hm. unfold bind. rewrite Hm. destruct (k a st1) as [[r st2] ev2]. reflexivity.
Qed.

Lemma run_choice {A} (seq : list A) (st : state R F) :
  seq <> [] ->
  exists x,
    nth_error seq (Z.to_nat (fst (next_below (Z.of_nat (List.length seq)) (rng st)))) = Some x /\
    random_choice seq st
    = (Ok x, with_rng (snd (next_below (Z.of_nat (List.length seq)) (rng st))) st, []).
Proof.
  intro Hne. destruct seq as [| a l]; [contradiction |].
  assert (Hlen : 0 < Z.of_nat (List.length (a :: l))) by (cbn [List.length]; lia).
  pose proof (next_below_range _ (rng st) Hlen) as Hk.
  destruct (nth_error (a :: l) (Z.to_nat (fst (next_below (Z.of_nat (List.length (a :: l))) (rng st)))))
    as [x |] eqn:Hx.
  - exists x. split; [reflexivity |].
    unfold random_choice. erewrite run_bind by apply run_randbelow.
    rewrite Hx. reflexivity.
  - apply nth_error_None in Hx. lia.
Qed.

(** The tail of a customer row (date, phone, country, activity flag)
    cannot raise and causes no event. *)
Lemma silent_created_date (w : Q) (st : state R F) :
  silent (if Qlt_le_dec w (1 # 100)
          then fake_date_time_between clock "+1d" "+30d"
          else fake_date_time_between clock "-5y" "now") st (fun _ => True).
Proof.
  destruct (Qlt_le_dec w (1 # 100));
    (eapply silent_weaken; [apply silent_date | intros; exact I]).
Qed.

Lemma silent_customer_tail (name_email : option string * string) (st : state R F) :
  silent (bind random_random (fun w =>
          bind (if Qlt_le_dec w (1 # 100)
                then fake_date_time_between clock "+1d" "+30d"
                else fake_date_time_between clock "-5y" "now") (fun created_date =>
          bind fake_phone_number (fun phone =>
          bind fake_country (fun country =>
          bind (random_choice [0; 1]) (fun is_active =>
          ret {| cust_name := fst name_email; cust_email := snd name_email;
                 cust_phone := PyStr.take 20 phone; cust_country := PyStr.take 100 country;
                 cust_created := created_date; cust_is_active := is_active |}))))))
         st
         (fun row => cust_name row = fst name_email /\ cust_email row = snd name_email /\
                     (cust_is_active row = 0 \/ cust_is_active row = 1)).
Proof.
  eapply silent_bind; [apply silent_random |]. intros w st1 _.
  eapply silent_bind; [apply silent_created_date |]. intros created st2 _.
  eapply silent_bind; [apply silent_provider |]. intros phone st3 _.
  eapply silent_bind; [apply silent_provider |]. intros country st4 _.
  eapply silent_bind; [apply silent_choice; discriminate |].
  intros active st5 (k & Hk & _ & Hnth). cbn [List.length] in Hk.
  apply silent_ret. cbn [cust_name cust_email cust_is_active].
  repeat split.
  assert (Hc : Z.to_nat k = 0%nat \/ Z.to_nat k = 1%nat) by lia.
  destruct Hc as [Hc | Hc]; rewrite Hc in Hnth; cbn in Hnth; inversion Hnth; auto.
Qed.

(** A customer row is always produced, and silently. *)
Lemma silent_customer_row (st : state R F) :
  silent (customer_row clock) st (fun _ => True).
Proof.
  unfold customer_row.
  eapply silent_bind; [apply silent_random |]. intros u st1 _.
  eapply silent_bind with (Q := fun _ => True).
  - destruct (Qlt_le_dec u (5 # 1000)).
    + eapply silent_bind; [apply silent_provider |]. intros; apply silent_ret; exact I.
    + eapply silent_bind; [apply silent_provider |]. intros name st2 _.
      destruct (2 <=? Z.of_nat (List.length (PyStr.split (PyStr.lower name)))).
      * eapply silent_bind; [apply silent_random |]. intros v st3 _.
        destruct (Qlt_le_dec v (1 # 100)).
        -- apply silent_ret; exact I.
        -- eapply silent_bind; [apply silent_choice; discriminate |].
           intros; apply silent_ret; exact I.
      * eapply silent_bind; [apply silent_provider |]. intros; apply silent_ret; exact I.
  - intros ne st2 _.
    eapply silent_weaken; [apply silent_customer_tail | intros; exact I].
Qed.

(** C2, first as a statement about the primitive draws. *)
Lemma customer_row_normal (st : state R F) :
  let u := fst (next_random (rng st)) in
  let r1 := snd (next_random (rng st)) in
  let customer_name := fst (draw_name (fake st)) in
  let name_parts := PyStr.split (PyStr.lower customer_name) in
  let v := fst (next_random r1) in
  let k := fst (next_below 6 (snd (next_random r1))) in
  ~ (u < 5 # 1000)%Q ->
  (2 <= List.length name_parts)%nat ->
  ~ (v < 1 # 100)%Q ->
  exists domain,
    nth_error EMAIL_DOMAINS (Z.to_nat k) = Some domain /\
    returns (customer_row clock) st (fun row _ evs =>
      evs = [] /\
      cust_name row = Some customer_name /\
      cust_email row
      = (PyStr.first_of name_parts ++ "." ++ PyStr.last_of name_parts ++ "@" ++ domain)%string).
Proof.
  intros u r1 customer_name name_parts v k Hu Hparts Hv.
  set (st1 := with_rng r1 st).
  set (st2 := with_fake (snd (draw_name (fake st))) st1).
  set (st3 := with_rng (snd (next_random r1)) st2).
  destruct (run_choice EMAIL_DOMAINS st3 ltac:(discriminate)) as (domain & Hnth & Hrun).
  exists domain. split; [exact Hnth |].
  unfold customer_row.
  run_with (run_random st). fold u r1 st1.
  apply returns_bind.
  destruct (Qlt_le_dec u (5 # 1000)) as [Hlt | _]; [contradiction |].
  run_with (run_provider draw_name st1).
  change (fst (draw_name (fake st1))) with customer_name.
  fold name_parts.
  destruct (2 <=? Z.of_nat (List.length name_parts)) eqn:Hlen;
    [| apply Z.leb_gt in Hlen; lia].
  change (with_fake (snd (draw_name (fake st1))) st1) with st2.
  run_with (run_random st2).
  change (fst (next_random (rng st2))) with v.
  destruct (Qlt_le_dec v (1 # 100)) as [Hlt | _]; [contradiction |].
  change (with_rng (snd (next_random (rng st2))) st2) with st3.
  run_with Hrun.
  apply returns_ret.
  eapply returns_weaken; [apply silent_customer_tail |].
  intros row st' evs ((Hn & He & _) & ->). cbn [fst snd] in Hn, He.
  repeat split; assumption.
Qed.

Lemma run_index {A} (l : list A) (i : Z) (st : state R F) :
  0 <= i < Z.of_nat (List.length l) ->
  exists x, nth_error l (Z.to_nat i) = Some x /\ index l i st = (Ok x, st, []).
Proof.
  intro Hi. unfold index.
  assert (Hneg : (i <? 0) = false) by (apply Z.ltb_ge; lia).
  rewrite Hneg. cbv zeta. rewrite Hneg.
  destruct (nth_error l (Z.to_nat i)) as [x |] eqn:Hx.
  - exists x. split; reflexivity.
  - apply nth_error_None in Hx. lia.
Qed.

(** The tail of a product row (stock, supplier, category, date) cannot
    raise, causes no event, and keeps both keys in their ranges. *)
Lemma silent_product_tail (product_name : option string) (unit_price : Q) (st : state R F) :
  silent (bind random_random (fun w =>
          bind (if Qlt_le_dec w (1 # 100)
                then bind (random_randint 1 100) (fun n => ret (- n))
                else random_randint 0 1000) (fun stock_quantity =>
          bind (random_randint 1 6000) (fun supplier_id =>
          bind (random_randint 1 8) (fun category_id =>
          bind (fake_date_time_between clock "-3y" "now") (fun created =>
          ret {| prod_name := product_name; prod_category_id := category_id;
                 prod_supplier_id := supplier_id; prod_unit_price := unit_price;
                 prod_stock_quantity := stock_quantity; prod_created := created |}))))))
         st
         (fun row => prod_name row = product_name /\ prod_unit_price row = unit_price /\
                     1 <= prod_category_id row <= 8 /\
                     1 <= prod_supplier_id row <= 6000 /\
                     (-100 <= prod_stock_quantity row <= -1 \/
                      0 <= prod_stock_quantity row <= 1000)).
Proof.
  eapply silent_bind; [apply silent_random |]. intros w st1 _.
  eapply silent_bind with
    (Q := fun s => -100 <= s <= -1 \/ 0 <= s <= 1000).
  - destruct (Qlt_le_dec w (1 # 100)).
    + eapply silent_bind; [apply silent_randint; lia |].
      intros n st2 Hn. cbv beta in Hn. apply silent_ret. lia.
    + eapply silent_weaken; [apply silent_randint; lia |].
      intros n Hn. cbv beta in Hn. lia.
  - intros stock st2 Hstock.
    eapply silent_bind; [apply silent_randint; lia |]. intros supplier_id st3 Hs.
    eapply silent_bind; [apply silent_randint; lia |]. intros category_id st4 Hc.
    eapply silent_bind; [apply silent_date |]. intros created st5 _.
    apply silent_ret. cbn. cbv beta in Hs, Hc. repeat split; lia.
Qed.

(** A product row, as a function of the draws that decide its name and
    price: [u] gates the name, [v] gates the price, [x] is the draw
    inside [random.uniform]. *)
Lemma product_row_exact (i : Z) (st : state R F) :
  let u := fst (next_random (rng st)) in
  let r1 := snd (next_random (rng st)) in
  let v := fst (next_random r1) in
  let r2 := snd (next_random r1) in
  let x := fst (next_random r2) in
  returns (product_row clock i) st (fun row _ evs =>
    evs = [] /\
    prod_name row
    = (if Qlt_le_dec u (2 # 1000) then None
       else nth_error PRODUCT_NAMES (Z.to_nat (i mod 25))) /\
    prod_unit_price row
    = (if Qlt_le_dec v (5 # 1000) then - (10 + (1000 - 10) * x)
       else 5 + (2000 - 5) * x)%Q /\
    1 <= prod_category_id row <= 8 /\
    1 <= prod_supplier_id row <= 6000 /\
    (-100 <= prod_stock_quantity row <= -1 \/ 0 <= prod_stock_quantity row <= 1000)).
Proof.
  intros u r1 v r2 x.
  set (st1 := with_rng r1 st).
  set (st2 := with_rng r2 st1).
  unfold product_row.
  run_with (run_random st). fold u r1 st1.
  apply returns_bind.
  assert (Hname : returns
            (if Qlt_le_dec u (2 # 1000) then ret None
             else bind (index PRODUCT_NAMES (i mod Z.of_nat (List.length PRODUCT_NAMES)))
                       (fun n => ret (Some n)))
            st1
            (fun name st' evs =>
               st' = st1 /\ evs = [] /\
               name = (if Qlt_le_dec u (2 # 1000) then None
                       else nth_error PRODUCT_NAMES (Z.to_nat (i mod 25))))).
  { destruct (Qlt_le_dec u (2 # 1000)).
    - apply returns_ret. repeat split.
    - assert (Hi : 0 <= i mod 25 < Z.of_nat (List.length PRODUCT_NAMES))
        by (change (Z.of_nat (List.length PRODUCT_NAMES)) with 25; apply Z.mod_pos_bound; lia).
      destruct (run_index PRODUCT_NAMES (i mod 25) st1 Hi) as (n & Hn & Hrun).
      change (Z.of_nat (List.length PRODUCT_NAMES)) with 25.
      run_with Hrun. apply returns_ret. repeat split. symmetry; exact Hn. }
  eapply returns_weaken; [exact Hname |].
  intros name st' evs (-> & -> & Hn).
  run_with (run_random st1).
  change (fst (next_random (rng st1))) with v.
  change (with_rng (snd (next_random (rng st1))) st1) with st2.
  apply returns_bind.
  assert (Hprice : returns
            (if Qlt_le_dec v (5 # 1000)
             then bind (random_uniform 10 1000) (fun x0 => ret (- x0)%Q)
             else random_uniform 5 2000)
            st2
            (fun price _ evs =>
               evs = [] /\
               price = (if Qlt_le_dec v (5 # 1000) then - (10 + (1000 - 10) * x)
                        else 5 + (2000 - 5) * x)%Q)).
  { destruct (Qlt_le_dec v (5 # 1000)); unfold random_uniform.
    - apply returns_bind. run_with (run_random st2).
      apply returns_ret. apply returns_ret. split; reflexivity.
    - run_with (run_random st2). apply returns_ret. split; reflexivity. }
  eapply returns_weaken; [exact Hprice |].
  intros price st' evs (-> & Hp).
  eapply returns_weaken; [apply silent_product_tail |].
  intros row st'' evs ((Hrn & Hrp & Hc & Hs & Hq) & ->).
  rewrite Hrn, Hrp. repeat split; try assumption; lia.
Qed.

End Rows.

(** ** Batches and commits *)

Lemma range_length (n : Z) : List.length (range n) = Z.to_nat n.
Proof. unfold range. rewrite length_map, length_seq. reflexivity. Qed.

Lemma range_of_nat (n : nat) : range (Z.of_nat n) = map Z.of_nat (seq 0 n).
Proof. unfold range. rewrite Nat2Z.id. reflexivity. Qed.

Lemma db_calls_app (ev1 ev2 : list event) :
  db_calls (ev1 ++ ev2) = db_calls ev1 ++ db_calls ev2.
Proof. unfold db_calls. apply filter_app. Qed.

Lemma flat_map_db_calls {B} (f : event -> list B) (evs : list event) :
  (forall m, f (Stdout m) = []) ->
  flat_map f (db_calls evs) = flat_map f evs.
Proof.
  intro Hf. induction evs as [| e evs IH]; [reflexivity |].
  destruct e; cbn [db_calls filter is_stdout negb flat_map] in *;
    fold (db_calls evs); rewrite ?IH, ?Hf; reflexivity.
Qed.

Lemma customer_batches_db_calls (evs : list event) :
  customer_batches (db_calls evs) = customer_batches evs.
Proof. apply flat_map_db_calls. reflexivity. Qed.

Lemma product_batches_db_calls (evs : list event) :
  product_batches (db_calls evs) = product_batches evs.
Proof. apply flat_map_db_calls. reflexivity. Qed.

Lemma commits_db_calls (evs : list event) : commits (db_calls evs) = commits evs.
Proof.
  unfold commits, db_calls.
  induction evs as [| e evs IH]; [reflexivity |].
  destruct e; cbn [filter is_stdout is_commit negb List.length]; rewrite ?IH; reflexivity.
Qed.

Lemma commits_app (ev1 ev2 : list event) : commits (ev1 ++ ev2) = (commits ev1 + commits ev2)%nat.
Proof. unfold commits. rewrite filter_app, length_app. reflexivity. Qed.

Lemma commit_due_count (n : nat) :
  Z.of_nat (List.length (filter commit_due (range (Z.of_nat n)))) = Z.of_nat n / 10.
Proof.
  rewrite range_of_nat.
  induction n as [| n IH]; [reflexivity |].
  rewrite seq_S, map_app, filter_app, length_app, Nat2Z.inj_add, IH.
  cbn [map filter Nat.add]. unfold commit_due at 1, COMMIT_EVERY_N_BATCHES.
  destruct ((Z.of_nat n + 1) mod 10 =? 0) eqn:Hd;
    [apply Z.eqb_eq in Hd | apply Z.eqb_neq in Hd];
    cbn [List.length]; rewrite Nat2Z.inj_succ; unfold Z.succ;
    Z.div_mod_to_equations; lia.
Qed.

Lemma commits_batch_calls {B} (wrap : list B -> rows) (idx : list Z) :
  forall batches : list (list B),
    List.length batches = List.length idx ->
    commits (flat_map (batch_calls wrap) (combine idx batches))
    = List.length (filter commit_due idx).
Proof.
  induction idx as [| i idx IH]; intros [| b batches] Hlen; try discriminate; [reflexivity |].
  cbn [combine flat_map filter]. rewrite commits_app, IH by (cbn in Hlen; lia).
  unfold batch_calls at 1, commit_due at 2. cbn [fst snd].
  destruct ((i + 1) mod COMMIT_EVERY_N_BATCHES =? 0); reflexivity.
Qed.

Lemma commits_loading_calls {B} (wrap : list B -> rows) (batches : list (list B)) :
  Z.of_nat (commits (loading_calls wrap batches)) = Z.of_nat (List.length batches) / 10 + 1.
Proof.
  unfold loading_calls. rewrite commits_app, commits_batch_calls.
  - rewrite Nat2Z.inj_add, commit_due_count. reflexivity.
  - rewrite range_length, Nat2Z.id. reflexivity.
Qed.

Lemma customer_batches_batch_calls (idx : list Z) :
  forall batches : list (list customer),
    List.length batches = List.length idx ->
    customer_batches (flat_map (batch_calls CustomerRows) (combine idx batches)) = batches.
Proof.
  induction idx as [| i idx IH]; intros [| b batches] Hlen; try discriminate; [reflexivity |].
  cbn [combine flat_map]. unfold customer_batches in *. rewrite flat_map_app.
  rewrite IH by (cbn in Hlen; lia).
  unfold batch_calls. cbn [fst snd].
  destruct ((i + 1) mod COMMIT_EVERY_N_BATCHES =? 0); reflexivity.
Qed.

Lemma product_batches_batch_calls (idx : list Z) :
  forall batches : list (list product),
    List.length batches = List.length idx ->
    product_batches (flat_map (batch_calls ProductRows) (combine idx batches)) = batches.
Proof.
  induction idx as [| i idx IH]; intros [| b batches] Hlen; try discriminate; [reflexivity |].
  cbn [combine flat_map]. unfold product_batches in *. rewrite flat_map_app.
  rewrite IH by (cbn in Hlen; lia).
  unfold batch_calls. cbn [fst snd].
  destruct ((i + 1) mod COMMIT_EVERY_N_BATCHES =? 0); reflexivity.
Qed.

Lemma customer_batches_loading_calls (batches : list (list customer)) :
  customer_batches (loading_calls CustomerRows batches) = batches.
Proof.
  unfold loading_calls, customer_batches. rewrite flat_map_app.
  fold (customer_batches (flat_map (batch_calls CustomerRows)
          (combine (range (Z.of_nat (List.length batches))) batches))).
  rewrite customer_batches_batch_calls by (rewrite range_length, Nat2Z.id; reflexivity).
  cbn [flat_map]. apply app_nil_r.
Qed.

Lemma product_batches_loading_calls (batches : list (list product)) :
  product_batches (loading_calls ProductRows batches) = batches.
Proof.
  unfold loading_calls, product_batches. rewrite flat_map_app.
  fold (product_batches (flat_map (batch_calls ProductRows)
          (combine (range (Z.of_nat (List.length batches))) batches))).
  rewrite product_batches_batch_calls by (rewrite range_length, Nat2Z.id; reflexivity).
  cbn [flat_map]. apply app_nil_r.
Qed.

(** ** The loading loops *)

Section Loading.

Context {R F : Type} {random_lib : PyRandom R} {faker_lib : Faker F}.
Variable clock : nat -> Z.
Variable cfg : Config.

Lemma returns_floordiv (a b : Z) (st : state R F) P :
  b <> 0 -> P (a / b) st [] -> returns (floordiv a b) st P.
Proof.
  intros Hb HP. unfold floordiv.
  destruct (b =? 0) eqn:Hz; [apply Z.eqb_eq in Hz; contradiction |].
  apply returns_ret. exact HP.
Qed.

Lemma run_floordiv_zero (a : Z) (st : state R F) :
  floordiv a 0 st = (Raise ZeroDivisionError, st, []).
Proof. reflexivity. Qed.

Lemma returns_commit_periodically (batch_num total_inserted : Z) (label : string) (st : state R F) :
  returns (commit_periodically batch_num total_inserted label) st (fun _ _ evs =>
    db_calls evs = if commit_due batch_num then [Commit] else []).
Proof.
  unfold commit_periodically, commit_due.
  destruct ((batch_num + 1) mod COMMIT_EVERY_N_BATCHES =? 0).
  - apply returns_bind. apply returns_emit. apply returns_emit. reflexivity.
  - apply returns_ret. reflexivity.
Qed.

(** One iteration of a loading loop, for either table: [rows_of] builds
    the batch, [wrap] tags it, [progress] is the cadence of the progress
    line. *)
Lemma returns_iteration {B} (rows_of : M R F (list B)) (wrap : list B -> rows)
      (Q : list B -> Prop) (label noun : string) (progress : Z)
      (total_inserted batch_num : Z) (st : state R F) :
  (forall st, silent rows_of st Q) ->
  returns
    (bind rows_of (fun batch =>
     bind (cursor_executemany (wrap batch)) (fun _ =>
     bind (commit_periodically batch_num
             (total_inserted + Z.of_nat (List.length batch)) label) (fun _ =>
     bind (if (batch_num + 1) mod progress =? 0
           then print (Count "  Inserted "
                         (total_inserted + Z.of_nat (List.length batch)) noun)
           else ret tt) (fun _ =>
     ret (total_inserted + Z.of_nat (List.length batch)))))))
    st
    (fun total' _ evs =>
       exists batch, Q batch /\
         total' = total_inserted + Z.of_nat (List.length batch) /\
         db_calls evs = batch_calls wrap (batch_num, batch)).
Proof.
  intro Hrows.
  apply returns_bind. eapply returns_weaken; [apply Hrows |].
  intros batch st1 ev1 [HQ ->].
  apply returns_bind. apply returns_emit.
  apply returns_bind. eapply returns_weaken; [apply returns_commit_periodically |].
  intros u2 st2 ev2 Hev2. cbv beta in Hev2.
  apply returns_bind.
  assert (Hprint : returns
            (if (batch_num + 1) mod progress =? 0
             then print (Count "  Inserted "
                           (total_inserted + Z.of_nat (List.length batch)) noun)
             else ret tt) st2 (fun _ _ evs => db_calls evs = [])).
  { destruct ((batch_num + 1) mod progress =? 0).
    - apply returns_emit. reflexivity.
    - apply returns_ret. reflexivity. }
  eapply returns_weaken; [exact Hprint |].
  intros u3 st3 ev3 Hev3. cbv beta in Hev3.
  apply returns_ret. exists batch. split; [exact HQ |]. split; [reflexivity |].
  rewrite app_nil_r. cbn [app].
  change (Executemany (wrap batch) :: ev2 ++ ev3)
    with ([Executemany (wrap batch)] ++ (ev2 ++ ev3)).
  rewrite !db_calls_app, Hev2, Hev3, app_nil_r. reflexivity.
Qed.

(** The loop itself: [for batch_num in idx], from a running total. *)
Lemma returns_batches {B} (wrap : list B -> rows) (Q : list B -> Prop)
      (body : Z -> Z -> M R F Z) :
  (forall total i st,
      returns (body total i) st (fun total' _ evs =>
        exists batch, Q batch /\
          total' = total + Z.of_nat (List.length batch) /\
          db_calls evs = batch_calls wrap (i, batch))) ->
  forall (idx : list Z) (total : Z) (st : state R F),
    returns (for_each idx total body) st (fun total' _ evs =>
      exists batches,
        Forall Q batches /\
        List.length batches = List.length idx /\
        total' = total + Z.of_nat (List.length (List.concat batches)) /\
        db_calls evs = flat_map (batch_calls wrap) (combine idx batches)).
Proof.
  intro Hbody. induction idx as [| i idx IH]; intros total st.
  - apply returns_ret. exists []. repeat split; [constructor | cbn; lia].
  - cbn [for_each]. apply returns_bind.
    eapply returns_weaken; [apply Hbody |].
    intros total1 st1 ev1 (batch & HQ & -> & Hev1).
    eapply returns_weaken; [apply IH |].
    intros total2 st2 ev2 (batches & HQs & Hlen & -> & Hev2).
    exists (batch :: batches). repeat split.
    + constructor; assumption.
    + cbn [List.length]. lia.
    + cbn [List.concat]. rewrite length_app. lia.
    + rewrite db_calls_app, Hev1, Hev2. reflexivity.
Qed.

(** A batch is [BATCH_SIZE] rows, each satisfying what its generator
    guarantees at its index. *)
Lemma silent_batch {B} (row : Z -> M R F B) (Q : Z -> B -> Prop) (st : state R F) :
  (forall i st, silent (row i) st (Q i)) ->
  silent (for_list (range (BATCH_SIZE cfg)) row) st
         (fun batch => Forall2 Q (range (BATCH_SIZE cfg)) batch).
Proof. intro Hrow. apply silent_for_list. intros; apply Hrow. Qed.

Lemma Forall2_length_range {B} (Q : Z -> B -> Prop) (n : Z) (batch : list B) :
  0 <= n -> Forall2 Q (range n) batch -> Z.of_nat (List.length batch) = n.
Proof.
  intros Hn HQ. apply Forall2_length in HQ. rewrite range_length in HQ. lia.
Qed.

Lemma length_concat_uniform {B} (n : Z) (batches : list (list B)) :
  Forall (fun b => Z.of_nat (List.length b) = n) batches ->
  Z.of_nat (List.length (List.concat batches)) = Z.of_nat (List.length batches) * n.
Proof.
  induction 1 as [| b batches Hb _ IH]; [reflexivity |].
  cbn [List.concat List.length]. rewrite length_app. lia.
Qed.

Lemma returns_load_customers (Q : customer -> Prop) (st : state R F) :
  (forall st, silent (customer_row clock) st Q) ->
  0 <= CUSTOMERS_TOTAL cfg -> 0 < BATCH_SIZE cfg ->
  returns (load_customers clock cfg) st (fun total _ evs =>
    loaded cfg CustomerRows (fun _ => Q) (CUSTOMERS_TOTAL cfg) total evs).
Proof.
  intros Hrow HN HB. unfold load_customers.
  apply returns_bind. apply returns_floordiv; [lia |].
  apply returns_bind.
  eapply returns_weaken.
  - apply (returns_batches CustomerRows (Forall2 (fun _ => Q) (range (BATCH_SIZE cfg)))).
    intros total i st0.
    apply (returns_iteration
             (for_list (range (BATCH_SIZE cfg)) (fun _ => customer_row clock))
             CustomerRows _ "customers" " customers..." 10).
    intro st1. apply silent_batch. intros _ st2. apply Hrow.
  - intros total st1 ev1 (batches & HQs & Hlen & -> & Hev1).
    apply returns_bind. apply returns_emit.
    apply returns_bind. apply returns_emit.
    apply returns_ret.
    assert (HT : 0 <= CUSTOMERS_TOTAL cfg / BATCH_SIZE cfg) by (apply Z.div_pos; lia).
    rewrite range_length in Hlen.
    assert (Hsizes : Forall (fun b => Z.of_nat (List.length b) = BATCH_SIZE cfg) batches).
    { eapply Forall_impl; [| exact HQs]. intros b Hb.
      eapply Forall2_length_range; [| exact Hb]. lia. }
    exists batches. repeat split.
    + cbn [app]. rewrite db_calls_app, Hev1. unfold loading_calls.
      rewrite Hlen, Z2Nat.id by lia. reflexivity.
    + lia.
    + exact HQs.
    + exact Hsizes.
    + rewrite (length_concat_uniform (BATCH_SIZE cfg)) by exact Hsizes. lia.
Qed.

Lemma returns_load_products (Q : Z -> product -> Prop) (st : state R F) :
  (forall i st, silent (product_row clock i) st (Q i)) ->
  0 <= PRODUCTS_TOTAL cfg -> 0 < BATCH_SIZE cfg ->
  returns (load_products clock cfg) st (fun total _ evs =>
    loaded cfg ProductRows Q (PRODUCTS_TOTAL cfg) total evs).
Proof.
  intros Hrow HN HB. unfold load_products.
  apply returns_bind. apply returns_floordiv; [lia |].
  apply returns_bind.
  eapply returns_weaken.
  - apply (returns_batches ProductRows (Forall2 Q (range (BATCH_SIZE cfg)))).
    intros total i st0.
    apply (returns_iteration
             (for_list (range (BATCH_SIZE cfg)) (product_row clock))
             ProductRows _ "products" " products..." 5).
    intro st1. apply silent_batch. exact Hrow.
  - intros total st1 ev1 (batches & HQs & Hlen & -> & Hev1).
    apply returns_bind. apply returns_emit.
    apply returns_bind. apply returns_emit.
    apply returns_ret.
    assert (HT : 0 <= PRODUCTS_TOTAL cfg / BATCH_SIZE cfg) by (apply Z.div_pos; lia).
    rewrite range_length in Hlen.
    assert (Hsizes : Forall (fun b => Z.of_nat (List.length b) = BATCH_SIZE cfg) batches).
    { eapply Forall_impl; [| exact HQs]. intros b Hb.
      eapply Forall2_length_range; [| exact Hb]. lia. }
    exists batches. repeat split.
    + cbn [app]. rewrite db_calls_app, Hev1. unfold loading_calls.
      rewrite Hlen, Z2Nat.id by lia. reflexivity.
    + lia.
    + exact HQs.
    + exact Hsizes.
    + rewrite (length_concat_uniform (BATCH_SIZE cfg)) by exact Hsizes. lia.
Qed.

End Loading.

(** ** What a run can emit, whether or not it raises *)

Section Emits.

Context {R F : Type} {random_lib : PyRandom R} {faker_lib : Faker F}.
Variable K : event -> Prop.

Lemma emits_ret {A} (a : A) : emits K (ret (R := R) (F := F) a).
Proof. intro st. constructor. Qed.

Lemma emits_raise {A} (e : exn) : emits K (raise (R := R) (F := F) (A := A) e).
Proof. intro st. constructor. Qed.

Lemma emits_emit (e : event) : K e -> emits K (emit (R := R) (F := F) e).
Proof. intros He st. repeat constructor. exact He. Qed.

Lemma emits_bind {A B} (m : M R F A) (k : A -> M R F B) :
  emits K m -> (forall a, emits K (k a)) -> emits K (bind m k).
Proof.
  intros Hm Hk st. unfold bind, trace.
  specialize (Hm st). unfold trace in Hm.
  destruct (m st) as [[[a | e] st1] ev1]; cbn [snd] in *.
  - specialize (Hk a st1). unfold trace in Hk.
    destruct (k a st1) as [[r st2] ev2]. cbn [snd] in *.
    apply Forall_app. split; assumption.
  - exact Hm.
Qed.

(** When the first program is known to return a value satisfying [Q],
    the continuation is only run on such values. *)
Lemma emits_bind_silent {A B} (m : M R F A) (k : A -> M R F B) (Q : A -> Prop) :
  (forall st, silent m st Q) -> (forall a, Q a -> emits K (k a)) -> emits K (bind m k).
Proof.
  intros Hm Hk st. unfold bind, trace.
  destruct (Hm st) as (a & st1 & ev1 & Hrun & HQ & ->). rewrite Hrun.
  specialize (Hk a HQ st1). unfold trace in Hk.
  destruct (k a st1) as [[r st2] ev2]. cbn [snd app] in *. exact Hk.
Qed.

Lemma emits_if_bool {A} (c : bool) (m1 m2 : M R F A) :
  emits K m1 -> emits K m2 -> emits K (if c then m1 else m2).
Proof. destruct c; auto. Qed.

Lemma emits_if_dec {A} {P Q : Prop} (c : {P} + {Q}) (m1 m2 : M R F A) :
  emits K m1 -> emits K m2 -> emits K (if c then m1 else m2).
Proof. destruct c; auto. Qed.

Lemma emits_quiet {A} (m : M R F A) : (forall st, trace (m st) = []) -> emits K m.
Proof. intros Hm st. rewrite Hm. constructor. Qed.

Lemma emits_random : emits K (random_random (R := R) (F := F)).
Proof.
  apply emits_quiet. intro st. unfold random_random.
  destruct (next_random (rng st)); reflexivity.
Qed.

Lemma emits_randbelow (n : Z) : emits K (random_randbelow (R := R) (F := F) n).
Proof.
  apply emits_quiet. intro st. unfold random_randbelow.
  destruct (next_below n (rng st)); reflexivity.
Qed.

Lemma emits_choice {A} (seq : list A) : emits K (random_choice (R := R) (F := F) seq).
Proof.
  unfold random_choice. destruct seq as [| a l]; [apply emits_raise |].
  apply emits_bind; [apply emits_randbelow |].
  intro k. destruct (nth_error (a :: l) (Z.to_nat k)); [apply emits_ret | apply emits_raise].
Qed.

Lemma emits_randint (a b : Z) : emits K (random_randint (R := R) (F := F) a b).
Proof.
  unfold random_randint. apply emits_if_bool; [| apply emits_raise].
  apply emits_bind; [apply emits_randbelow | intro; apply emits_ret].
Qed.

Lemma emits_uniform (a b : Q) : emits K (random_uniform (R := R) (F := F) a b).
Proof.
  unfold random_uniform. apply emits_bind; [apply emits_random | intro; apply emits_ret].
Qed.

Lemma emits_provider (draw : F -> string * F) : emits K (provider (R := R) draw).
Proof.
  apply emits_quiet. intro st. unfold provider. destruct (draw (fake st)); reflexivity.
Qed.

Lemma emits_date (clock : nat -> Z) (a b : string) :
  emits K (fake_date_time_between (R := R) clock a b).
Proof.
  apply emits_quiet. intro st. unfold fake_date_time_between.
  destruct (draw_date_time_between (clock (ticks st)) a b (fake st)); reflexivity.
Qed.

Lemma emits_index {A} (l : list A) (i : Z) : emits K (index (R := R) (F := F) l i).
Proof.
  unfold index. cbv zeta. apply emits_if_bool; [apply emits_raise |].
  destruct (nth_error l _); [apply emits_ret | apply emits_raise].
Qed.

Lemma emits_floordiv (a b : Z) : emits K (floordiv (R := R) (F := F) a b).
Proof. unfold floordiv. apply emits_if_bool; [apply emits_raise | apply emits_ret]. Qed.

Lemma emits_seed_random (n : Z) : emits K (random_seed (R := R) (F := F) n).
Proof. apply emits_quiet. reflexivity. Qed.

Lemma emits_seed_faker (n : Z) : emits K (Faker_seed (R := R) (F := F) n).
Proof. apply emits_quiet. reflexivity. Qed.

Lemma emits_for_list {A B} (l : list A) (f : A -> M R F B) :
  (forall x, emits K (f x)) -> emits K (for_list l f).
Proof.
  intro Hf. induction l as [| x l IH]; cbn [for_list].
  - apply emits_ret.
  - apply emits_bind; [apply Hf |]. intro y.
    apply emits_bind; [exact IH |]. intro ys. apply emits_ret.
Qed.

Lemma emits_for_each {A S} (l : list A) (body : S -> A -> M R F S) :
  (forall acc x, emits K (body acc x)) -> forall acc, emits K (for_each l acc body).
Proof.
  intro Hb. induction l as [| x l IH]; intro acc; cbn [for_each].
  - apply emits_ret.
  - apply emits_bind; [apply Hb | exact IH].
Qed.

Lemma emits_try (body : M R F unit) (handler : exn -> M R F unit) (cleanup : M R F unit) :
  emits K body -> (forall e, emits K (handler e)) -> emits K cleanup ->
  emits K (try_except_finally body handler cleanup).
Proof.
  intros Hb Hh Hc st. unfold try_except_finally, trace.
  specialize (Hb st). unfold trace in Hb.
  destruct (body st) as [[[u | e] st1] ev1]; cbn [snd] in *.
  - specialize (Hc st1). unfold trace in Hc.
    destruct (cleanup st1) as [[r st2] ev2]. cbn [snd] in *.
    apply Forall_app. split; assumption.
  - specialize (Hh e st1). unfold trace in Hh.
    destruct (handler e st1) as [[r2 st2] ev2]. cbn [snd] in *.
    specialize (Hc st2). unfold trace in Hc.
    destruct (cleanup st2) as [[r3 st3] ev3]. cbn [snd] in *.
    repeat (apply Forall_app; split); assumption.
Qed.

End Emits.

#[export] Hint Resolve emits_ret emits_raise emits_bind emits_if_bool emits_if_dec
  emits_random emits_randbelow emits_choice emits_randint emits_uniform emits_provider
  emits_date emits_index emits_floordiv emits_seed_random emits_seed_faker
  emits_for_list emits_for_each emits_try : emits.

(** ** Every product row the script inserts *)

#[export] Hint Extern 1 (product_batches_satisfy _ _) => exact I : emits.

Lemma price_defect_range (x : Q) :
  (0 <= x)%Q -> (x < 1)%Q ->
  (-1000 < - (10 + (1000 - 10) * x) /\ - (10 + (1000 - 10) * x) <= -10)%Q.
Proof. intros H0 H1. split; lra. Qed.

Lemma price_normal_range (x : Q) :
  (0 <= x)%Q -> (x < 1)%Q ->
  (5 <= 5 + (2000 - 5) * x /\ 5 + (2000 - 5) * x < 2000)%Q.
Proof. intros H0 H1. split; lra. Qed.

Lemma product_batches_of_satisfy (P : list product -> Prop) (evs : list event) :
  Forall (product_batches_satisfy P) evs -> Forall P (product_batches evs).
Proof.
  induction 1 as [| e evs He _ IH]; [constructor |].
  unfold product_batches in *. cbn [flat_map].
  destruct e as [| | | | [| | |] | | |]; cbn [app]; try exact IH.
  constructor; [exact He | exact IH].
Qed.

Lemma product_rows_concat (evs : list event) :
  product_rows evs = List.concat (product_batches evs).
Proof.
  unfold product_rows, product_batches.
  induction evs as [| e evs IH]; [reflexivity |].
  cbn [flat_map]. destruct e as [| | | | [| | |] | | |]; cbn [app List.concat]; rewrite ?IH; reflexivity.
Qed.

Lemma customer_rows_concat (evs : list event) :
  customer_rows evs = List.concat (customer_batches evs).
Proof.
  unfold customer_rows, customer_batches.
  induction evs as [| e evs IH]; [reflexivity |].
  cbn [flat_map]. destruct e as [| | | | [| | |] | | |]; cbn [app List.concat]; rewrite ?IH; reflexivity.
Qed.

Lemma Forall2_range_each {B} (Q : Z -> B -> Prop) (idx : list Z) (batch : list B) :
  Forall2 Q idx batch -> Forall (fun r => exists i, In i idx /\ Q i r) batch.
Proof.
  induction 1 as [| i r idx batch Hq _ IH]; constructor.
  - exists i. split; [left; reflexivity | exact Hq].
  - eapply Forall_impl; [| exact IH].
    intros r' (j & Hj & Hq'). exists j. split; [right; exact Hj | exact Hq'].
Qed.

Section ProductRows.

Context {R F : Type} {random_lib : PyRandom R} {faker_lib : Faker F}.
Variable clock : nat -> Z.
Variable getenv : string -> option string.
Variable cfg : Config.

Lemma silent_product_row (i : Z) (st : state R F) :
  silent (product_row clock i) st (product_row_ok i).
Proof.
  eapply returns_weaken; [apply product_row_exact |].
  intros row st' evs (-> & Hname & Hprice & Hc & Hs & Hq).
  split; [| reflexivity]. unfold product_row_ok.
  repeat split; try lia.
  - rewrite Hname.
    match goal with |- context [Qlt_le_dec ?a ?b] => destruct (Qlt_le_dec a b) end;
      [left | right]; reflexivity.
  - rewrite Hprice.
    pose proof (next_random_unit (snd (next_random (snd (next_random (rng st)))))) as [H0 H1].
    match goal with |- context [Qlt_le_dec ?a ?b] => destruct (Qlt_le_dec a b) end;
      [left; apply price_defect_range | right; apply price_normal_range]; assumption.
Qed.

Lemma emits_load_products :
  emits (product_batches_satisfy (good_batch cfg)) (load_products (R := R) (F := F) clock cfg).
Proof.
  unfold load_products.
  apply emits_bind; [apply emits_floordiv |]. intro total_batches.
  apply emits_bind.
  - apply emits_for_each. intros total_inserted batch_num.
    apply emits_bind_silent with (Q := good_batch cfg).
    + intro st. apply silent_batch. apply silent_product_row.
    + intros batch Hbatch.
      apply emits_bind; [apply emits_emit; exact Hbatch |]. intros _.
      unfold commit_periodically, conn_commit, print.
      auto 20 using emits_emit with emits.
  - intro total. unfold conn_commit, print. auto 20 using emits_emit with emits.
Qed.

Lemma emits_generate_supplier_name (K : event -> Prop) :
  emits K (generate_supplier_name (R := R) (F := F)).
Proof.
  unfold generate_supplier_name, fake_company, fake_bs, fake_last_name.
  auto 30 with emits.
Qed.

Lemma emits_customer_row (K : event -> Prop) : emits K (customer_row (R := R) (F := F) clock).
Proof.
  unfold customer_row, fake_name, fake_email, fake_phone_number, fake_country.
  auto 40 with emits.
Qed.

Lemma emits_main_products :
  emits (product_batches_satisfy (good_batch cfg)) (main (R := R) (F := F) clock getenv cfg).
Proof.
  unfold main.
  apply emits_bind; [apply emits_seed_faker |]. intros _.
  apply emits_bind; [apply emits_seed_random |]. intros _.
  cbv zeta. apply emits_if_bool; [apply emits_raise |].
  unfold print.
  repeat (apply emits_bind; [apply emits_emit; exact I | intros _]).
  apply emits_bind; [apply emits_quiet; reflexivity | intros _].
  apply emits_try.
  - unfold try_body.
    apply emits_bind; [intro st; repeat constructor | intros _].
    apply emits_bind; [apply emits_emit; exact I | intros _].
    apply emits_bind.
    { unfold table_categories, recreate_table, cursor_executemany, conn_commit, print.
      auto 20 using emits_emit with emits. }
    intros _. apply emits_bind.
    { unfold table_suppliers, supplier_row, recreate_table, cursor_executemany, conn_commit,
        print, fake_name, fake_country, fake_phone_number.
      pose proof (emits_generate_supplier_name (product_batches_satisfy (good_batch cfg))).
      auto 30 using emits_emit with emits. }
    intros _. apply emits_bind.
    { unfold table_customers, load_customers, commit_periodically, recreate_table,
        cursor_executemany, conn_commit, print.
      pose proof (emits_customer_row (product_batches_satisfy (good_batch cfg))).
      auto 40 using emits_emit with emits. }
    intros _. apply emits_bind.
    { unfold table_products, recreate_table, conn_commit, print.
      pose proof emits_load_products.
      auto 20 using emits_emit with emits. }
    intros _. unfold final_summary, print. cbv zeta.
    repeat (apply emits_bind; [apply emits_emit; exact I | intros _]).
    apply emits_emit; exact I.
  - intro e. unfold except_handler, print. auto 10 using emits_emit with emits.
  - intro st. unfold finally_cleanup, trace. cbn [snd].
    destruct (cursor st), (conn st); repeat constructor.
Qed.

(** Every product row that [main] inserts, in every run, is well formed. *)
Lemma main_product_rows_ok (st : state R F) :
  Forall (good_batch cfg) (product_batches (trace (main clock getenv cfg st))).
Proof. apply product_batches_of_satisfy. apply emits_main_products. Qed.

End ProductRows.

(** ** The claims *)

Section BatchClaims.

Context {R F : Type} {random_lib : PyRandom R} {faker_lib : Faker F}.
Variable clock : nat -> Z.
Variable cfg : Config.

Lemma loaded_customers (st : state R F) :
  0 <= CUSTOMERS_TOTAL cfg -> 0 < BATCH_SIZE cfg ->
  returns (load_customers clock cfg) st (fun total _ evs =>
    loaded cfg CustomerRows (fun _ _ => True) (CUSTOMERS_TOTAL cfg) total evs).
Proof.
  intros HN HB. apply (returns_load_customers clock cfg (fun _ => True)); try assumption.
  apply silent_customer_row.
Qed.

Lemma loaded_products (st : state R F) :
  0 <= PRODUCTS_TOTAL cfg -> 0 < BATCH_SIZE cfg ->
  returns (load_products clock cfg) st (fun total _ evs =>
    loaded cfg ProductRows product_row_ok (PRODUCTS_TOTAL cfg) total evs).
Proof.
  intros HN HB. apply returns_load_products; try assumption.
  apply silent_product_row.
Qed.

(** With a batch size of zero the floor division raises before any row
    is generated. *)
Lemma load_customers_zero_batch (st : state R F) :
  BATCH_SIZE cfg = 0 ->
  load_customers clock cfg st = (Raise ZeroDivisionError, st, []).
Proof.
  intro HB. unfold load_customers, bind. rewrite HB, run_floordiv_zero. reflexivity.
Qed.

(** C1.  For a row count [N >= 0] and a batch size [B > 0], each loading
    phase (Customers, Products) returns normally after exactly [N // B]
    bulk inserts of exactly [B] rows each; the rows inserted, and the
    running counter [total_inserted], number [(N // B) * B]; the [N mod B]
    remaining rows are never generated.  With [N = 10005] and
    [B = 10000], exactly 10000 rows are inserted. *)
Theorem batch_loader_floor_batches (st : state R F) :
  0 <= CUSTOMERS_TOTAL cfg -> 0 <= PRODUCTS_TOTAL cfg -> 0 < BATCH_SIZE cfg ->
  (exists total st' evs,
      load_customers clock cfg st = (Ok total, st', evs) /\
      Z.of_nat (List.length (customer_batches evs)) = CUSTOMERS_TOTAL cfg / BATCH_SIZE cfg /\
      Forall (fun b => Z.of_nat (List.length b) = BATCH_SIZE cfg) (customer_batches evs) /\
      Z.of_nat (List.length (customer_rows evs))
      = CUSTOMERS_TOTAL cfg / BATCH_SIZE cfg * BATCH_SIZE cfg /\
      total = Z.of_nat (List.length (customer_rows evs)) /\
      CUSTOMERS_TOTAL cfg - Z.of_nat (List.length (customer_rows evs))
      = CUSTOMERS_TOTAL cfg mod BATCH_SIZE cfg /\
      (CUSTOMERS_TOTAL cfg = 10005 -> BATCH_SIZE cfg = 10000 ->
       Z.of_nat (List.length (customer_rows evs)) = 10000)) /\
  (exists total st' evs,
      load_products clock cfg st = (Ok total, st', evs) /\
      Z.of_nat (List.length (product_batches evs)) = PRODUCTS_TOTAL cfg / BATCH_SIZE cfg /\
      Forall (fun b => Z.of_nat (List.length b) = BATCH_SIZE cfg) (product_batches evs) /\
      Z.of_nat (List.length (product_rows evs))
      = PRODUCTS_TOTAL cfg / BATCH_SIZE cfg * BATCH_SIZE cfg /\
      total = Z.of_nat (List.length (product_rows evs)) /\
      PRODUCTS_TOTAL cfg - Z.of_nat (List.length (product_rows evs))
      = PRODUCTS_TOTAL cfg mod BATCH_SIZE cfg).
Proof.
  intros HNc HNp HB. split.
  - destruct (loaded_customers st HNc HB)
      as (total & st' & evs & Hrun & batches & Hcalls & Hlen & _ & Hsizes & Htotal).
    exists total, st', evs. split; [exact Hrun |].
    assert (Hb : customer_batches evs = batches).
    { rewrite <- customer_batches_db_calls, Hcalls. apply customer_batches_loading_calls. }
    assert (Hrows : Z.of_nat (List.length (customer_rows evs))
                    = CUSTOMERS_TOTAL cfg / BATCH_SIZE cfg * BATCH_SIZE cfg).
    { rewrite customer_rows_concat, Hb,
        (length_concat_uniform (BATCH_SIZE cfg)) by exact Hsizes. lia. }
    rewrite Hb, Hrows. repeat split; try assumption.
    + pose proof (Z.div_mod (CUSTOMERS_TOTAL cfg) (BATCH_SIZE cfg)). lia.
    + intros -> ->. reflexivity.
  - destruct (loaded_products st HNp HB)
      as (total & st' & evs & Hrun & batches & Hcalls & Hlen & _ & Hsizes & Htotal).
    exists total, st', evs. split; [exact Hrun |].
    assert (Hb : product_batches evs = batches).
    { rewrite <- product_batches_db_calls, Hcalls. apply product_batches_loading_calls. }
    assert (Hrows : Z.of_nat (List.length (product_rows evs))
                    = PRODUCTS_TOTAL cfg / BATCH_SIZE cfg * BATCH_SIZE cfg).
    { rewrite product_rows_concat, Hb,
        (length_concat_uniform (BATCH_SIZE cfg)) by exact Hsizes. lia. }
    rewrite Hb, Hrows. repeat split; try assumption.
    pose proof (Z.div_mod (PRODUCTS_TOTAL cfg) (BATCH_SIZE cfg)). lia.
Qed.

Lemma loading_calls_single {B} (wrap : list B -> rows) (batches : list (list B)) :
  Z.of_nat (List.length batches) = 1 ->
  exists batch, batches = [batch] /\
                loading_calls wrap batches = [Executemany (wrap batch); Commit].
Proof.
  intro Hlen. destruct batches as [| batch [| b2 rest]]; cbn in Hlen; try lia.
  exists batch. split; reflexivity.
Qed.

(** C6.  For [N >= 0] and [B > 0], the database calls of a loading phase
    are, for each batch number in order, its bulk insert followed by a
    commit exactly when [(batch_num + 1) mod 10 = 0], and after the last
    batch one more commit; so a phase commits [(N // B) // 10 + 1] times,
    and with [N = B = 10000] its calls are one bulk insert of 10000 rows
    and one commit. *)
Theorem commit_schedule (st : state R F) :
  0 <= CUSTOMERS_TOTAL cfg -> 0 <= PRODUCTS_TOTAL cfg -> 0 < BATCH_SIZE cfg ->
  COMMIT_EVERY_N_BATCHES = 10 /\
  (exists total st' evs batches,
      load_customers clock cfg st = (Ok total, st', evs) /\
      Z.of_nat (List.length batches) = CUSTOMERS_TOTAL cfg / BATCH_SIZE cfg /\
      db_calls evs
      = flat_map (fun p => Executemany (CustomerRows (snd p))
                           :: (if (fst p + 1) mod 10 =? 0 then [Commit] else []))
                 (combine (range (CUSTOMERS_TOTAL cfg / BATCH_SIZE cfg)) batches)
        ++ [Commit] /\
      Z.of_nat (commits evs) = CUSTOMERS_TOTAL cfg / BATCH_SIZE cfg / 10 + 1 /\
      (CUSTOMERS_TOTAL cfg = 10000 -> BATCH_SIZE cfg = 10000 ->
       exists batch, db_calls evs = [Executemany (CustomerRows batch); Commit] /\
                     Z.of_nat (List.length batch) = 10000)) /\
  (exists total st' evs batches,
      load_products clock cfg st = (Ok total, st', evs) /\
      Z.of_nat (List.length batches) = PRODUCTS_TOTAL cfg / BATCH_SIZE cfg /\
      db_calls evs
      = flat_map (fun p => Executemany (ProductRows (snd p))
                           :: (if (fst p + 1) mod 10 =? 0 then [Commit] else []))
                 (combine (range (PRODUCTS_TOTAL cfg / BATCH_SIZE cfg)) batches)
        ++ [Commit] /\
      Z.of_nat (commits evs) = PRODUCTS_TOTAL cfg / BATCH_SIZE cfg / 10 + 1 /\
      (PRODUCTS_TOTAL cfg = 10000 -> BATCH_SIZE cfg = 10000 ->
       exists batch, db_calls evs = [Executemany (ProductRows batch); Commit] /\
                     Z.of_nat (List.length batch) = 10000)).
Proof.
  intros HNc HNp HB. split; [reflexivity |]. split.
  - destruct (loaded_customers st HNc HB)
      as (total & st' & evs & Hrun & batches & Hcalls & Hlen & _ & Hsizes & Htotal).
    exists total, st', evs, batches. split; [exact Hrun |]. split; [exact Hlen |].
    split; [| split].
    + rewrite Hcalls. unfold loading_calls. rewrite Hlen. reflexivity.
    + rewrite <- commits_db_calls, Hcalls, commits_loading_calls, Hlen. reflexivity.
    + intros HN HBs. rewrite HN, HBs in Hlen. change (10000 / 10000) with 1 in Hlen.
      destruct (loading_calls_single CustomerRows batches Hlen) as (batch & -> & Hone).
      exists batch. split; [rewrite Hcalls; exact Hone |].
      inversion Hsizes as [| ? ? Hb _]; subst. rewrite HBs in Hb. exact Hb.
  - destruct (loaded_products st HNp HB)
      as (total & st' & evs & Hrun & batches & Hcalls & Hlen & _ & Hsizes & Htotal).
    exists total, st', evs, batches. split; [exact Hrun |]. split; [exact Hlen |].
    split; [| split].
    + rewrite Hcalls. unfold loading_calls. rewrite Hlen. reflexivity.
    + rewrite <- commits_db_calls, Hcalls, commits_loading_calls, Hlen. reflexivity.
    + intros HN HBs. rewrite HN, HBs in Hlen. change (10000 / 10000) with 1 in Hlen.
      destruct (loading_calls_single ProductRows batches Hlen) as (batch & -> & Hone).
      exists batch. split; [rewrite Hcalls; exact Hone |].
      inversion Hsizes as [| ? ? Hb _]; subst. rewrite HBs in Hb. exact Hb.
Qed.

End BatchClaims.

(** C1 at 10,005 customers in batches of 10,000: the hypotheses hold and
    10,000 rows are inserted. *)
Lemma batch_loader_floor_batches_witness :
  exists total st' evs,
    load_customers (random_lib := Fixture.blank_random) (faker_lib := Fixture.blank_faker)
                   Fixture.at_2001 Fixture.with_remainder Fixture.blank
    = (Ok total, st', evs) /\
    Z.of_nat (List.length (customer_rows evs)) = 10000.
Proof.
  destruct (batch_loader_floor_batches
              (random_lib := Fixture.blank_random) (faker_lib := Fixture.blank_faker)
              Fixture.at_2001 Fixture.with_remainder Fixture.blank)
    as [(total & st' & evs & Hrun & _ & _ & _ & _ & _ & H10) _];
    [cbn; lia | cbn; lia | cbn; lia |].
  exists total, st', evs. split; [exact Hrun | apply H10; reflexivity].
Defined.

(** C6 at 10,000 customers in batches of 10,000: one bulk insert, one
    commit. *)
Lemma commit_schedule_witness :
  exists total st' evs batch,
    load_customers (random_lib := Fixture.blank_random) (faker_lib := Fixture.blank_faker)
                   Fixture.at_2001 Fixture.one_batch Fixture.blank
    = (Ok total, st', evs) /\
    db_calls evs = [Executemany (CustomerRows batch); Commit] /\
    Z.of_nat (commits evs) = 1.
Proof.
  destruct (commit_schedule
              (random_lib := Fixture.blank_random) (faker_lib := Fixture.blank_faker)
              Fixture.at_2001 Fixture.one_batch Fixture.blank)
    as (_ & (total & st' & evs & batches & Hrun & _ & _ & Hcommits & Hone) & _);
    [cbn; lia | cbn; lia | cbn; lia |].
  destruct (Hone eq_refl eq_refl) as (batch & Hcalls & _).
  exists total, st', evs, batch.
  split; [exact Hrun |]. split; [exact Hcalls | exact Hcommits].
Defined.

Lemma name_at_shift (len s : nat) :
  map name_at (seq (s + 25) len) = map name_at (seq s len).
Proof.
  revert s. induction len as [| len IH]; intro s; [reflexivity |].
  cbn [seq map]. f_equal.
  - unfold name_at. rewrite Nat2Z.inj_add.
    change (Z.of_nat 25) with (1 * 25). rewrite Z.mod_add by lia. reflexivity.
  - apply (IH (S s)).
Qed.

(** The catalog entries at the indices [i mod 25], for [i] over
    [0, 25 k), are the catalog [k] times over. *)
Lemma names_cycle (k : nat) :
  map (fun i => nth_error PRODUCT_NAMES (Z.to_nat (i mod 25))) (range (25 * Z.of_nat k))
  = map Some (List.concat (repeat PRODUCT_NAMES k)).
Proof.
  replace (25 * Z.of_nat k) with (Z.of_nat (25 * k)) by lia.
  rewrite range_of_nat, map_map. fold name_at.
  induction k as [| k IH]; [reflexivity |].
  replace (25 * S k)%nat with (25 + 25 * k)%nat by lia.
  rewrite seq_app, map_app. cbn [repeat List.concat]. rewrite map_app.
  change (map name_at (seq 0 25)) with (map Some PRODUCT_NAMES).
  f_equal. rewrite <- IH. apply (name_at_shift (25 * k) 0).
Qed.

Section RowClaims.

Context {R F : Type} {random_lib : PyRandom R} {faker_lib : Faker F}.
Variable clock : nat -> Z.

(** C2.  Take a customer row for which the name defect does not fire
    (the first [random()] is not below 0.005), the drawn name splits into
    at least two tokens, and the email defect does not fire (the next
    [random()] is not below 0.01).  Then the row is produced, its name is
    the drawn name, and its email is
    [first + "." + last + "@" + domain], with [first] and [last] the
    first and last token of the lower-cased name and [domain] the entry
    of the six distinct providers at the index that [_randbelow(6)]
    draws, each index in [0, 6) giving a different provider.  For the
    name "john smith" and the domain "gmail.com" the email is
    "john.smith@gmail.com". *)
Theorem customer_email_from_name (st : state R F) :
  let u := fst (next_random (rng st)) in
  let r1 := snd (next_random (rng st)) in
  let customer_name := fst (draw_name (fake st)) in
  let name_parts := PyStr.split (PyStr.lower customer_name) in
  let v := fst (next_random r1) in
  let k := fst (next_below 6 (snd (next_random r1))) in
  ~ (u < 5 # 1000)%Q ->
  (2 <= List.length name_parts)%nat ->
  ~ (v < 1 # 100)%Q ->
  exists row st' domain,
    customer_row clock st = (Ok row, st', []) /\
    cust_name row = Some customer_name /\
    cust_email row
    = (PyStr.first_of name_parts ++ "." ++ PyStr.last_of name_parts ++ "@" ++ domain)%string /\
    nth_error EMAIL_DOMAINS (Z.to_nat k) = Some domain /\
    0 <= k < 6 /\
    List.length EMAIL_DOMAINS = 6%nat /\
    NoDup EMAIL_DOMAINS /\
    (customer_name = "john smith" -> domain = "gmail.com" ->
     cust_email row = "john.smith@gmail.com").
Proof.
  intros u r1 customer_name name_parts v k Hu Hparts Hv.
  destruct (customer_row_normal clock st Hu Hparts Hv)
    as (domain & Hnth & row & st' & evs & Hrun & -> & Hname & Hemail).
  exists row, st', domain. split; [exact Hrun |]. split; [exact Hname |].
  split; [exact Hemail |]. split; [exact Hnth |].
  split; [apply next_below_range; lia |]. split; [reflexivity |]. split.
  - repeat (constructor; [cbn; intuition discriminate |]). constructor.
  - intros Hjohn ->. rewrite Hemail. unfold name_parts, customer_name in *.
    rewrite Hjohn. reflexivity.
Qed.

Variable getenv : string -> option string.
Variable cfg : Config.

(** C3.  The product row at index [i] of a batch is always produced; its
    name is null when the name defect fires (the first [random()] is
    below 0.002) and otherwise the catalog entry at index [i mod 25],
    which exists; the catalog has 25 entries, so indices 0 and 25 get the
    same name.  In every run of the script every inserted batch carries,
    at each index [i], either null or the entry [i mod 25]; and a batch
    of 10,000 rows with no null name lists the 25 names 400 times in
    order. *)
Theorem product_name_cycles :
  (forall (i : Z) (st : state R F),
      exists row st',
        product_row clock i st = (Ok row, st', []) /\
        prod_name row
        = (if Qlt_le_dec (fst (next_random (rng st))) (2 # 1000) then None
           else nth_error PRODUCT_NAMES (Z.to_nat (i mod 25)))) /\
  (forall i : Z, exists name, nth_error PRODUCT_NAMES (Z.to_nat (i mod 25)) = Some name) /\
  List.length PRODUCT_NAMES = 25%nat /\
  nth_error PRODUCT_NAMES (Z.to_nat (0 mod 25)) = Some "Wireless Bluetooth Headphones" /\
  nth_error PRODUCT_NAMES (Z.to_nat (25 mod 25)) = nth_error PRODUCT_NAMES (Z.to_nat (0 mod 25)) /\
  (forall st : state R F,
      Forall (Forall2 (fun i r =>
                         prod_name r = None \/
                         prod_name r = nth_error PRODUCT_NAMES (Z.to_nat (i mod 25)))
                      (range (BATCH_SIZE cfg)))
             (product_batches (trace (main clock getenv cfg st)))) /\
  (forall batch : list product,
      Forall2 (fun i r =>
                 prod_name r = None \/
                 prod_name r = nth_error PRODUCT_NAMES (Z.to_nat (i mod 25)))
              (range 10000) batch ->
      Forall (fun r => prod_name r <> None) batch ->
      map prod_name batch = map Some (List.concat (repeat PRODUCT_NAMES 400))).
Proof.
  split; [| split; [| split; [| split; [| split; [| split]]]]].
  - intros i st.
    destruct (product_row_exact clock i st) as (row & st' & evs & Hrun & -> & Hname & _).
    exists row, st'. split; [exact Hrun | exact Hname].
  - intro i.
    assert (Hi : (Z.to_nat (i mod 25) < List.length PRODUCT_NAMES)%nat).
    { pose proof (Z.mod_pos_bound i 25 eq_refl). change (List.length PRODUCT_NAMES) with 25%nat. lia. }
    destruct (nth_error PRODUCT_NAMES (Z.to_nat (i mod 25))) as [name |] eqn:Hn.
    + exists name. reflexivity.
    + apply nth_error_None in Hn. lia.
  - reflexivity.
  - reflexivity.
  - reflexivity.
  - intro st. eapply Forall_impl; [| apply (main_product_rows_ok clock getenv cfg st)].
    intros batch Hbatch. unfold good_batch in Hbatch.
    eapply Forall2_impl; [| exact Hbatch]. intros i r Hok. apply Hok.
  - intros batch Hbatch Hsome.
    rewrite <- names_cycle. change (25 * Z.of_nat 400) with 10000.
    revert Hsome. induction Hbatch as [| i r idx batch Hr _ IH]; intro Hsome; [reflexivity |].
    inversion Hsome as [| ? ? Hr1 Hrest]; subst.
    cbn [map]. rewrite IH by exact Hrest.
    destruct Hr as [Hnone | Hname]; [contradiction | rewrite Hname; reflexivity].
Qed.

End RowClaims.

(** ** Returning runs, read backwards *)

Section Inversion.

Context {R F : Type} {random_lib : PyRandom R} {faker_lib : Faker F}.

Lemma bind_ok_inv {A B} (m : M R F A) (k : A -> M R F B) (st st2 : state R F) b evs :
  bind m k st = (Ok b, st2, evs) ->
  exists a st1 ev1 ev2,
    m st = (Ok a, st1, ev1) /\ k a st1 = (Ok b, st2, ev2) /\ evs = ev1 ++ ev2.
Proof.
  unfold bind. destruct (m st) as [[[a | e] st1] ev1]; [| discriminate].
  destruct (k a st1) as [[r st2'] ev2] eqn:Hk. intro Heq. inversion Heq; subst.
  exists a, st1, ev1, ev2. repeat split. exact Hk.
Qed.

Lemma for_list_ok_length {A B} (f : A -> M R F B) (l : list A) :
  forall (st st' : state R F) ys evs,
    for_list l f st = (Ok ys, st', evs) -> List.length ys = List.length l.
Proof.
  induction l as [| x l IH]; intros st st' ys evs Hrun; cbn [for_list] in Hrun.
  - inversion Hrun. reflexivity.
  - apply bind_ok_inv in Hrun. destruct Hrun as (y & st1 & ev1 & ev2 & _ & Hrest & _).
    apply bind_ok_inv in Hrest. destruct Hrest as (ys' & st2 & ev3 & ev4 & Hl & Hret & _).
    inversion Hret; subst. cbn [List.length]. f_equal. eapply IH. exact Hl.
Qed.

Lemma no_events {A} (m : M R F A) (st : state R F) :
  emits (fun _ => False) m -> trace (m st) = [].
Proof.
  intro Hm. specialize (Hm st). destruct (trace (m st)) as [| e evs]; [reflexivity |].
  inversion Hm; contradiction.
Qed.

Lemma emits_supplier_row (K : event -> Prop) (names : list string) (i : Z) :
  emits K (supplier_row (R := R) (F := F) names i).
Proof.
  unfold supplier_row, fake_name, fake_country, fake_phone_number. auto 20 with emits.
Qed.

(** When the Suppliers phase returns, it has inserted 5000 rows. *)
Lemma table_suppliers_count (st st' : state R F) (evs : list event) :
  table_suppliers st = (Ok tt, st', evs) ->
  Z.of_nat (List.length (supplier_rows evs)) = SUPPLIERS_TOTAL.
Proof.
  unfold table_suppliers. intro Hrun.
  apply bind_ok_inv in Hrun. destruct Hrun as (u1 & s1 & e1 & e1' & H1 & Hrun & ->).
  apply bind_ok_inv in Hrun. destruct Hrun as (u2 & s2 & e2 & e2' & H2 & Hrun & ->).
  apply bind_ok_inv in Hrun. destruct Hrun as (names & s3 & e3 & e3' & H3 & Hrun & ->).
  apply bind_ok_inv in Hrun. destruct Hrun as (data & s4 & e4 & e4' & H4 & Hrun & ->).
  apply bind_ok_inv in Hrun. destruct Hrun as (u5 & s5 & e5 & e5' & H5 & Hrun & ->).
  apply bind_ok_inv in Hrun. destruct Hrun as (u6 & s6 & e6 & e6' & H6 & Hrun & ->).
  assert (He3 : e3 = []).
  { change e3 with (trace (Ok names, s3, e3)). rewrite <- H3. apply no_events.
    apply emits_for_list. intro. apply emits_generate_supplier_name. }
  assert (He4 : e4 = []).
  { change e4 with (trace (Ok data, s4, e4)). rewrite <- H4. apply no_events.
    apply emits_for_list. intro. apply emits_supplier_row. }
  apply for_list_ok_length in H4.
  assert (He2 : e2 = [ExecuteDropIfExists Suppliers; ExecuteCreateTable Suppliers])
    by (inversion H2; reflexivity).
  inversion H1; subst. inversion H5; subst. inversion H6; subst. inversion Hrun; subst.
  cbn [app supplier_rows flat_map]. rewrite app_nil_r, H4, range_length. reflexivity.
Qed.

End Inversion.

Section KeyClaims.

Context {R F : Type} {random_lib : PyRandom R} {faker_lib : Faker F}.

Lemma run_randint (a b : Z) (st : state R F) :
  a <= b ->
  random_randint a b st
  = (Ok (a + fst (next_below (b - a + 1) (rng st))),
     with_rng (snd (next_below (b - a + 1) (rng st))) st, []).
Proof.
  intro Hab. unfold random_randint.
  destruct (0 <? b - a + 1) eqn:Hw; [| apply Z.ltb_ge in Hw; lia].
  erewrite run_bind by apply run_randbelow. reflexivity.
Qed.

Variable clock : nat -> Z.
Variable getenv : string -> option string.
Variable cfg : Config.

Lemma main_product_rows (st : state R F) :
  Forall (fun r => exists i, product_row_ok i r)
         (product_rows (trace (main clock getenv cfg st))).
Proof.
  rewrite product_rows_concat. apply Forall_concat.
  eapply Forall_impl; [| apply (main_product_rows_ok clock getenv cfg st)].
  intros batch Hbatch. apply Forall2_range_each in Hbatch.
  eapply Forall_impl; [| exact Hbatch]. intros r (i & _ & Hok). exists i. exact Hok.
Qed.

(** The supplier id of a product row is one more than the [_randbelow(6000)]
    drawn from the generator as the stock quantity left it. *)
Lemma product_supplier_exact (i : Z) (st : state R F) :
  returns (product_row clock i) st (fun row _ evs =>
    evs = [] /\
    prod_supplier_id row = 1 + fst (next_below 6000 (rng_at_supplier_id (rng st)))).
Proof.
  unfold rng_at_supplier_id. cbv zeta.
  set (r1 := snd (next_random (rng st))). set (st1 := with_rng r1 st).
  set (r2 := snd (next_random r1)). set (st2 := with_rng r2 st1).
  set (r3 := snd (next_random r2)). set (st3 := with_rng r3 st2).
  set (w := fst (next_random r3)).
  set (r4 := snd (next_random r3)). set (st4 := with_rng r4 st3).
  unfold product_row.
  run_with (run_random st). fold r1 st1.
  apply returns_bind.
  assert (Hname : returns
            (if Qlt_le_dec (fst (next_random (rng st))) (2 # 1000) then ret None
             else bind (index PRODUCT_NAMES (i mod Z.of_nat (List.length PRODUCT_NAMES)))
                       (fun n => ret (Some n)))
            st1 (fun _ st' evs => st' = st1 /\ evs = [])).
  { destruct (Qlt_le_dec (fst (next_random (rng st))) (2 # 1000)).
    - apply returns_ret. split; reflexivity.
    - assert (Hi : 0 <= i mod 25 < Z.of_nat (List.length PRODUCT_NAMES))
        by (change (Z.of_nat (List.length PRODUCT_NAMES)) with 25; apply Z.mod_pos_bound; lia).
      destruct (run_index PRODUCT_NAMES (i mod 25) st1 Hi) as (n & Hn & Hrun).
      change (Z.of_nat (List.length PRODUCT_NAMES)) with 25.
      run_with Hrun. apply returns_ret. split; reflexivity. }
  eapply returns_weaken; [exact Hname |].
  intros product_name st' evs (-> & ->).
  run_with (run_random st1).
  change (with_rng (snd (next_random (rng st1))) st1) with st2.
  apply returns_bind.
  assert (Hprice : returns
            (if Qlt_le_dec (fst (next_random (rng st1))) (5 # 1000)
             then bind (random_uniform 10 1000) (fun x0 => ret (- x0)%Q)
             else random_uniform 5 2000)
            st2 (fun _ st' evs => st' = st3 /\ evs = [])).
  { destruct (Qlt_le_dec (fst (next_random (rng st1))) (5 # 1000)); unfold random_uniform.
    - apply returns_bind. run_with (run_random st2).
      apply returns_ret. apply returns_ret. split; reflexivity.
    - run_with (run_random st2). apply returns_ret. split; reflexivity. }
  eapply returns_weaken; [exact Hprice |].
  intros unit_price st' evs (-> & ->).
  run_with (run_random st3).
  change (fst (next_random (rng st3))) with w.
  change (with_rng (snd (next_random (rng st3))) st3) with st4.
  apply returns_bind.
  assert (Hstock : returns
            (if Qlt_le_dec w (1 # 100)
             then bind (random_randint 1 100) (fun n => ret (- n))
             else random_randint 0 1000)
            st4
            (fun _ st' evs =>
               evs = [] /\
               rng st' = (if Qlt_le_dec w (1 # 100)
                          then snd (next_below 100 r4)
                          else snd (next_below 1001 r4)))).
  { destruct (Qlt_le_dec w (1 # 100)).
    - run_with (run_randint 1 100 st4 ltac:(lia)).
      apply returns_ret. split; reflexivity.
    - eexists _, _, _. split; [apply (run_randint 0 1000 st4); lia |].
      split; reflexivity. }
  eapply returns_weaken; [exact Hstock |].
  intros q s5 ev5 (-> & Hrng).
  run_with (run_randint 1 6000 s5 ltac:(lia)).
  set (s6 := with_rng (snd (next_below (6000 - 1 + 1) (rng s5))) s5).
  run_with (run_randint 1 8 s6 ltac:(lia)).
  set (s7 := with_rng (snd (next_below (8 - 1 + 1) (rng s6))) s6).
  apply returns_bind. eapply returns_weaken; [apply silent_date |].
  intros created s8 ev8 (_ & ->).
  apply returns_ret. cbn [prod_supplier_id app].
  split; [reflexivity |].
  rewrite Hrng. reflexivity.
Qed.

(** C4.  Every product row is produced, and its [supplier_id] is
    [1 + k] for [k] the [_randbelow(6000)] that [randint(1, 6000)] draws
    when the row reaches it; [k] is in [0, 6000), so the id is in
    [1, 6000], and the row is orphaned (its id is above 5000) exactly when
    [k >= 5000].  Every product row any run of the script inserts has its
    id in [1, 6000].  Suppliers holds 5000 rows whenever its phase
    returns, so ids up to 5000 name a supplier and ids above 5000 name
    none.  Of the 6000 equally likely values of [k] exactly 1000 give an
    id above 5000, and exactly 1000 of the 6000 rows produced when the
    draw reads 0, 1, ..., 5999 in turn are orphaned: a fraction of 1/6,
    between 16.66% and 16.67%. *)
Theorem supplier_id_range_and_orphans :
  (forall (i : Z) (st : state R F),
      let k := fst (next_below 6000 (rng_at_supplier_id (rng st))) in
      exists row st',
        product_row clock i st = (Ok row, st', []) /\
        0 <= k < 6000 /\
        prod_supplier_id row = 1 + k /\
        1 <= prod_supplier_id row <= 6000 /\
        (orphaned (prod_supplier_id row) = true <-> 5000 <= k)) /\
  (forall st : state R F,
      Forall (fun r => 1 <= prod_supplier_id r <= 6000)
             (product_rows (trace (main clock getenv cfg st)))) /\
  (forall st : state R F,
      outcome (random_randint 1 6000 st) = Ok (1 + fst (next_below 6000 (rng st)))) /\
  (forall (st st' : state R F) (evs : list event),
      table_suppliers st = (Ok tt, st', evs) ->
      Z.of_nat (List.length (supplier_rows evs)) = SUPPLIERS_TOTAL) /\
  SUPPLIERS_TOTAL = 5000 /\
  (forall supplier_id : Z,
      1 <= supplier_id <= 6000 ->
      (orphaned supplier_id = false <-> 1 <= supplier_id <= 5000) /\
      (orphaned supplier_id = true <-> 5001 <= supplier_id <= 6000)) /\
  Z.of_nat (List.length (range 6000)) = 6000 /\
  Z.of_nat (List.length (filter (fun k => orphaned (1 + k)) (range 6000))) = 1000 /\
  Z.of_nat (List.length
              (filter (fun k =>
                         orphaned_row
                           (outcome (product_row (random_lib := Fixture.blank_random)
                                                 (faker_lib := Fixture.blank_faker)
                                                 Fixture.at_2001 0 (supplier_draw k))))
                      (range 6000))) = 1000 /\
  (1000 # 6000 == 1 # 6)%Q /\
  (1666 # 10000 < 1000 # 6000)%Q /\ (1000 # 6000 < 1667 # 10000)%Q.
Proof.
  split; [| split; [| split; [| split; [| split; [| split]]]]].
  - intros i st k.
    destruct (product_supplier_exact i st) as (row & st' & evs & Hrun & -> & Hid).
    fold k in Hid.
    pose proof (next_below_range 6000 (rng_at_supplier_id (rng st)) ltac:(lia)) as Hk.
    fold k in Hk.
    exists row, st'. split; [exact Hrun |]. split; [exact Hk |].
    split; [exact Hid |]. split; [lia |].
    rewrite Hid. unfold orphaned, SUPPLIERS_TOTAL. rewrite Z.ltb_lt. lia.
  - intro st. eapply Forall_impl; [| apply main_product_rows].
    intros r (i & Hok). apply Hok.
  - intro st. unfold outcome. rewrite (run_randint 1 6000 st) by lia. reflexivity.
  - apply table_suppliers_count.
  - reflexivity.
  - intros sid Hsid. unfold orphaned, SUPPLIERS_TOTAL.
    destruct (5000 <? sid) eqn:Hlt;
      [apply Z.ltb_lt in Hlt | apply Z.ltb_ge in Hlt]; split; split; intro;
      try discriminate; try reflexivity; lia.
  - split; [rewrite range_length; reflexivity |]. split; [vm_compute; reflexivity |].
    split; [vm_compute; reflexivity |].
    split; [reflexivity |]. split; reflexivity.
Qed.

(** C5.  Every product row is produced with [category_id] in [1, 8],
    whatever the state of the generators, hence whichever defects fire;
    and so is every product row any run of the script inserts. *)
Theorem category_id_always_valid :
  (forall (i : Z) (st : state R F),
      exists row st',
        product_row clock i st = (Ok row, st', []) /\ 1 <= prod_category_id row <= 8) /\
  (forall st : state R F,
      Forall (fun r => 1 <= prod_category_id r <= 8)
             (product_rows (trace (main clock getenv cfg st)))) /\
  Z.of_nat (List.length categories_data) = 8.
Proof.
  split; [| split].
  - intros i st.
    destruct (product_row_exact clock i st)
      as (row & st' & evs & Hrun & -> & _ & _ & Hc & _).
    exists row, st'. split; [exact Hrun | exact Hc].
  - intro st. eapply Forall_impl; [| apply main_product_rows].
    intros r (i & Hok). apply Hok.
  - reflexivity.
Qed.

(** C9, amended.  Every product row is produced; when the price defect
    fires (the second [random()] of the row is below 0.005) its price is
    in (-1000, -10], and otherwise in [5, 2000).  So the price is never
    zero, never strictly between -10 and 5, and negative exactly when the
    defect fired; and every product row any run of the script inserts
    has its price in one of the two intervals. *)
Theorem unit_price_ranges :
  (forall (i : Z) (st : state R F),
      let v := fst (next_random (snd (next_random (rng st)))) in
      exists row st',
        product_row clock i st = (Ok row, st', []) /\
        ((v < 5 # 1000) -> -1000 < prod_unit_price row /\ prod_unit_price row <= -10)%Q /\
        (~ (v < 5 # 1000) -> 5 <= prod_unit_price row /\ prod_unit_price row < 2000)%Q /\
        ~ (prod_unit_price row == 0)%Q /\
        ~ (-10 < prod_unit_price row /\ prod_unit_price row < 5)%Q /\
        (prod_unit_price row < 0 <-> v < 5 # 1000)%Q) /\
  (forall st : state R F,
      Forall (fun r => (-1000 < prod_unit_price r /\ prod_unit_price r <= -10)%Q \/
                       (5 <= prod_unit_price r /\ prod_unit_price r < 2000)%Q)
             (product_rows (trace (main clock getenv cfg st)))).
Proof.
  split.
  - intros i st v.
    destruct (product_row_exact clock i st)
      as (row & st' & evs & Hrun & -> & _ & Hprice & _).
    exists row, st'. split; [exact Hrun |].
    pose proof (next_random_unit (snd (next_random (snd (next_random (rng st)))))) as [H0 H1].
    fold v in Hprice. rewrite Hprice.
    destruct (Qlt_le_dec v (5 # 1000)) as [Hv | Hv].
    + destruct (price_defect_range _ H0 H1) as [Hlo Hhi].
      repeat split; try (intros; lra).
    + destruct (price_normal_range _ H0 H1) as [Hlo Hhi].
      repeat split; try (intros; lra).
  - intro st. eapply Forall_impl; [| apply main_product_rows].
    intros r (i & Hok). apply Hok.
Qed.

End KeyClaims.

(** C2 at the name "john smith": the three hypotheses hold and the email
    is "john.smith@gmail.com". *)
Lemma customer_email_from_name_witness :
  exists row st',
    customer_row (random_lib := Fixture.blank_random) (faker_lib := Fixture.blank_faker)
                 Fixture.at_2001 Fixture.john
    = (Ok row, st', []) /\
    cust_name row = Some "john smith" /\
    cust_email row = "john.smith@gmail.com".
Proof.
  destruct (customer_email_from_name
              (random_lib := Fixture.blank_random) (faker_lib := Fixture.blank_faker)
              Fixture.at_2001 Fixture.john)
    as (row & st' & domain & Hrun & Hname & _ & Hnth & _ & _ & _ & Hjohn).
  - intro H. vm_compute in H. discriminate H.
  - vm_compute. lia.
  - intro H. vm_compute in H. discriminate H.
  - exists row, st'. split; [exact Hrun |]. split; [exact Hname |].
    apply Hjohn; [reflexivity |].
    vm_compute in Hnth. inversion Hnth. reflexivity.
Defined.

(** C9 as stated fails at both closed ends.  When [random()] returns 0
    inside [random.uniform], a row whose price defect fired has price
    exactly -10, and a row whose price defect did not fire has price
    exactly 5: neither lies in the open interval claimed for it, and both
    lie in [-10, 5]. *)
Lemma unit_price_reaches_closed_ends :
  (exists row,
      outcome (product_row (random_lib := Fixture.blank_random)
                           (faker_lib := Fixture.blank_faker)
                           Fixture.at_2001 0 Fixture.defect_low) = Ok row /\
      (fst (next_random (PyRandom := Fixture.blank_random)
              (snd (next_random (PyRandom := Fixture.blank_random)
                      (rng Fixture.defect_low)))) < 5 # 1000)%Q /\
      (prod_unit_price row == -10)%Q /\
      ~ (-1000 < prod_unit_price row /\ prod_unit_price row < -10)%Q /\
      (-10 <= prod_unit_price row /\ prod_unit_price row <= 5)%Q) /\
  (exists row,
      outcome (product_row (random_lib := Fixture.blank_random)
                           (faker_lib := Fixture.blank_faker)
                           Fixture.at_2001 0 Fixture.normal_low) = Ok row /\
      ~ (fst (next_random (PyRandom := Fixture.blank_random)
                (snd (next_random (PyRandom := Fixture.blank_random)
                        (rng Fixture.normal_low)))) < 5 # 1000)%Q /\
      (prod_unit_price row == 5)%Q /\
      ~ (5 < prod_unit_price row /\ prod_unit_price row < 2000)%Q /\
      (-10 <= prod_unit_price row /\ prod_unit_price row <= 5)%Q).
Proof.
  split.
  - eexists. split; [vm_compute; reflexivity |].
    split; [reflexivity |]. split; [reflexivity |]. split.
    + intros [_ H]. discriminate H.
    + split; intro H; discriminate H.
  - eexists. split; [vm_compute; reflexivity |].
    split; [intro H; discriminate H |]. split; [reflexivity |]. split.
    + intros [H _]. discriminate H.
    + split; intro H; discriminate H.
Qed.

(** The same two end points in binary64, and the other two: with the
    largest value [random()] can return, [uniform] stays below its upper
    bound. *)
Example uniform_binary64_low_ends :
  uniform_binary64 10 1000 0 = 10%float /\ uniform_binary64 5 2000 0 = 5%float.
Proof. split; reflexivity. Qed.

Example uniform_binary64_high_ends :
  PrimFloat.ltb (uniform_binary64 10 1000 largest_random) 1000 = true /\
  PrimFloat.ltb (uniform_binary64 5 2000 largest_random) 2000 = true /\
  PrimFloat.ltb largest_random 1 = true.
Proof. repeat split; reflexivity. Qed.

(** The string methods on the shapes the script meets. *)
Example split_lower_name : PyStr.split (PyStr.lower "John  Smith ") = ["john"; "smith"].
Proof. reflexivity. Qed.

Example split_three_tokens :
  PyStr.first_of (PyStr.split (PyStr.lower "Dr. Ann Lee")) = "dr." /\
  PyStr.last_of (PyStr.split (PyStr.lower "Dr. Ann Lee")) = "lee".
Proof. split; reflexivity. Qed.

Example title_first_word : PyStr.title "e-enable 24/7 niches" = "E-Enable 24/7 Niches".
Proof. reflexivity. Qed.

Example strip_padding : PyStr.strip "  Acme Supply " = "Acme Supply".
Proof. reflexivity. Qed.

Example remove_suffix : PyStr.remove ", Inc." "Smith, Inc." = "Smith".
Proof. reflexivity. Qed.

Example take_short : PyStr.take 20 "555-0100" = "555-0100".
Proof. reflexivity. Qed.

(** ** The phases of a run *)

#[export] Hint Extern 1 (phase_event _ _) => (cbn; tauto) : emits.

Lemma emits_weaken {R F A} (K K' : event -> Prop) (m : M R F A) :
  (forall e, K e -> K' e) -> emits K m -> emits K' m.
Proof. intros HK Hm st. eapply Forall_impl; [exact HK | apply Hm]. Qed.

Lemma rows_of_phase (t : table) (evs : list event) :
  Forall (phase_event t) evs ->
  (t <> Categories -> category_rows evs = []) /\
  (t <> Suppliers -> supplier_rows evs = []) /\
  (t <> Customers -> customer_rows evs = []) /\
  (t <> Products -> product_rows evs = []).
Proof.
  induction 1 as [| e evs He _ (IHc & IHs & IHu & IHp)]; [repeat split; reflexivity |].
  unfold category_rows, supplier_rows, customer_rows, product_rows in *.
  cbn [flat_map].
  destruct e as [| | | | [l | l | l | l] | | |]; cbn [app];
    repeat split; intro Ht; auto; cbn in He; subst t; contradiction.
Qed.

Lemma rows_of_housekeeping (evs : list event) :
  Forall housekeeping evs ->
  inserted evs = [] /\ filter is_connect evs = [].
Proof.
  induction 1 as [| e evs He _ (IHi & IHc)]; [split; reflexivity |].
  unfold inserted in *.
  destruct e as [[s | b n a | x] | | | | | | |]; cbn in He; try contradiction;
    cbn [flat_map filter is_connect app]; split; assumption.
Qed.

Section Phases.

Context {R F : Type} {random_lib : PyRandom R} {faker_lib : Faker F}.
Variable clock : nat -> Z.
Variable cfg : Config.

Lemma emits_table_categories :
  emits (phase_event Categories) (table_categories (R := R) (F := F)).
Proof.
  unfold table_categories, recreate_table, cursor_executemany, conn_commit, print.
  auto 20 using emits_emit with emits.
Qed.

Lemma emits_table_suppliers :
  emits (phase_event Suppliers) (table_suppliers (R := R) (F := F)).
Proof.
  unfold table_suppliers, recreate_table, cursor_executemany, conn_commit, print.
  pose proof (emits_generate_supplier_name (R := R) (F := F) (phase_event Suppliers)).
  pose proof (emits_supplier_row (R := R) (F := F) (phase_event Suppliers)).
  auto 30 using emits_emit with emits.
Qed.

Lemma emits_table_customers :
  emits (phase_event Customers) (table_customers (R := R) (F := F) clock cfg).
Proof.
  unfold table_customers, load_customers, commit_periodically, recreate_table,
    cursor_executemany, conn_commit, print.
  pose proof (emits_customer_row (R := R) (F := F) clock (phase_event Customers)).
  auto 40 using emits_emit with emits.
Qed.

Lemma emits_product_row (K : event -> Prop) (i : Z) :
  emits K (product_row (R := R) (F := F) clock i).
Proof. unfold product_row. auto 40 with emits. Qed.

Lemma emits_table_products :
  emits (phase_event Products) (table_products (R := R) (F := F) clock cfg).
Proof.
  unfold table_products, load_products, commit_periodically, recreate_table,
    cursor_executemany, conn_commit, print.
  pose proof (emits_product_row (phase_event Products)).
  auto 40 using emits_emit with emits.
Qed.

End Phases.

(** ** A run from the top *)

Section Run.

Context {R F : Type} {random_lib : PyRandom R} {faker_lib : Faker F}.
Variable clock : nat -> Z.
Variable cfg : Config.

Lemma try_body_populate (conn_string : string) :
  try_body clock cfg conn_string
  = bind (pyodbc_connect conn_string) (fun _ => (populate clock cfg)).
Proof. reflexivity. Qed.

Lemma run_try (conn_string : string) (st : state R F) :
  exists st' tail,
    Forall housekeeping tail /\
    try_except_finally (try_body clock cfg conn_string) except_handler finally_cleanup st
    = (outcome ((populate clock cfg) (with_conn true true st)), st',
       Connect conn_string :: trace ((populate clock cfg) (with_conn true true st)) ++ tail).
Proof.
  unfold try_except_finally. rewrite try_body_populate.
  unfold bind at 1, pyodbc_connect.
  destruct ((populate clock cfg) (with_conn true true st)) as [[[u | e] s1] ev1];
    unfold outcome, trace; cbn [fst snd].
  - destruct u. unfold finally_cleanup.
    eexists _, _. split; [| reflexivity].
    destruct (cursor s1), (conn s1); repeat constructor.
  - unfold except_handler, bind, print, emit, finally_cleanup.
    eexists _, _. split; [| cbn [app]; reflexivity].
    destruct (cursor s1), (conn s1); repeat constructor.
Qed.

Variable getenv : string -> option string.

Lemma run_main_without_host (st : state R F) :
  falsy (getenv "SQL_SERVER_HOST") = true ->
  main clock getenv cfg st
  = (Raise (ValueError missing_host_message),
     with_rng (seeded 42) (with_fake (faker_seeded 42) st), []).
Proof.
  intro Hh. unfold main, bind, Faker_seed, random_seed. cbv zeta. rewrite Hh. reflexivity.
Qed.

Lemma run_main_with_host (st : state R F) (host : string) :
  getenv "SQL_SERVER_HOST" = Some host -> host <> EmptyString ->
  exists st' tail,
    Forall housekeeping tail /\
    main clock getenv cfg st
    = (outcome ((populate clock cfg) (with_conn true true (seeded_state st))), st',
       banner host (SQL_DB_of getenv)
       ++ Connect (conn_string_of host (SQL_DB_of getenv))
       :: trace ((populate clock cfg) (with_conn true true (seeded_state st))) ++ tail).
Proof.
  intros Hh Hne.
  destruct (run_try (conn_string_of host (SQL_DB_of getenv)) (seeded_state st))
    as (st' & tail & Htail & Hrun).
  exists st', tail. split; [exact Htail |].
  assert (Hf : falsy (Some host) = false) by (destruct host; [contradiction | reflexivity]).
  unfold main. unfold bind at 1 2, Faker_seed, random_seed. cbv zeta.
  rewrite Hh, Hf. cbv iota beta.
  fold (SQL_DB_of getenv). fold (conn_string_of host (SQL_DB_of getenv)).
  unfold bind, print, emit. fold (seeded_state st). rewrite Hrun. reflexivity.
Qed.

End Run.

Section ConfigClaim.

Context {R F : Type} {random_lib : PyRandom R} {faker_lib : Faker F}.
Variable clock : nat -> Z.
Variable cfg : Config.
Variable getenv : string -> option string.

(** C7.  When [SQL_SERVER_HOST] is absent from the environment the script
    raises [ValueError] with a message that names the setting and shows an
    example assignment, and it has emitted nothing by then: in particular
    no connection was attempted.  When the host is set and
    [SQL_SERVER_DB] is absent, the database printed and connected to is
    "TransactionDB_UAT"; when [SQL_SERVER_DB] is set, it is that value. *)
Theorem missing_host_fails_before_connecting (st : state R F) :
  (getenv "SQL_SERVER_HOST" = None ->
   outcome (main clock getenv cfg st) = Raise (ValueError missing_host_message) /\
   trace (main clock getenv cfg st) = [] /\
   filter is_connect (trace (main clock getenv cfg st)) = []) /\
  String.index 0 "SQL_SERVER_HOST is missing" missing_host_message = Some 0%nat /\
  String.index 0 "SQL_SERVER_HOST=Inteli5SSD-Laptop\SQLEXPRESS" missing_host_message
  = Some 60%nat /\
  (forall host : string,
      getenv "SQL_SERVER_HOST" = Some host -> host <> EmptyString ->
      getenv "SQL_SERVER_DB" = None ->
      exists rest,
        trace (main clock getenv cfg st)
        = banner host "TransactionDB_UAT"
          ++ Connect (conn_string_of host "TransactionDB_UAT") :: rest) /\
  (forall host db : string,
      getenv "SQL_SERVER_HOST" = Some host -> host <> EmptyString ->
      getenv "SQL_SERVER_DB" = Some db ->
      exists rest,
        trace (main clock getenv cfg st)
        = banner host db ++ Connect (conn_string_of host db) :: rest).
Proof.
  split; [| split; [| split; [| split]]].
  - intro Hh.
    rewrite run_main_without_host by (rewrite Hh; reflexivity).
    repeat split.
  - reflexivity.
  - reflexivity.
  - intros host Hh Hne Hdb.
    destruct (run_main_with_host clock cfg getenv st host Hh Hne)
      as (st' & tail & _ & Hrun).
    rewrite Hrun. unfold trace at 1. cbn [snd]. unfold SQL_DB_of. rewrite Hdb.
    eexists. reflexivity.
  - intros host db Hh Hne Hdb.
    destruct (run_main_with_host clock cfg getenv st host Hh Hne)
      as (st' & tail & _ & Hrun).
    rewrite Hrun. unfold trace at 1. cbn [snd]. unfold SQL_DB_of. rewrite Hdb.
    eexists. reflexivity.
Qed.

End ConfigClaim.

(** C7 in an empty environment: the run raises and emits nothing. *)
Lemma missing_host_fails_before_connecting_witness :
  outcome (main (random_lib := Fixture.blank_random) (faker_lib := Fixture.blank_faker)
                Fixture.at_2001 Fixture.env_empty script_config Fixture.blank)
  = Raise (ValueError missing_host_message) /\
  trace (main (random_lib := Fixture.blank_random) (faker_lib := Fixture.blank_faker)
              Fixture.at_2001 Fixture.env_empty script_config Fixture.blank)
  = [].
Proof.
  destruct (missing_host_fails_before_connecting
              (random_lib := Fixture.blank_random) (faker_lib := Fixture.blank_faker)
              Fixture.at_2001 script_config Fixture.env_empty Fixture.blank)
    as (Hmissing & _).
  destruct (Hmissing eq_refl) as (Hout & Htrace & _).
  split; [exact Hout | exact Htrace].
Defined.

(** ** A run that completes *)

Section Completed.

Context {R F : Type} {random_lib : PyRandom R} {faker_lib : Faker F}.
Variable clock : nat -> Z.
Variable cfg : Config.

Ltac invert_bind H a s e e' H1 :=
  apply bind_ok_inv in H; destruct H as (a & s & e & e' & H1 & H & ->).

(** The lines of the final summary, as printed. *)
Lemma run_final_summary (st : state R F) :
  exists evs,
    final_summary cfg st = (Ok tt, st, evs) /\
    Forall housekeeping (filter (fun e => negb (match e with
                                                | Stdout (Count _ _ _) => true
                                                | _ => false
                                                end)) evs) /\
    inserted evs = [] /\
    reported "  Categories:       " evs = Some 8 /\
    reported "  Suppliers:        " evs = Some 5000 /\
    reported "  Customers:        " evs = Some (CUSTOMERS_TOTAL cfg) /\
    reported "  Products:         " evs = Some (PRODUCTS_TOTAL cfg) /\
    reported "  TOTAL:            " evs
    = Some (8 + 5000 + CUSTOMERS_TOTAL cfg + PRODUCTS_TOTAL cfg).
Proof.
  eexists. split; [reflexivity |].
  split; [cbn; repeat constructor |]. repeat split.
Qed.

Lemma rows_app (ev1 ev2 : list event) :
  category_rows (ev1 ++ ev2) = category_rows ev1 ++ category_rows ev2 /\
  supplier_rows (ev1 ++ ev2) = supplier_rows ev1 ++ supplier_rows ev2 /\
  customer_rows (ev1 ++ ev2) = customer_rows ev1 ++ customer_rows ev2 /\
  product_rows (ev1 ++ ev2) = product_rows ev1 ++ product_rows ev2.
Proof.
  unfold category_rows, supplier_rows, customer_rows, product_rows.
  repeat split; apply flat_map_app.
Qed.

(** What a completed [try] block has emitted, phase by phase. *)
Lemma populate_completed (st st' : state R F) (evs : list event) :
  0 <= CUSTOMERS_TOTAL cfg -> 0 <= PRODUCTS_TOTAL cfg -> 0 < BATCH_SIZE cfg ->
  populate clock cfg st = (Ok tt, st', evs) ->
  exists phases summary,
    evs = phases ++ summary /\
    Forall (fun e => exists t, phase_event t e \/ housekeeping e) phases /\
    (exists s : state R F, final_summary cfg s = (Ok tt, s, summary)) /\
    Z.of_nat (List.length (category_rows evs)) = 8 /\
    Z.of_nat (List.length (supplier_rows evs)) = 5000 /\
    Z.of_nat (List.length (customer_rows evs))
    = CUSTOMERS_TOTAL cfg / BATCH_SIZE cfg * BATCH_SIZE cfg /\
    Z.of_nat (List.length (product_rows evs))
    = PRODUCTS_TOTAL cfg / BATCH_SIZE cfg * BATCH_SIZE cfg.
Proof.
  intros HNc HNp HB Hrun. unfold populate in Hrun.
  invert_bind Hrun u0 s0 e0 e0' H0.
  invert_bind Hrun u1 s1 e1 e1' H1.
  invert_bind Hrun u2 s2 e2 e2' H2.
  invert_bind Hrun t3 s3 e3 e3' H3.
  invert_bind Hrun t4 s4 e4 e4' H4.
  destruct u0, u1, u2.
  (* the phases, in order *)
  assert (He0 : e0 = [Stdout (Text ("✓ Connected to SQL Server" ++ newline))])
    by (inversion H0; reflexivity).
  assert (Hs0 : s0 = st) by (inversion H0; reflexivity).
  assert (Hcat : e1 = trace (table_categories (R := R) (F := F) s0)) by (rewrite H1; reflexivity).
  pose proof (emits_table_categories (R := R) (F := F) s0) as K1. rewrite <- Hcat in K1.
  pose proof (emits_table_suppliers (R := R) (F := F) s1) as K2. rewrite H2 in K2.
  pose proof (emits_table_customers clock cfg s2) as K3. rewrite H3 in K3.
  pose proof (emits_table_products clock cfg s3) as K4. rewrite H4 in K4.
  unfold trace in K2, K3, K4. cbn [snd] in K2, K3, K4.
  destruct (run_final_summary s4) as (summary & Hsum & _ & Hins & _).
  rewrite Hsum in Hrun. inversion Hrun; subst e4' st'. clear Hrun.
  (* the rows of each phase *)
  assert (Hc1 : category_rows e1 = categories_data) by (rewrite Hcat; reflexivity).
  pose proof (table_suppliers_count _ _ _ H2) as Hsup.
  unfold table_customers in H3.
  invert_bind H3 a1 c1 f1 f1' G1. invert_bind H3 a2 c2 f2 f2' G2.
  invert_bind H3 a3 c3 f3 f3' G3.
  destruct (loaded_customers clock cfg c3 HNc HB)
    as (total_c & c4 & ev_c & Hload_c & batches_c & Hcalls_c & Hlen_c & _ & Hsizes_c & Htotal_c).
  rewrite Hload_c in H3. inversion H3; subst t3 s3 f3'. clear H3.
  unfold table_products in H4.
  invert_bind H4 b1 p1 g1 g1' J1. invert_bind H4 b2 p2 g2 g2' J2.
  invert_bind H4 b3 p3 g3 g3' J3.
  destruct (loaded_products clock cfg p3 HNp HB)
    as (total_p & p4 & ev_p & Hload_p & batches_p & Hcalls_p & Hlen_p & _ & Hsizes_p & Htotal_p).
  rewrite Hload_p in H4. inversion H4; subst t4 s4 g3'. clear H4.
  assert (Hrows_c : Z.of_nat (List.length (customer_rows ev_c))
                    = CUSTOMERS_TOTAL cfg / BATCH_SIZE cfg * BATCH_SIZE cfg).
  { rewrite customer_rows_concat, <- customer_batches_db_calls, Hcalls_c,
      customer_batches_loading_calls.
    rewrite (length_concat_uniform (BATCH_SIZE cfg)) by exact Hsizes_c. lia. }
  assert (Hrows_p : Z.of_nat (List.length (product_rows ev_p))
                    = PRODUCTS_TOTAL cfg / BATCH_SIZE cfg * BATCH_SIZE cfg).
  { rewrite product_rows_concat, <- product_batches_db_calls, Hcalls_p,
      product_batches_loading_calls.
    rewrite (length_concat_uniform (BATCH_SIZE cfg)) by exact Hsizes_p. lia. }
  assert (Hf1 : f1 ++ f2 ++ f3 = [Stdout (Text "Creating dbo.Customers (900,000 rows - batching) ...");
                                  ExecuteDropIfExists Customers; ExecuteCreateTable Customers;
                                  Commit])
    by (inversion G1; inversion G2; inversion G3; reflexivity).
  assert (Hg1 : g1 ++ g2 ++ g3 = [Stdout (Text "Creating dbo.Products (150,000 rows - batching) ...");
                                  ExecuteDropIfExists Products; ExecuteCreateTable Products;
                                  Commit])
    by (inversion J1; inversion J2; inversion J3; reflexivity).
  assert (Htc : customer_rows (f1 ++ f2 ++ f3 ++ ev_c) = customer_rows ev_c).
  { replace (f1 ++ f2 ++ f3 ++ ev_c) with ((f1 ++ f2 ++ f3) ++ ev_c)
      by (rewrite <- !app_assoc; reflexivity).
    rewrite Hf1. reflexivity. }
  assert (Htp : product_rows (g1 ++ g2 ++ g3 ++ ev_p) = product_rows ev_p).
  { replace (g1 ++ g2 ++ g3 ++ ev_p) with ((g1 ++ g2 ++ g3) ++ ev_p)
      by (rewrite <- !app_assoc; reflexivity).
    rewrite Hg1. reflexivity. }
  set (tc := f1 ++ f2 ++ f3 ++ ev_c) in *. set (tp := g1 ++ g2 ++ g3 ++ ev_p) in *.
  clearbody tc tp.
  destruct (rows_of_phase Categories e1 K1) as (_ & Ks1 & Ku1 & Kp1).
  destruct (rows_of_phase Suppliers e2 K2) as (Kc2 & _ & Ku2 & Kp2).
  destruct (rows_of_phase Customers tc K3) as (Kc3 & Ks3 & _ & Kp3).
  destruct (rows_of_phase Products tp K4) as (Kc4 & Ks4 & Ku4 & _).
  exists (e0 ++ e1 ++ e2 ++ tc ++ tp), summary.
  split; [rewrite <- !app_assoc; reflexivity |].
  split.
  { apply Forall_app; split;
      [subst e0; repeat constructor; exists Categories; right; exact I |].
    apply Forall_app; split;
      [eapply Forall_impl; [| exact K1]; intros e He; exists Categories; left; exact He |].
    apply Forall_app; split;
      [eapply Forall_impl; [| exact K2]; intros e He; exists Suppliers; left; exact He |].
    apply Forall_app; split;
      [eapply Forall_impl; [| exact K3]; intros e He; exists Customers; left; exact He |].
    eapply Forall_impl; [| exact K4]. intros e He. exists Products. left; exact He. }
  split; [exists p4; exact Hsum |].
  assert (Hsum_rows : category_rows summary = [] /\ supplier_rows summary = [] /\
                      customer_rows summary = [] /\ product_rows summary = []).
  { inversion Hsum. split; [| split; [| split]]; reflexivity. }
  destruct Hsum_rows as (Rc & Rs & Ru & Rp).
  assert (He0_rows : category_rows e0 = [] /\ supplier_rows e0 = [] /\
                     customer_rows e0 = [] /\ product_rows e0 = []).
  { subst e0. repeat split. }
  destruct He0_rows as (Ec & Es & Eu & Ep).
  repeat split.
  - repeat (rewrite (proj1 (rows_app _ _))).
    rewrite Ec, Hc1, Kc2, Kc3, Kc4, Rc by discriminate. reflexivity.
  - repeat (rewrite (proj1 (proj2 (rows_app _ _)))).
    rewrite Es, Ks1, Ks3, Ks4, Rs by discriminate. cbn [app].
    rewrite !app_nil_r. exact Hsup.
  - repeat (rewrite (proj1 (proj2 (proj2 (rows_app _ _))))).
    rewrite Eu, Ku1, Ku2, Ku4, Ru, Htc by discriminate. cbn [app].
    rewrite !app_nil_r. exact Hrows_c.
  - repeat (rewrite (proj2 (proj2 (proj2 (rows_app _ _))))).
    rewrite Ep, Kp1, Kp2, Kp3, Rp, Htp by discriminate. cbn [app].
    rewrite !app_nil_r. exact Hrows_p.
Qed.

End Completed.

Lemma rows_housekeeping (evs : list event) :
  Forall housekeeping evs ->
  category_rows evs = [] /\ supplier_rows evs = [] /\
  customer_rows evs = [] /\ product_rows evs = [].
Proof.
  induction 1 as [| e evs He _ IH]; [repeat split |].
  destruct e as [[s | b n a | x] | | | | | | |]; cbn in He; try contradiction; exact IH.
Qed.

Lemma reported_skip_all (label : string) (ev1 ev2 : list event) :
  Forall (fun e => forall n a, e <> Stdout (Count label n a)) ev1 ->
  reported label (ev1 ++ ev2) = reported label ev2.
Proof.
  induction 1 as [| e ev1 He _ IH]; [reflexivity |].
  cbn [app reported]. destruct e as [[s | b n a | x] | | | | | | |]; try exact IH.
  destruct (String.eqb_spec b label) as [-> | _]; [| exact IH].
  exfalso. exact (He n a eq_refl).
Qed.

Lemma reported_app_some (label : string) (ev1 ev2 : list event) (n : Z) :
  reported label ev1 = Some n -> reported label (ev1 ++ ev2) = Some n.
Proof.
  induction ev1 as [| e ev1 IH]; [discriminate |].
  cbn [app reported]. destruct e as [[s | b m a | x] | | | | | | |]; try exact IH.
  destruct (b =? label)%string; [trivial | exact IH].
Qed.

Section SummaryClaim.

Context {R F : Type} {random_lib : PyRandom R} {faker_lib : Faker F}.
Variable clock : nat -> Z.
Variable cfg : Config.
Variable getenv : string -> option string.

(** A run that completes had a host; its summary lines are the first
    lines with their labels; and the rows it inserted are those of its
    four table phases. *)
Lemma main_completed (st : state R F) :
  0 <= CUSTOMERS_TOTAL cfg -> 0 <= PRODUCTS_TOTAL cfg -> 0 < BATCH_SIZE cfg ->
  outcome (main clock getenv cfg st) = Ok tt ->
  (reported "  Categories:       " (trace (main clock getenv cfg st)) = Some 8 /\
   reported "  Suppliers:        " (trace (main clock getenv cfg st)) = Some 5000 /\
   reported "  Customers:        " (trace (main clock getenv cfg st))
   = Some (CUSTOMERS_TOTAL cfg) /\
   reported "  Products:         " (trace (main clock getenv cfg st))
   = Some (PRODUCTS_TOTAL cfg) /\
   reported "  TOTAL:            " (trace (main clock getenv cfg st))
   = Some (8 + 5000 + CUSTOMERS_TOTAL cfg + PRODUCTS_TOTAL cfg)) /\
  Z.of_nat (List.length (category_rows (trace (main clock getenv cfg st)))) = 8 /\
  Z.of_nat (List.length (supplier_rows (trace (main clock getenv cfg st)))) = 5000 /\
  Z.of_nat (List.length (customer_rows (trace (main clock getenv cfg st))))
  = CUSTOMERS_TOTAL cfg / BATCH_SIZE cfg * BATCH_SIZE cfg /\
  Z.of_nat (List.length (product_rows (trace (main clock getenv cfg st))))
  = PRODUCTS_TOTAL cfg / BATCH_SIZE cfg * BATCH_SIZE cfg.
Proof.
  intros HNc HNp HB Hout.
  destruct (getenv "SQL_SERVER_HOST") as [host |] eqn:Hh;
    [| rewrite run_main_without_host in Hout by (rewrite Hh; reflexivity); discriminate].
  destruct (string_dec host EmptyString) as [-> | Hne];
    [rewrite run_main_without_host in Hout by (rewrite Hh; reflexivity); discriminate |].
  destruct (run_main_with_host clock cfg getenv st host Hh Hne) as (st' & tail & Htail & Hrun).
  rewrite Hrun in *. clear Hrun. unfold outcome in Hout. cbn [fst] in Hout.
  destruct (populate clock cfg (with_conn true true (seeded_state st)))
    as [[r s1] evs] eqn:Hpop.
  unfold outcome in Hout. cbn [fst] in Hout. subst r. unfold trace. cbn [snd].
  destruct (populate_completed clock cfg _ _ _ HNc HNp HB Hpop)
    as (phases & summary & -> & Hphases & (s & Hsum) & Hcat & Hsup & Hcust & Hprod).
  destruct (run_final_summary cfg s)
    as (summary' & Hsum' & _ & _ & R1 & R2 & R3 & R4 & R5).
  rewrite Hsum in Hsum'. inversion Hsum'; subst summary'. clear Hsum'.
  set (head := banner host (SQL_DB_of getenv)
               ++ [Connect (conn_string_of host (SQL_DB_of getenv))]).
  assert (Hshape : banner host (SQL_DB_of getenv)
                   ++ Connect (conn_string_of host (SQL_DB_of getenv))
                   :: (phases ++ summary) ++ tail
                   = (head ++ phases) ++ summary ++ tail).
  { unfold head. rewrite <- !app_assoc. reflexivity. }
  rewrite Hshape. clear Hshape.
  assert (Hhead : category_rows head = [] /\ supplier_rows head = [] /\
                  customer_rows head = [] /\ product_rows head = [])
    by (repeat split).
  destruct Hhead as (Hc & Hs & Hu & Hp).
  destruct (rows_housekeeping tail Htail) as (Tc & Ts & Tu & Tp).
  assert (Hskip : forall label, In label summary_labels ->
            reported label ((head ++ phases) ++ summary ++ tail)
            = reported label (summary ++ tail)).
  { intros label Hlabel. apply reported_skip_all. apply Forall_app. split.
    - unfold head, banner. repeat constructor; discriminate.
    - eapply Forall_impl; [| exact Hphases].
      intros e (t & [He | He]) n a ->; cbn in He; [| contradiction].
      cbn in Hlabel.
      repeat (destruct Hlabel as [<- | Hlabel];
              [repeat (destruct He as [He | He]; [discriminate He |]); contradiction |]).
      contradiction. }
  split; [| repeat split].
  - split; [| split; [| split; [| split]]];
      (rewrite Hskip by (cbn; tauto)); apply reported_app_some; assumption.
  - rewrite !(proj1 (rows_app _ _)) in *. rewrite Hc, Tc, app_nil_r in *. exact Hcat.
  - rewrite !(proj1 (proj2 (rows_app _ _))) in *. rewrite Hs, Ts, app_nil_r in *. exact Hsup.
  - rewrite !(proj1 (proj2 (proj2 (rows_app _ _)))) in *.
    rewrite Hu, Tu, app_nil_r in *. exact Hcust.
  - rewrite !(proj2 (proj2 (proj2 (rows_app _ _)))) in *.
    rewrite Hp, Tp, app_nil_r in *. exact Hprod.
Qed.

(** C10.  In a run that completes (with [N >= 0] for both tables and
    [B > 0]), the summary lines report 8 categories, 5000 suppliers, the
    configured [CUSTOMERS_TOTAL] and [PRODUCTS_TOTAL], and their sum; the
    rows actually inserted number 8, 5000, [(N // B) * B] customers and
    [(N // B) * B] products.  So each reported total exceeds the rows
    inserted by [N mod B], and equals them exactly when [N] is a multiple
    of [B]. *)
Theorem summary_reports_configured_totals (st : state R F) :
  0 <= CUSTOMERS_TOTAL cfg -> 0 <= PRODUCTS_TOTAL cfg -> 0 < BATCH_SIZE cfg ->
  outcome (main clock getenv cfg st) = Ok tt ->
  exists inserted_customers inserted_products : Z,
    inserted_customers
    = Z.of_nat (List.length (customer_rows (trace (main clock getenv cfg st)))) /\
    inserted_products
    = Z.of_nat (List.length (product_rows (trace (main clock getenv cfg st)))) /\
    Z.of_nat (List.length (category_rows (trace (main clock getenv cfg st)))) = 8 /\
    Z.of_nat (List.length (supplier_rows (trace (main clock getenv cfg st)))) = 5000 /\
    reported "  Categories:       " (trace (main clock getenv cfg st)) = Some 8 /\
    reported "  Suppliers:        " (trace (main clock getenv cfg st)) = Some 5000 /\
    reported "  Customers:        " (trace (main clock getenv cfg st))
    = Some (CUSTOMERS_TOTAL cfg) /\
    reported "  Products:         " (trace (main clock getenv cfg st))
    = Some (PRODUCTS_TOTAL cfg) /\
    reported "  TOTAL:            " (trace (main clock getenv cfg st))
    = Some (8 + 5000 + CUSTOMERS_TOTAL cfg + PRODUCTS_TOTAL cfg) /\
    CUSTOMERS_TOTAL cfg - inserted_customers = CUSTOMERS_TOTAL cfg mod BATCH_SIZE cfg /\
    PRODUCTS_TOTAL cfg - inserted_products = PRODUCTS_TOTAL cfg mod BATCH_SIZE cfg /\
    (CUSTOMERS_TOTAL cfg = inserted_customers <-> CUSTOMERS_TOTAL cfg mod BATCH_SIZE cfg = 0) /\
    (PRODUCTS_TOTAL cfg = inserted_products <-> PRODUCTS_TOTAL cfg mod BATCH_SIZE cfg = 0) /\
    (8 + 5000 + CUSTOMERS_TOTAL cfg + PRODUCTS_TOTAL cfg)
    - (8 + 5000 + inserted_customers + inserted_products)
    = CUSTOMERS_TOTAL cfg mod BATCH_SIZE cfg + PRODUCTS_TOTAL cfg mod BATCH_SIZE cfg.
Proof.
  intros HNc HNp HB Hout.
  destruct (main_completed st HNc HNp HB Hout)
    as ((R1 & R2 & R3 & R4 & R5) & Hcat & Hsup & Hcust & Hprod).
  eexists _, _. split; [reflexivity |]. split; [reflexivity |].
  rewrite Hcust, Hprod.
  pose proof (Z.div_mod (CUSTOMERS_TOTAL cfg) (BATCH_SIZE cfg)).
  pose proof (Z.div_mod (PRODUCTS_TOTAL cfg) (BATCH_SIZE cfg)).
  repeat split; try assumption; lia.
Qed.

End SummaryClaim.

(** ** Two runs *)

#[export] Hint Extern 1 (after_suppliers _) => exact I : emits.

Lemma rows_after_suppliers (evs : list event) :
  Forall after_suppliers evs -> category_rows evs = [] /\ supplier_rows evs = [].
Proof.
  induction 1 as [| e evs He _ IH]; [split; reflexivity |].
  destruct e as [| | | | [l | l | l | l] | | |]; cbn in He; try contradiction; exact IH.
Qed.

Lemma inserted_app (ev1 ev2 : list event) :
  inserted (ev1 ++ ev2) = inserted ev1 ++ inserted ev2.
Proof. apply flat_map_app. Qed.

Lemma category_rows_app (ev1 ev2 : list event) :
  category_rows (ev1 ++ ev2) = category_rows ev1 ++ category_rows ev2.
Proof. apply flat_map_app. Qed.

Lemma supplier_rows_app (ev1 ev2 : list event) :
  supplier_rows (ev1 ++ ev2) = supplier_rows ev1 ++ supplier_rows ev2.
Proof. apply flat_map_app. Qed.

Lemma customer_rows_app (ev1 ev2 : list event) :
  customer_rows (ev1 ++ ev2) = customer_rows ev1 ++ customer_rows ev2.
Proof. apply flat_map_app. Qed.

Lemma product_rows_app (ev1 ev2 : list event) :
  product_rows (ev1 ++ ev2) = product_rows ev1 ++ product_rows ev2.
Proof. apply flat_map_app. Qed.

Section TwoRuns.

Context {R F : Type} {random_lib : PyRandom R} {faker_lib : Faker F}.
Variable cfg : Config.

Lemma seeded_start_fresh (r0 : R) (f0 : F) :
  with_conn true true (seeded_state (fresh r0 f0)) = seeded_start.
Proof. reflexivity. Qed.

(** With a host set, what a run inserts is what [populate] inserts from
    [seeded_start], whatever the environment and whatever state the
    generators were in before they were seeded. *)
Lemma main_rows_from_seed (clock : nat -> Z) (getenv : string -> option string)
      (r0 : R) (f0 : F) :
  falsy (getenv "SQL_SERVER_HOST") = false ->
  inserted (trace (main clock getenv cfg (fresh r0 f0)))
  = inserted (trace (populate clock cfg seeded_start)) /\
  category_rows (trace (main clock getenv cfg (fresh r0 f0)))
  = category_rows (trace (populate clock cfg seeded_start)) /\
  supplier_rows (trace (main clock getenv cfg (fresh r0 f0)))
  = supplier_rows (trace (populate clock cfg seeded_start)).
Proof.
  intro Hf.
  destruct (getenv "SQL_SERVER_HOST") as [host |] eqn:Hh; [| discriminate].
  assert (Hne : host <> EmptyString) by (intros ->; discriminate).
  destruct (run_main_with_host clock cfg getenv (fresh r0 f0) host Hh Hne)
    as (st' & tail & Htail & Hrun).
  rewrite Hrun, seeded_start_fresh. unfold trace. cbn [snd].
  destruct (rows_of_housekeeping tail Htail) as (Hins & _).
  destruct (rows_housekeeping tail Htail) as (Hc & Hs & _ & _).
  split; [| split].
  - change (Connect ?c :: ?l) with ([Connect c] ++ l).
    rewrite !inserted_app, Hins, app_nil_r. reflexivity.
  - change (Connect ?c :: ?l) with ([Connect c] ++ l).
    rewrite !category_rows_app, Hc, app_nil_r. reflexivity.
  - change (Connect ?c :: ?l) with ([Connect c] ++ l).
    rewrite !supplier_rows_app, Hs, app_nil_r. reflexivity.
Qed.

Lemma run_main_falsy (clock : nat -> Z) (getenv : string -> option string) (st : state R F) :
  falsy (getenv "SQL_SERVER_HOST") = true -> trace (main clock getenv cfg st) = [].
Proof. intro Hf. rewrite run_main_without_host by exact Hf. reflexivity. Qed.

Lemma emits_after_suppliers (clock : nat -> Z) :
  emits after_suppliers
        (bind (table_customers (R := R) (F := F) clock cfg) (fun _ =>
         bind (table_products clock cfg) (fun _ => final_summary cfg))).
Proof.
  apply emits_bind.
  - eapply emits_weaken; [| apply emits_table_customers].
    intros [| | | | [l | l | l | l] | | |] He; cbn in He; try discriminate; exact I.
  - intros _. apply emits_bind.
    + eapply emits_weaken; [| apply emits_table_products].
      intros [| | | | [l | l | l | l] | | |] He; cbn in He; try discriminate; exact I.
    + intros _. unfold final_summary, print. cbv zeta.
      auto 30 using emits_emit with emits.
Qed.

(** The trace of [populate]: the first two phases, then events that
    touch neither Categories nor Suppliers. *)
Lemma populate_trace (clock : nat -> Z) (st : state R F) :
  exists rest,
    Forall after_suppliers rest /\
    trace (populate clock cfg st)
    = [Stdout (Text ("✓ Connected to SQL Server" ++ newline))]
      ++ trace (table_categories (R := R) (F := F) st)
      ++ trace (table_suppliers st) ++ rest.
Proof.
  unfold populate.
  unfold bind at 1 2 3.
  change (print (Text ("✓ Connected to SQL Server" ++ newline)) st)
    with (Ok tt, st, [Stdout (Text ("✓ Connected to SQL Server" ++ newline))]).
  cbv iota beta.
  change (table_categories st)
    with (Ok tt, st, trace (table_categories (R := R) (F := F) st)).
  cbv iota beta.
  destruct (table_suppliers st) as [[[u | e] s2] e2]; unfold trace; cbn [snd].
  - pose proof (emits_after_suppliers clock s2) as Krest. unfold trace in Krest.
    destruct (bind (table_customers clock cfg)
                   (fun _ => bind (table_products clock cfg) (fun _ => final_summary cfg)) s2)
      as [[r3 s3] e3]. cbn [snd] in *.
    exists e3. split; [exact Krest | reflexivity].
  - exists []. split; [constructor | rewrite app_nil_r; reflexivity].
Qed.

(** The Categories and Suppliers rows of [populate] never depend on the
    clock: they are those of the two phases run on their own. *)
Lemma populate_first_tables (clock : nat -> Z) (st : state R F) :
  category_rows (trace (populate clock cfg st)) = categories_data /\
  supplier_rows (trace (populate clock cfg st)) = supplier_rows (trace (table_suppliers st)).
Proof.
  destruct (populate_trace clock st) as (rest & Hrest & ->).
  destruct (rows_after_suppliers rest Hrest) as (Hc3 & Hs3).
  destruct (rows_of_phase Suppliers _ (emits_table_suppliers (R := R) (F := F) st))
    as (Hc2 & _).
  rewrite !category_rows_app, !supplier_rows_app, Hc3, Hs3, Hc2 by discriminate.
  rewrite !app_nil_r. split; reflexivity.
Qed.

(** X19.  Take two runs that both have a host or both lack one, from
    any two states of the generators before seeding.  Their Categories
    rows are equal and their Suppliers rows are equal, whatever their
    clocks; and if their clocks read the same at every reading,
    everything they insert, into every table, is equal row for row. *)
Theorem seeded_runs_agree_given_the_clock
        (clock1 clock2 : nat -> Z) (getenv1 getenv2 : string -> option string)
        (r1 r2 : R) (f1 f2 : F) :
  falsy (getenv1 "SQL_SERVER_HOST") = falsy (getenv2 "SQL_SERVER_HOST") ->
  category_rows (trace (main clock1 getenv1 cfg (fresh r1 f1)))
  = category_rows (trace (main clock2 getenv2 cfg (fresh r2 f2))) /\
  supplier_rows (trace (main clock1 getenv1 cfg (fresh r1 f1)))
  = supplier_rows (trace (main clock2 getenv2 cfg (fresh r2 f2))) /\
  ((forall k, clock1 k = clock2 k) ->
   inserted (trace (main clock1 getenv1 cfg (fresh r1 f1)))
   = inserted (trace (main clock2 getenv2 cfg (fresh r2 f2)))).
Proof.
  intro Henv.
  destruct (falsy (getenv2 "SQL_SERVER_HOST")) eqn:H2.
  - rewrite !run_main_falsy by assumption. split; [| split]; reflexivity.
  - destruct (main_rows_from_seed clock1 getenv1 r1 f1 Henv) as (Hi1 & Hc1 & Hs1).
    destruct (main_rows_from_seed clock2 getenv2 r2 f2 H2) as (Hi2 & Hc2 & Hs2).
    destruct (populate_first_tables clock1 seeded_start) as (Pc1 & Ps1).
    destruct (populate_first_tables clock2 seeded_start) as (Pc2 & Ps2).
    split; [| split].
    + rewrite Hc1, Hc2, Pc1, Pc2. reflexivity.
    + rewrite Hs1, Hs2, Ps1, Ps2. reflexivity.
    + intro Hclock.
      assert (Heq : clock1 = clock2) by (apply functional_extensionality; exact Hclock).
      rewrite Hi1, Hi2, Heq. reflexivity.
Qed.

End TwoRuns.

(** ** After the Suppliers phase *)

Section AfterSuppliers.

Context {R F : Type} {random_lib : PyRandom R} {faker_lib : Faker F}.
Variable clock : nat -> Z.
Variable cfg : Config.

(** When the Suppliers phase returns, [populate] ends as the rest of the
    block does from the state Suppliers left, and inserts the same
    Customers and Products rows. *)
Lemma populate_after_suppliers (st s2 : state R F) (e2 : list event) :
  table_suppliers st = (Ok tt, s2, e2) ->
  outcome (populate clock cfg st) = outcome ((load_and_summarise clock cfg) s2) /\
  customer_rows (trace (populate clock cfg st)) = customer_rows (trace ((load_and_summarise clock cfg) s2)) /\
  product_rows (trace (populate clock cfg st)) = product_rows (trace ((load_and_summarise clock cfg) s2)).
Proof.
  intro Hsup.
  pose proof (emits_table_suppliers (R := R) (F := F) st) as Ksup.
  rewrite Hsup in Ksup. unfold trace in Ksup. cbn [snd] in Ksup.
  destruct (rows_of_phase Suppliers e2 Ksup) as (_ & _ & Hu & Hp).
  assert (Hrun : populate clock cfg st
                 = (outcome ((load_and_summarise clock cfg) s2), final ((load_and_summarise clock cfg) s2),
                    [Stdout (Text ("✓ Connected to SQL Server" ++ newline))]
                    ++ trace (table_categories (R := R) (F := F) st)
                    ++ e2 ++ trace ((load_and_summarise clock cfg) s2))).
  { unfold populate. unfold bind at 1 2 3.
    change (print (Text ("✓ Connected to SQL Server" ++ newline)) st)
      with (Ok tt, st, [Stdout (Text ("✓ Connected to SQL Server" ++ newline))]).
    cbv iota beta.
    change (table_categories st)
      with (Ok tt, st, trace (table_categories (R := R) (F := F) st)).
    cbv iota beta. rewrite Hsup. fold (load_and_summarise clock cfg).
    destruct ((load_and_summarise clock cfg) s2) as [[r3 s3] e3]. reflexivity. }
  assert (Ho : outcome (populate clock cfg st) = outcome ((load_and_summarise clock cfg) s2))
    by (rewrite Hrun; reflexivity).
  assert (Ht : trace (populate clock cfg st)
               = [Stdout (Text ("✓ Connected to SQL Server" ++ newline))]
                 ++ trace (table_categories (R := R) (F := F) st)
                 ++ e2 ++ trace ((load_and_summarise clock cfg) s2))
    by (rewrite Hrun; reflexivity).
  rewrite Ht. split; [exact Ho |]. split.
  - rewrite !customer_rows_app, Hu by discriminate. reflexivity.
  - rewrite !product_rows_app, Hp by discriminate. reflexivity.
Qed.

(** With a host set, a run ends as [populate] does from [seeded_start],
    and inserts the same Customers and Products rows. *)
Lemma main_after_seed (getenv : string -> option string) (r0 : R) (f0 : F) :
  falsy (getenv "SQL_SERVER_HOST") = false ->
  outcome (main clock getenv cfg (fresh r0 f0)) = outcome (populate clock cfg seeded_start) /\
  customer_rows (trace (main clock getenv cfg (fresh r0 f0)))
  = customer_rows (trace (populate clock cfg seeded_start)) /\
  product_rows (trace (main clock getenv cfg (fresh r0 f0)))
  = product_rows (trace (populate clock cfg seeded_start)).
Proof.
  intro Hf.
  destruct (getenv "SQL_SERVER_HOST") as [host |] eqn:Hh; [| discriminate].
  assert (Hne : host <> EmptyString) by (intros ->; discriminate).
  destruct (run_main_with_host clock cfg getenv (fresh r0 f0) host Hh Hne)
    as (st' & tail & Htail & Hrun).
  rewrite seeded_start_fresh in Hrun.
  destruct (rows_housekeeping tail Htail) as (_ & _ & Hu & Hp).
  assert (Ho : outcome (main clock getenv cfg (fresh r0 f0))
               = outcome (populate clock cfg seeded_start))
    by (rewrite Hrun; reflexivity).
  assert (Ht : trace (main clock getenv cfg (fresh r0 f0))
               = (banner host (SQL_DB_of getenv)
                  ++ [Connect (conn_string_of host (SQL_DB_of getenv))])
                 ++ trace (populate clock cfg seeded_start) ++ tail)
    by (rewrite Hrun; unfold trace at 1; cbn [snd]; rewrite <- app_assoc; reflexivity).
  rewrite Ht. split; [exact Ho |]. split.
  - rewrite !customer_rows_app, Hu, !app_nil_r. reflexivity.
  - rewrite !product_rows_app, Hp, !app_nil_r. reflexivity.
Qed.

(** A loop whose body, from [st], returns to [st] silently. *)
Lemma returns_for_list_fixed {A B} (f : A -> M R F B) (st : state R F) (l : list A) :
  (forall x, In x l -> returns (f x) st (fun _ st' evs => st' = st /\ evs = [])) ->
  returns (for_list l f) st (fun _ st' evs => st' = st /\ evs = []).
Proof.
  induction l as [| x l IH]; intro Hf.
  - apply returns_ret. split; reflexivity.
  - cbn [for_list]. apply returns_bind.
    eapply returns_weaken; [apply Hf; left; reflexivity |].
    intros y st1 ev1 [-> ->].
    apply returns_bind.
    eapply returns_weaken; [apply IH; intros; apply Hf; right; assumption |].
    intros ys st2 ev2 (-> & ->). apply returns_ret. split; reflexivity.
Qed.

End AfterSuppliers.

Lemma in_range (n i : Z) : In i (range n) -> 0 <= i < n.
Proof.
  unfold range. rewrite in_map_iff. intros (k & <- & Hk). apply in_seq in Hk. lia.
Qed.

(** ** Runs of the scripted doubles on blank tapes *)

Section BlankRuns.

#[local] Existing Instance Fixture.blank_random.
#[local] Existing Instance Fixture.blank_faker.

Lemma blank_generate_supplier_name :
  returns generate_supplier_name seeded_blank
          (fun _ st' evs => st' = seeded_blank /\ evs = []).
Proof. eexists _, _, _. split; [vm_compute; reflexivity |]. split; reflexivity. Qed.

Lemma blank_supplier_row (names : list string) (i : Z) :
  0 <= i < Z.of_nat (List.length names) ->
  returns (supplier_row names i) seeded_blank
          (fun _ st' evs => st' = seeded_blank /\ evs = []).
Proof.
  intro Hi. unfold supplier_row.
  destruct (run_index names i seeded_blank Hi) as (x & _ & Hrun).
  run_with Hrun.
  run_with (run_provider draw_name seeded_blank).
  run_with (run_provider draw_country seeded_blank).
  run_with (run_provider draw_phone_number seeded_blank).
  apply returns_ret. split; reflexivity.
Qed.

Lemma blank_table_suppliers :
  exists evs, table_suppliers seeded_blank = (Ok tt, seeded_blank, evs).
Proof.
  assert (Hret : returns table_suppliers seeded_blank (fun _ st' _ => st' = seeded_blank)).
  { unfold table_suppliers.
    apply returns_bind, returns_emit.
    apply returns_bind. apply returns_bind, returns_emit. apply returns_emit.
    apply returns_bind.
    assert (Hnames : returns (for_list (range 5000) (fun _ => generate_supplier_name))
                             seeded_blank
                             (fun names st' evs =>
                                List.length names = List.length (range 5000) /\
                                st' = seeded_blank /\ evs = [])).
    { destruct (returns_for_list_fixed (fun _ : Z => generate_supplier_name)
                  seeded_blank (range 5000))
        as (names & st' & evs & Hrun & -> & ->).
      - intros; apply blank_generate_supplier_name.
      - exists names, seeded_blank, []. split; [exact Hrun |].
        split; [| split; reflexivity].
        eapply for_list_ok_length. exact Hrun. }
    eapply returns_weaken; [exact Hnames |].
    intros names st1 ev1 (Hlen & -> & ->).
    apply returns_bind.
    eapply returns_weaken.
    - apply returns_for_list_fixed. intros i Hi. apply blank_supplier_row.
      apply in_range in Hi. rewrite Hlen, range_length. lia.
    - intros data st2 ev2 (-> & ->).
      apply returns_bind, returns_emit. apply returns_bind, returns_emit.
      apply returns_emit. reflexivity. }
  destruct Hret as ([] & st' & evs & Hrun & ->). exists evs. exact Hrun.
Qed.

(** A run of the doubles with a host set ends as the Customers and
    Products phases do from [seeded_blank], and inserts their rows. *)
Lemma blank_main (clock : nat -> Z) (cfg : Config) :
  outcome (main clock Fixture.env_host cfg Fixture.blank)
  = outcome (load_and_summarise clock cfg seeded_blank) /\
  customer_rows (trace (main clock Fixture.env_host cfg Fixture.blank))
  = customer_rows (trace (load_and_summarise clock cfg seeded_blank)) /\
  product_rows (trace (main clock Fixture.env_host cfg Fixture.blank))
  = product_rows (trace (load_and_summarise clock cfg seeded_blank)).
Proof.
  destruct blank_table_suppliers as (evs & Hsup).
  destruct (main_after_seed clock cfg Fixture.env_host [] Fixture.no_tapes eq_refl)
    as (Ho & Hu & Hp).
  destruct (populate_after_suppliers clock cfg _ _ _ Hsup) as (Ho' & Hu' & Hp').
  unfold Fixture.blank. rewrite Ho, Hu, Hp. fold seeded_blank.
  rewrite Ho', Hu', Hp'. split; [| split]; reflexivity.
Qed.

End BlankRuns.

(** ** The claims on concrete runs *)

(** C10 at 5 customers and 3 products in batches of 2: the run completes,
    the summary says 5 customers, and 4 were inserted. *)
Lemma summary_reports_configured_totals_witness :
  reported "  Customers:        "
           (trace (main (random_lib := Fixture.blank_random) (faker_lib := Fixture.blank_faker)
                        Fixture.at_2001 Fixture.env_host Fixture.tiny Fixture.blank))
  = Some 5 /\
  Z.of_nat (List.length
              (customer_rows
                 (trace (main (random_lib := Fixture.blank_random)
                              (faker_lib := Fixture.blank_faker)
                              Fixture.at_2001 Fixture.env_host Fixture.tiny Fixture.blank))))
  = 4.
Proof.
  destruct (summary_reports_configured_totals
              (random_lib := Fixture.blank_random) (faker_lib := Fixture.blank_faker)
              Fixture.at_2001 Fixture.tiny Fixture.env_host Fixture.blank)
    as (ic & ip & Hic & _ & _ & _ & _ & _ & Hrep & _ & _ & Hdiff & _);
    [cbn; lia | cbn; lia | cbn; lia | |].
  - rewrite (proj1 (blank_main Fixture.at_2001 Fixture.tiny)). vm_compute. reflexivity.
  - split; [exact Hrep |].
    rewrite <- Hic. change (CUSTOMERS_TOTAL Fixture.tiny) with 5 in Hdiff.
    change (BATCH_SIZE Fixture.tiny) with 2 in Hdiff. change (5 mod 2) with 1 in Hdiff. lia.
Defined.

Lemma customer_rows_of_inserted (evs : list event) :
  customer_rows evs
  = flat_map (fun rs => match rs with CustomerRows l => l | _ => [] end) (inserted evs).
Proof.
  unfold customer_rows, inserted.
  induction evs as [| e evs IH]; [reflexivity |].
  destruct e as [| | | | [l | l | l | l] | | |]; cbn [flat_map app]; rewrite ?IH; reflexivity.
Qed.

(** X19 for two runs a billion seconds apart: the hypothesis holds, and
    the Suppliers rows agree. *)
Lemma seeded_runs_agree_given_the_clock_witness :
  supplier_rows
    (trace (main (random_lib := Fixture.blank_random) (faker_lib := Fixture.blank_faker)
                 Fixture.at_epoch Fixture.env_host Fixture.tiny Fixture.blank))
  = supplier_rows
      (trace (main (random_lib := Fixture.blank_random) (faker_lib := Fixture.blank_faker)
                   Fixture.at_2001 Fixture.env_host Fixture.tiny Fixture.blank)).
Proof.
  destruct (seeded_runs_agree_given_the_clock
              (random_lib := Fixture.blank_random) (faker_lib := Fixture.blank_faker)
              Fixture.tiny Fixture.at_epoch Fixture.at_2001
              Fixture.env_host Fixture.env_host [] [] Fixture.no_tapes Fixture.no_tapes)
    as (_ & Hsup & _); [reflexivity |].
  exact Hsup.
Defined.

(** C8.  The seeds do not make a run repeatable.  Two runs with the same
    seed, the same environment, the same generators and the same sequence
    of generator calls, started a billion seconds apart, insert different
    Customers rows: the creation dates are drawn relative to the clock. *)
Lemma same_seed_different_clock :
  map cust_created
      (customer_rows
         (trace (main (random_lib := Fixture.blank_random) (faker_lib := Fixture.blank_faker)
                      Fixture.at_epoch Fixture.env_host Fixture.tiny Fixture.blank)))
  = [86400; 86400; 86400; 86400] /\
  map cust_created
      (customer_rows
         (trace (main (random_lib := Fixture.blank_random) (faker_lib := Fixture.blank_faker)
                      Fixture.at_2001 Fixture.env_host Fixture.tiny Fixture.blank)))
  = [1000086400; 1000086400; 1000086400; 1000086400] /\
  ~ (inserted
       (trace (main (random_lib := Fixture.blank_random) (faker_lib := Fixture.blank_faker)
                    Fixture.at_epoch Fixture.env_host Fixture.tiny Fixture.blank))
     = inserted
         (trace (main (random_lib := Fixture.blank_random) (faker_lib := Fixture.blank_faker)
                      Fixture.at_2001 Fixture.env_host Fixture.tiny Fixture.blank))).
Proof.
  assert (H1 : map cust_created
                 (customer_rows
                    (trace (main (random_lib := Fixture.blank_random)
                                 (faker_lib := Fixture.blank_faker)
                                 Fixture.at_epoch Fixture.env_host Fixture.tiny Fixture.blank)))
               = [86400; 86400; 86400; 86400]).
  { rewrite (proj1 (proj2 (blank_main Fixture.at_epoch Fixture.tiny))).
    vm_compute. reflexivity. }
  assert (H2 : map cust_created
                 (customer_rows
                    (trace (main (random_lib := Fixture.blank_random)
                                 (faker_lib := Fixture.blank_faker)
                                 Fixture.at_2001 Fixture.env_host Fixture.tiny Fixture.blank)))
               = [1000086400; 1000086400; 1000086400; 1000086400]).
  { rewrite (proj1 (proj2 (blank_main Fixture.at_2001 Fixture.tiny))).
    vm_compute. reflexivity. }
  split; [exact H1 |]. split; [exact H2 |].
  intro Heq.
  rewrite !customer_rows_of_inserted, Heq in H1.
  rewrite !customer_rows_of_inserted in H2.
  rewrite H1 in H2. discriminate H2.
Qed.

(** ** Further properties of the script *)

Lemma all_chars_app (p : ascii -> bool) (s t : string) :
  all_chars p (s ++ t) = all_chars p s && all_chars p t.
Proof.
  induction s as [| c s IH]; [reflexivity |].
  cbn [append all_chars]. rewrite IH. apply andb_assoc.
Qed.

Lemma append_empty_r (s : string) : (s ++ EmptyString)%string = s.
Proof. induction s as [| c s IH]; [reflexivity |]. cbn [append]. rewrite IH. reflexivity. Qed.

(** Slicing. *)
Lemma take_length (n : nat) (s : string) : (String.length (PyStr.take n s) <= n)%nat.
Proof.
  unfold PyStr.take. revert s. induction n as [| n IH]; intro s.
  - destruct s; cbn; lia.
  - destruct s as [| c s]; cbn [substring String.length]; [lia |].
    specialize (IH s). lia.
Qed.

(** Stripping. *)
Lemma lstrip_starts (s : string) : starts_with_space (PyStr.lstrip s) = false.
Proof.
  induction s as [| c s IH]; [reflexivity |].
  cbn [PyStr.lstrip]. destruct (PyStr.isspace c) eqn:Hc; [exact IH |].
  cbn [starts_with_space]. exact Hc.
Qed.

Lemma rstrip_starts (s : string) :
  starts_with_space s = false -> starts_with_space (PyStr.rstrip s) = false.
Proof.
  destruct s as [| c s]; [reflexivity |].
  cbn [starts_with_space PyStr.rstrip]. intro Hc.
  destruct (PyStr.rstrip s); [rewrite Hc |]; cbn [starts_with_space]; trivial.
Qed.

Lemma rstrip_ends (s : string) : ends_with_space (PyStr.rstrip s) = false.
Proof.
  induction s as [| c s IH]; [reflexivity |].
  cbn [PyStr.rstrip]. destruct (PyStr.rstrip s) as [| d r] eqn:Hr.
  - destruct (PyStr.isspace c) eqn:Hc; [reflexivity |]. cbn [ends_with_space]. exact Hc.
  - cbn [ends_with_space]. cbn [ends_with_space] in IH. exact IH.
Qed.

Lemma lstrip_fixed (s : string) : starts_with_space s = false -> PyStr.lstrip s = s.
Proof.
  destruct s as [| c s]; [reflexivity |].
  cbn [starts_with_space PyStr.lstrip]. intros ->. reflexivity.
Qed.

Lemma rstrip_fixed (s : string) : ends_with_space s = false -> PyStr.rstrip s = s.
Proof.
  induction s as [| c s IH]; [reflexivity |].
  cbn [ends_with_space PyStr.rstrip]. destruct s as [| d s'].
  - intros ->. reflexivity.
  - intro H. rewrite (IH H). reflexivity.
Qed.

Lemma strip_clean (s : string) :
  starts_with_space (PyStr.strip s) = false /\
  ends_with_space (PyStr.strip s) = false /\
  PyStr.strip (PyStr.strip s) = PyStr.strip s.
Proof.
  assert (H1 : starts_with_space (PyStr.strip s) = false)
    by (apply rstrip_starts, lstrip_starts).
  assert (H2 : ends_with_space (PyStr.strip s) = false) by apply rstrip_ends.
  split; [exact H1 |]. split; [exact H2 |].
  unfold PyStr.strip at 1. rewrite (lstrip_fixed _ H1). apply rstrip_fixed, H2.
Qed.

(** Case mapping leaves whitespace alone and leaves no upper-case letter. *)
Lemma lower_char_not_upper (c : ascii) : PyStr.isupper (PyStr.lower_char c) = false.
Proof. destruct c as [[] [] [] [] [] [] [] []]; reflexivity. Qed.

Lemma lower_char_space (c : ascii) : PyStr.isspace (PyStr.lower_char c) = PyStr.isspace c.
Proof. destruct c as [[] [] [] [] [] [] [] []]; reflexivity. Qed.

Lemma upper_char_space (c : ascii) : PyStr.isspace (PyStr.upper_char c) = PyStr.isspace c.
Proof. destruct c as [[] [] [] [] [] [] [] []]; reflexivity. Qed.

Lemma lower_not_upper (s : string) :
  all_chars (fun c => negb (PyStr.isupper c)) (PyStr.lower s) = true.
Proof.
  induction s as [| c s IH]; [reflexivity |].
  cbn [PyStr.lower all_chars]. rewrite lower_char_not_upper, IH. reflexivity.
Qed.

Lemma title_from_blank (prev : bool) (s : string) :
  is_blank (PyStr.title_from prev s) = is_blank s.
Proof.
  unfold is_blank. revert prev. induction s as [| c s IH]; intro prev; [reflexivity |].
  cbn [PyStr.title_from all_chars]. rewrite IH.
  destruct prev; rewrite ?lower_char_space, ?upper_char_space; reflexivity.
Qed.

(** Splitting on whitespace. *)
Lemma split_from_tokens (p : ascii -> bool) (s : string) :
  all_chars p s = true ->
  forall cur : option string,
    match cur with
    | Some t => t <> EmptyString /\ all_chars p t = true /\
                all_chars (fun c => negb (PyStr.isspace c)) t = true
    | None => True
    end ->
    Forall (fun t => t <> EmptyString /\ all_chars p t = true /\
                     all_chars (fun c => negb (PyStr.isspace c)) t = true)
           (PyStr.split_from cur s).
Proof.
  induction s as [| c s IH]; intros Hs cur Hcur.
  - destruct cur as [t |]; cbn [PyStr.split_from]; repeat constructor; exact Hcur || apply Hcur.
  - cbn [all_chars] in Hs. apply andb_true_iff in Hs. destruct Hs as [Hc Hs].
    cbn [PyStr.split_from]. destruct (PyStr.isspace c) eqn:Hsp.
    + destruct cur as [t |].
      * constructor; [exact Hcur | apply IH; [exact Hs | exact I]].
      * apply IH; [exact Hs | exact I].
    + destruct cur as [t |]; apply IH; try exact Hs.
      * destruct Hcur as (Hne & Hp & Hn). split; [destruct t; discriminate |].
        rewrite !all_chars_app. cbn [all_chars]. rewrite Hp, Hn, Hc, Hsp. split; reflexivity.
      * split; [discriminate |]. cbn [all_chars]. rewrite Hc, Hsp. split; reflexivity.
Qed.

Lemma split_tokens (p : ascii -> bool) (s : string) :
  all_chars p s = true ->
  Forall (fun t => t <> EmptyString /\ all_chars p t = true /\
                   all_chars (fun c => negb (PyStr.isspace c)) t = true)
         (PyStr.split s).
Proof. intro Hs. apply split_from_tokens; [exact Hs | exact I]. Qed.

Lemma split_from_blank (s : string) :
  PyStr.split_from None s = [] <-> is_blank s = true.
Proof.
  unfold is_blank. induction s as [| c s IH]; [split; reflexivity |].
  cbn [PyStr.split_from all_chars]. destruct (PyStr.isspace c) eqn:Hc; cbn [andb].
  - exact IH.
  - split; [| discriminate]. intro H. exfalso. revert H.
    generalize (String c EmptyString). clear. induction s as [| d s IH]; intro t.
    + discriminate.
    + cbn [PyStr.split_from]. destruct (PyStr.isspace d); [discriminate | apply IH].
Qed.

Lemma split_title_blank (s : string) :
  PyStr.split (PyStr.title s) = [] <-> is_blank s = true.
Proof.
  unfold PyStr.split, PyStr.title. rewrite split_from_blank. rewrite title_from_blank. tauto.
Qed.

Lemma first_of_in (l : list string) : l <> [] -> In (PyStr.first_of l) l.
Proof. destruct l; [contradiction | left; reflexivity]. Qed.

Lemma last_of_in (l : list string) : l <> [] -> In (PyStr.last_of l) l.
Proof.
  unfold PyStr.last_of. induction l as [| a l IH]; [contradiction |]. intros _.
  destruct l as [| b l]; [left; reflexivity |]. right. apply IH. discriminate.
Qed.

Lemma remove_from_keeps (old x t : string) :
  all_chars not_comma x = true ->
  PyStr.remove_from (String "," old) O (x ++ t)
  = (x ++ PyStr.remove_from (String "," old) O t)%string.
Proof.
  induction x as [| c x IH]; [reflexivity |]. cbn [all_chars]. intro H.
  apply andb_true_iff in H. destruct H as [Hc Hx].
  cbn [append PyStr.remove_from].
  assert (Hp : prefix (String "," old) (String c (x ++ t)) = false).
  { cbn [prefix]. unfold not_comma in Hc.
    destruct (ascii_dec "," c) as [<- | _]; [discriminate Hc | reflexivity]. }
  rewrite Hp, IH by exact Hx. reflexivity.
Qed.

Lemma legal_form_removed (x tail : string) :
  all_chars not_comma x = true ->
  In tail [", Inc."; ", LLC"; ", Ltd"; EmptyString] ->
  PyStr.remove ", Ltd" (PyStr.remove ", LLC" (PyStr.remove ", Inc." (x ++ tail))) = x.
Proof.
  intros Hx Htail.
  assert (Hkeep : forall old, PyStr.remove_from (String "," old) O x = x).
  { intro old. rewrite <- (append_empty_r x) at 1. rewrite remove_from_keeps by exact Hx.
    cbn [PyStr.remove_from]. apply append_empty_r. }
  unfold PyStr.remove.
  destruct Htail as [<- | [<- | [<- | [<- | []]]]].
  - rewrite remove_from_keeps by exact Hx.
    change (PyStr.remove_from ", Inc." 0 ", Inc.") with EmptyString.
    rewrite append_empty_r, !Hkeep. reflexivity.
  - rewrite remove_from_keeps by exact Hx.
    change (PyStr.remove_from ", Inc." 0 ", LLC") with ", LLC".
    rewrite remove_from_keeps by exact Hx.
    change (PyStr.remove_from ", LLC" 0 ", LLC") with EmptyString.
    rewrite append_empty_r, !Hkeep. reflexivity.
  - rewrite remove_from_keeps by exact Hx.
    change (PyStr.remove_from ", Inc." 0 ", Ltd") with ", Ltd".
    rewrite remove_from_keeps by exact Hx.
    change (PyStr.remove_from ", LLC" 0 ", Ltd") with ", Ltd".
    rewrite remove_from_keeps by exact Hx.
    change (PyStr.remove_from ", Ltd" 0 ", Ltd") with EmptyString.
    apply append_empty_r.
  - rewrite append_empty_r, !Hkeep. reflexivity.
Qed.

Section Outcomes.

Context {R F : Type} {random_lib : PyRandom R} {faker_lib : Faker F}.

Lemma outcomes_ret {A} (a : A) (Q : A -> Prop) (E : exn -> Prop) :
  Q a -> outcomes (ret (R := R) (F := F) a) Q E.
Proof. intros HQ st. exact HQ. Qed.

Lemma outcomes_any {A} (m : M R F A) : outcomes m (fun _ => True) (fun _ => True).
Proof. intro st. destruct (outcome (m st)); exact I. Qed.

Lemma outcomes_emit (e : event) (Q : unit -> Prop) (E : exn -> Prop) :
  Q tt -> outcomes (emit (R := R) (F := F) e) Q E.
Proof. intros HQ st. exact HQ. Qed.

Lemma outcomes_bind {A B} (m : M R F A) (k : A -> M R F B)
      (Q : A -> Prop) (Q' : B -> Prop) (E : exn -> Prop) :
  outcomes m Q E -> (forall a, Q a -> outcomes (k a) Q' E) -> outcomes (bind m k) Q' E.
Proof.
  intros Hm Hk st. specialize (Hm st). unfold bind, outcome in *.
  destruct (m st) as [[[a | e] st1] ev1]; cbn [fst] in *; [| exact Hm].
  specialize (Hk a Hm st1). unfold outcome in Hk.
  destruct (k a st1) as [[r st2] ev2]. exact Hk.
Qed.

Lemma outcomes_weaken {A} (m : M R F A) (Q Q' : A -> Prop) (E E' : exn -> Prop) :
  outcomes m Q E -> (forall a, Q a -> Q' a) -> (forall e, E e -> E' e) -> outcomes m Q' E'.
Proof.
  intros Hm HQ HE st. specialize (Hm st).
  destruct (outcome (m st)); [apply HQ | apply HE]; exact Hm.
Qed.

Lemma outcomes_of_returns {A} (m : M R F A) (Q : A -> Prop) (E : exn -> Prop) :
  (forall st, returns m st (fun a _ _ => Q a)) -> outcomes m Q E.
Proof.
  intros Hm st. destruct (Hm st) as (a & st' & evs & Hrun & HQ).
  rewrite Hrun. exact HQ.
Qed.

Lemma outcomes_of_silent {A} (m : M R F A) (Q : A -> Prop) (E : exn -> Prop) :
  (forall st, silent m st Q) -> outcomes m Q E.
Proof.
  intro Hm. apply outcomes_of_returns. intro st.
  eapply returns_weaken; [apply Hm |]. intros a st' evs [HQ _]. exact HQ.
Qed.

Lemma outcomes_if_bool {A} (c : bool) (m1 m2 : M R F A) Q E :
  (c = true -> outcomes m1 Q E) -> (c = false -> outcomes m2 Q E) ->
  outcomes (if c then m1 else m2) Q E.
Proof. destruct c; auto. Qed.

Lemma outcomes_provider (draw : F -> string * F) (E : exn -> Prop) :
  outcomes (provider (R := R) draw) (fun s => exists f, s = fst (draw f)) E.
Proof.
  apply outcomes_of_silent. intro st.
  eapply silent_weaken; [apply silent_provider |]. intros s ->. eexists. reflexivity.
Qed.

Lemma outcomes_index {A} (l : list A) (i : Z) (E : exn -> Prop) :
  (~ 0 <= i < Z.of_nat (List.length l) -> E IndexError) ->
  (i < 0 -> E IndexError) ->
  outcomes (index (R := R) (F := F) l i) (fun x => In x l) E.
Proof.
  intros Hout Hneg st. unfold index. cbv zeta.
  destruct (i <? 0) eqn:Hi.
  - apply Z.ltb_lt in Hi.
    destruct (i + Z.of_nat (List.length l) <? 0); [apply Hneg; exact Hi |].
    destruct (nth_error l (Z.to_nat (i + Z.of_nat (List.length l)))) as [x |] eqn:Hx.
    + eapply nth_error_In. exact Hx.
    + apply Hneg. exact Hi.
  - apply Z.ltb_ge in Hi. rewrite (proj2 (Z.ltb_ge i 0) Hi).
    destruct (nth_error l (Z.to_nat i)) as [x |] eqn:Hx.
    + eapply nth_error_In. exact Hx.
    + apply Hout. apply nth_error_None in Hx. lia.
Qed.

Lemma outcomes_floordiv (a b : Z) (E : exn -> Prop) :
  (b = 0 -> E ZeroDivisionError) ->
  outcomes (floordiv (R := R) (F := F) a b) (fun q => q = a / b /\ b <> 0) E.
Proof.
  intros Hz st. unfold floordiv. destruct (b =? 0) eqn:Hb.
  - apply Z.eqb_eq in Hb. apply Hz. exact Hb.
  - apply Z.eqb_neq in Hb. split; [reflexivity | exact Hb].
Qed.

Lemma outcomes_for_list {A B} (f : A -> M R F B) (Q : B -> Prop) (E : exn -> Prop) (l : list A) :
  (forall x, In x l -> outcomes (f x) Q E) ->
  outcomes (for_list l f) (fun ys => List.length ys = List.length l /\ Forall Q ys) E.
Proof.
  induction l as [| x l IH]; intro Hf; cbn [for_list].
  - apply outcomes_ret. split; [reflexivity | constructor].
  - eapply outcomes_bind; [apply Hf; left; reflexivity |]. intros y Hy.
    eapply outcomes_bind; [apply IH; intros; apply Hf; right; assumption |].
    intros ys [Hlen Hys]. apply outcomes_ret.
    split; [cbn [List.length]; rewrite Hlen; reflexivity | constructor; assumption].
Qed.

Lemma outcomes_for_each {A S} (l : list A) (body : S -> A -> M R F S) (E : exn -> Prop) :
  (forall acc x, outcomes (body acc x) (fun _ => True) E) ->
  forall acc, outcomes (for_each l acc body) (fun _ => True) E.
Proof.
  intro Hb. induction l as [| x l IH]; intro acc; cbn [for_each].
  - apply outcomes_ret. exact I.
  - eapply outcomes_bind; [apply Hb |]. intros acc' _. apply IH.
Qed.

End Outcomes.

Section Keeps.

Context {R F : Type} {random_lib : PyRandom R} {faker_lib : Faker F}.

Lemma keeps_ret {A} (a : A) : keeps_connection (ret (R := R) (F := F) a).
Proof. intro st. split; reflexivity. Qed.

Lemma keeps_raise {A} (e : exn) : keeps_connection (raise (R := R) (F := F) (A := A) e).
Proof. intro st. split; reflexivity. Qed.

Lemma keeps_emit (e : event) : keeps_connection (emit (R := R) (F := F) e).
Proof. intro st. split; reflexivity. Qed.

Lemma keeps_bind {A B} (m : M R F A) (k : A -> M R F B) :
  keeps_connection m -> (forall a, keeps_connection (k a)) -> keeps_connection (bind m k).
Proof.
  intros Hm Hk st. specialize (Hm st). unfold bind, final in *.
  destruct (m st) as [[[a | e] st1] ev1]; cbn [fst snd] in *; [| exact Hm].
  specialize (Hk a st1). unfold final in Hk.
  destruct (k a st1) as [[r st2] ev2]. cbn [fst snd] in *.
  destruct Hm as [Hc Hk1]. destruct Hk as [Hc2 Hk2]. split; congruence.
Qed.

Lemma keeps_if_bool {A} (c : bool) (m1 m2 : M R F A) :
  keeps_connection m1 -> keeps_connection m2 -> keeps_connection (if c then m1 else m2).
Proof. destruct c; auto. Qed.

Lemma keeps_if_dec {A} {P Q : Prop} (c : {P} + {Q}) (m1 m2 : M R F A) :
  keeps_connection m1 -> keeps_connection m2 -> keeps_connection (if c then m1 else m2).
Proof. destruct c; auto. Qed.

Lemma keeps_random : keeps_connection (random_random (R := R) (F := F)).
Proof.
  intro st. unfold random_random. destruct (next_random (rng st)). split; reflexivity.
Qed.

Lemma keeps_randbelow (n : Z) : keeps_connection (random_randbelow (R := R) (F := F) n).
Proof.
  intro st. unfold random_randbelow. destruct (next_below n (rng st)). split; reflexivity.
Qed.

Lemma keeps_provider (draw : F -> string * F) : keeps_connection (provider (R := R) draw).
Proof. intro st. unfold provider. destruct (draw (fake st)). split; reflexivity. Qed.

Lemma keeps_date (clock : nat -> Z) (a b : string) :
  keeps_connection (fake_date_time_between (R := R) clock a b).
Proof.
  intro st. unfold fake_date_time_between.
  destruct (draw_date_time_between (clock (ticks st)) a b (fake st)). split; reflexivity.
Qed.

Lemma keeps_choice {A} (seq : list A) : keeps_connection (random_choice (R := R) (F := F) seq).
Proof.
  unfold random_choice. destruct seq as [| a l]; [apply keeps_raise |].
  apply keeps_bind; [apply keeps_randbelow |].
  intro k. destruct (nth_error (a :: l) (Z.to_nat k)); [apply keeps_ret | apply keeps_raise].
Qed.

Lemma keeps_randint (a b : Z) : keeps_connection (random_randint (R := R) (F := F) a b).
Proof.
  unfold random_randint. apply keeps_if_bool; [| apply keeps_raise].
  apply keeps_bind; [apply keeps_randbelow | intro; apply keeps_ret].
Qed.

Lemma keeps_uniform (a b : Q) : keeps_connection (random_uniform (R := R) (F := F) a b).
Proof.
  unfold random_uniform. apply keeps_bind; [apply keeps_random | intro; apply keeps_ret].
Qed.

Lemma keeps_index {A} (l : list A) (i : Z) : keeps_connection (index (R := R) (F := F) l i).
Proof.
  unfold index. cbv zeta. apply keeps_if_bool; [apply keeps_raise |].
  destruct (nth_error l _); [apply keeps_ret | apply keeps_raise].
Qed.

Lemma keeps_floordiv (a b : Z) : keeps_connection (floordiv (R := R) (F := F) a b).
Proof. unfold floordiv. apply keeps_if_bool; [apply keeps_raise | apply keeps_ret]. Qed.

Lemma keeps_for_list {A B} (l : list A) (f : A -> M R F B) :
  (forall x, keeps_connection (f x)) -> keeps_connection (for_list l f).
Proof.
  intro Hf. induction l as [| x l IH]; cbn [for_list].
  - apply keeps_ret.
  - apply keeps_bind; [apply Hf |]. intro y.
    apply keeps_bind; [exact IH |]. intro ys. apply keeps_ret.
Qed.

Lemma keeps_for_each {A S} (l : list A) (body : S -> A -> M R F S) :
  (forall acc x, keeps_connection (body acc x)) ->
  forall acc, keeps_connection (for_each l acc body).
Proof.
  intro Hb. induction l as [| x l IH]; intro acc; cbn [for_each].
  - apply keeps_ret.
  - apply keeps_bind; [apply Hb | exact IH].
Qed.

End Keeps.

#[export] Hint Resolve keeps_ret keeps_raise keeps_emit keeps_bind keeps_if_bool keeps_if_dec
  keeps_random keeps_randbelow keeps_provider keeps_date keeps_choice keeps_randint
  keeps_uniform keeps_index keeps_floordiv keeps_for_list keeps_for_each : keeps.

Section KeepsScript.

Context {R F : Type} {random_lib : PyRandom R} {faker_lib : Faker F}.
Variable clock : nat -> Z.
Variable cfg : Config.

Lemma keeps_populate : keeps_connection (populate (R := R) (F := F) clock cfg).
Proof.
  unfold populate, table_categories, table_suppliers, table_customers, table_products,
    load_customers, load_products, final_summary, commit_periodically, recreate_table,
    supplier_row, customer_row, product_row, generate_supplier_name,
    cursor_executemany, conn_commit, print,
    fake_name, fake_email, fake_phone_number, fake_country, fake_company, fake_bs,
    fake_last_name.
  cbv zeta.
  auto 60 with keeps.
Qed.

End KeepsScript.

Section ExactRows.

Context {R F : Type} {random_lib : PyRandom R} {faker_lib : Faker F}.
Variable clock : nat -> Z.

Lemma run_date (a b : string) (st : state R F) :
  fake_date_time_between clock a b st
  = (Ok (fst (draw_date_time_between (clock (ticks st)) a b (fake st))),
     with_fake (snd (draw_date_time_between (clock (ticks st)) a b (fake st))) (with_tick st),
     []).
Proof.
  unfold fake_date_time_between.
  destruct (draw_date_time_between (clock (ticks st)) a b (fake st)); reflexivity.
Qed.

(** The tail of a customer row, from the state [s] the name and email
    left: the date test [w], one reading of the clock, phone, country and
    the activity flag. *)
Lemma customer_tail_exact (name_email : option string * string) (s : state R F) :
  let w := fst (next_random (rng s)) in
  returns (bind random_random (fun w =>
           bind (if Qlt_le_dec w (1 # 100)
                 then fake_date_time_between clock "+1d" "+30d"
                 else fake_date_time_between clock "-5y" "now") (fun created_date =>
           bind fake_phone_number (fun phone =>
           bind fake_country (fun country =>
           bind (random_choice [0; 1]) (fun is_active =>
           ret {| cust_name := fst name_email; cust_email := snd name_email;
                  cust_phone := PyStr.take 20 phone; cust_country := PyStr.take 100 country;
                  cust_created := created_date; cust_is_active := is_active |}))))))
          s
          (fun row st' evs =>
             evs = [] /\ ticks st' = S (ticks s) /\
             cust_name row = fst name_email /\ cust_email row = snd name_email /\
             (cust_is_active row = 0 \/ cust_is_active row = 1) /\
             (String.length (cust_phone row) <= 20)%nat /\
             (String.length (cust_country row) <= 100)%nat /\
             cust_created row
             = (if Qlt_le_dec w (1 # 100)
                then fst (draw_date_time_between (clock (ticks s)) "+1d" "+30d" (fake s))
                else fst (draw_date_time_between (clock (ticks s)) "-5y" "now" (fake s)))).
Proof.
  intro w.
  run_with (run_random s). fold w.
  set (s1 := with_rng (snd (next_random (rng s))) s).
  assert (Hdate : returns
            (if Qlt_le_dec w (1 # 100)
             then fake_date_time_between clock "+1d" "+30d"
             else fake_date_time_between clock "-5y" "now") s1
            (fun t st' evs =>
               evs = [] /\ ticks st' = S (ticks s) /\
               t = (if Qlt_le_dec w (1 # 100)
                    then fst (draw_date_time_between (clock (ticks s)) "+1d" "+30d" (fake s))
                    else fst (draw_date_time_between (clock (ticks s)) "-5y" "now" (fake s))))).
  { destruct (Qlt_le_dec w (1 # 100)); eexists _, _, _;
      (split; [apply run_date |]); repeat split. }
  apply returns_bind. eapply returns_weaken; [exact Hdate |].
  intros created s2 ev2 (-> & Hticks & Hcreated).
  run_with (run_provider draw_phone_number s2).
  set (s3 := with_fake (snd (draw_phone_number (fake s2))) s2).
  run_with (run_provider draw_country s3).
  set (s4 := with_fake (snd (draw_country (fake s3))) s3).
  destruct (run_choice [0; 1] s4 ltac:(discriminate)) as (flag & Hnth & Hrun).
  run_with Hrun. apply returns_ret.
  cbn [cust_name cust_email cust_is_active cust_phone cust_country cust_created app].
  split; [reflexivity |]. split; [exact Hticks |].
  split; [reflexivity |]. split; [reflexivity |]. split.
  - pose proof (next_below_range (Z.of_nat (List.length [0; 1])) (rng s4) ltac:(cbn; lia)) as Hk.
    cbn [List.length] in Hk, Hnth.
    assert (Hc : Z.to_nat (fst (next_below (Z.of_nat 2) (rng s4))) = 0%nat \/
                 Z.to_nat (fst (next_below (Z.of_nat 2) (rng s4))) = 1%nat) by lia.
    destruct Hc as [Hc | Hc]; rewrite Hc in Hnth; cbn in Hnth; inversion Hnth; auto.
  - split; [apply take_length |]. split; [apply take_length | exact Hcreated].
Qed.

(** A customer row as a function of the draws: [u] gates the null name,
    [v] gates the invalid email, [k] picks the domain. *)
Lemma customer_row_exact (st : state R F) :
  let u := fst (next_random (rng st)) in
  let r1 := snd (next_random (rng st)) in
  let name := fst (draw_name (fake st)) in
  let parts := PyStr.split (PyStr.lower name) in
  let v := fst (next_random r1) in
  let k := fst (next_below 6 (snd (next_random r1))) in
  returns (customer_row clock) st (fun row st' evs =>
    evs = [] /\ ticks st' = S (ticks st) /\
    cust_name row = (if Qlt_le_dec u (5 # 1000) then None else Some name) /\
    cust_email row
    = (if Qlt_le_dec u (5 # 1000) then fst (draw_email (fake st))
       else if 2 <=? Z.of_nat (List.length parts)
            then (PyStr.first_of parts ++ "." ++ PyStr.last_of parts ++ "@"
                  ++ (if Qlt_le_dec v (1 # 100) then "invalid"
                      else nth (Z.to_nat k) EMAIL_DOMAINS EmptyString))%string
            else fst (draw_email (snd (draw_name (fake st))))) /\
    (cust_is_active row = 0 \/ cust_is_active row = 1) /\
    (String.length (cust_phone row) <= 20)%nat /\
    (String.length (cust_country row) <= 100)%nat /\
    exists (w : Q) (f : F),
      cust_created row
      = (if Qlt_le_dec w (1 # 100)
         then fst (draw_date_time_between (clock (ticks st)) "+1d" "+30d" f)
         else fst (draw_date_time_between (clock (ticks st)) "-5y" "now" f))).
Proof.
  intros u r1 name parts v k.
  set (st1 := with_rng r1 st).
  unfold customer_row.
  run_with (run_random st). fold u r1 st1.
  apply returns_bind.
  assert (Hhead : returns
            (if Qlt_le_dec u (5 # 1000)
             then bind fake_email (fun email => ret (None, email))
             else bind fake_name (fun customer_name =>
                  let name_parts := PyStr.split (PyStr.lower customer_name) in
                  if 2 <=? Z.of_nat (List.length name_parts)
                  then let first_name := PyStr.first_of name_parts in
                       let last_name := PyStr.last_of name_parts in
                       bind random_random (fun v0 =>
                       if Qlt_le_dec v0 (1 # 100)
                       then ret (Some customer_name,
                                 (first_name ++ "." ++ last_name ++ "@invalid")%string)
                       else bind (random_choice EMAIL_DOMAINS) (fun domain =>
                            ret (Some customer_name,
                                 (first_name ++ "." ++ last_name ++ "@" ++ domain)%string)))
                  else bind fake_email (fun email => ret (Some customer_name, email))))
            st1
            (fun ne s evs =>
               evs = [] /\ ticks s = ticks st /\
               fst ne = (if Qlt_le_dec u (5 # 1000) then None else Some name) /\
               snd ne
               = (if Qlt_le_dec u (5 # 1000) then fst (draw_email (fake st))
                  else if 2 <=? Z.of_nat (List.length parts)
                       then (PyStr.first_of parts ++ "." ++ PyStr.last_of parts ++ "@"
                             ++ (if Qlt_le_dec v (1 # 100) then "invalid"
                                 else nth (Z.to_nat k) EMAIL_DOMAINS EmptyString))%string
                       else fst (draw_email (snd (draw_name (fake st))))))).
  { destruct (Qlt_le_dec u (5 # 1000)) as [Hu | Hu].
    - run_with (run_provider draw_email st1). apply returns_ret. repeat split.
    - run_with (run_provider draw_name st1).
      change (fst (draw_name (fake st1))) with name. cbv zeta. fold parts.
      set (st2 := with_fake (snd (draw_name (fake st1))) st1).
      destruct (2 <=? Z.of_nat (List.length parts)).
      + run_with (run_random st2). change (fst (next_random (rng st2))) with v.
        set (st3 := with_rng (snd (next_random (rng st2))) st2).
        destruct (Qlt_le_dec v (1 # 100)) as [Hv | Hv].
        * apply returns_ret. repeat split.
        * destruct (run_choice EMAIL_DOMAINS st3 ltac:(discriminate)) as (domain & Hnth & Hrun).
          run_with Hrun. apply returns_ret.
          change (fst (next_below (Z.of_nat (List.length EMAIL_DOMAINS)) (rng st3))) with k in Hnth.
          rewrite (nth_error_nth _ _ EmptyString Hnth). repeat split.
      + run_with (run_provider draw_email st2). apply returns_ret. repeat split. }
  eapply returns_weaken; [exact Hhead |].
  intros ne s ev (-> & Hticks & Hname & Hemail).
  eapply returns_weaken; [apply customer_tail_exact |].
  intros row st' evs (-> & Hticks' & Hn & He & Hflag & Hphone & Hcountry & Hcreated).
  cbv beta. rewrite Hticks in Hticks', Hcreated.
  split; [reflexivity |]. split; [exact Hticks' |].
  split; [rewrite Hn; exact Hname |]. split; [rewrite He; exact Hemail |].
  split; [exact Hflag |]. split; [exact Hphone |]. split; [exact Hcountry |].
  exists (fst (next_random (rng s))), (fake s). exact Hcreated.
Qed.

(** The stock quantity of a product row, from the fourth [random()] of
    the row (after the name test, the price test and the draw inside
    [uniform]). *)
Lemma product_stock_exact (i : Z) (st : state R F) :
  let w := fst (next_random (snd (next_random (snd (next_random
                (snd (next_random (rng st)))))))) in
  returns (product_row clock i) st (fun row st' evs =>
    evs = [] /\ ticks st' = S (ticks st) /\
    (if Qlt_le_dec w (1 # 100)
     then -100 <= prod_stock_quantity row <= -1
     else 0 <= prod_stock_quantity row <= 1000) /\
    prod_created row = fst (draw_date_time_between (clock (ticks st)) "-3y" "now" (fake st))).
Proof.
  intro w.
  set (r1 := snd (next_random (rng st))). set (st1 := with_rng r1 st).
  set (r2 := snd (next_random r1)). set (st2 := with_rng r2 st1).
  set (r3 := snd (next_random r2)). set (st3 := with_rng r3 st2).
  set (r4 := snd (next_random r3)). set (st4 := with_rng r4 st3).
  unfold product_row.
  run_with (run_random st). fold r1 st1.
  apply returns_bind.
  assert (Hname : returns
            (if Qlt_le_dec (fst (next_random (rng st))) (2 # 1000) then ret None
             else bind (index PRODUCT_NAMES (i mod Z.of_nat (List.length PRODUCT_NAMES)))
                       (fun n => ret (Some n)))
            st1 (fun _ st' evs => st' = st1 /\ evs = [])).
  { destruct (Qlt_le_dec (fst (next_random (rng st))) (2 # 1000)).
    - apply returns_ret. split; reflexivity.
    - assert (Hi : 0 <= i mod 25 < Z.of_nat (List.length PRODUCT_NAMES))
        by (change (Z.of_nat (List.length PRODUCT_NAMES)) with 25; apply Z.mod_pos_bound; lia).
      destruct (run_index PRODUCT_NAMES (i mod 25) st1 Hi) as (n & Hn & Hrun).
      change (Z.of_nat (List.length PRODUCT_NAMES)) with 25.
      run_with Hrun. apply returns_ret. split; reflexivity. }
  eapply returns_weaken; [exact Hname |].
  intros product_name st' evs (-> & ->).
  run_with (run_random st1).
  change (with_rng (snd (next_random (rng st1))) st1) with st2.
  apply returns_bind.
  assert (Hprice : returns
            (if Qlt_le_dec (fst (next_random (rng st1))) (5 # 1000)
             then bind (random_uniform 10 1000) (fun x0 => ret (- x0)%Q)
             else random_uniform 5 2000)
            st2 (fun _ st' evs => st' = st3 /\ evs = [])).
  { destruct (Qlt_le_dec (fst (next_random (rng st1))) (5 # 1000)); unfold random_uniform.
    - apply returns_bind. run_with (run_random st2).
      apply returns_ret. apply returns_ret. split; reflexivity.
    - run_with (run_random st2). apply returns_ret. split; reflexivity. }
  eapply returns_weaken; [exact Hprice |].
  intros unit_price st' evs (-> & ->).
  run_with (run_random st3).
  change (fst (next_random (rng st3))) with w.
  change (with_rng (snd (next_random (rng st3))) st3) with st4.
  apply returns_bind.
  assert (Hstock : returns
            (if Qlt_le_dec w (1 # 100)
             then bind (random_randint 1 100) (fun n => ret (- n))
             else random_randint 0 1000)
            st4
            (fun q st' evs =>
               evs = [] /\ ticks st' = ticks st /\ fake st' = fake st /\
               (if Qlt_le_dec w (1 # 100) then -100 <= q <= -1 else 0 <= q <= 1000))).
  { destruct (Qlt_le_dec w (1 # 100)).
    - pose proof (next_below_range (100 - 1 + 1) (rng st4) ltac:(lia)) as Hk.
      run_with (run_randint 1 100 st4 ltac:(lia)).
      apply returns_ret. repeat split; lia.
    - pose proof (next_below_range (1000 - 0 + 1) (rng st4) ltac:(lia)) as Hk.
      eexists _, _, _. split; [apply (run_randint 0 1000 st4); lia |].
      repeat split; lia. }
  eapply returns_weaken; [exact Hstock |].
  intros q s5 ev5 (-> & Hticks & Hfake & Hq).
  run_with (run_randint 1 6000 s5 ltac:(lia)).
  set (s6 := with_rng (snd (next_below (6000 - 1 + 1) (rng s5))) s5).
  run_with (run_randint 1 8 s6 ltac:(lia)).
  set (s7 := with_rng (snd (next_below (8 - 1 + 1) (rng s6))) s6).
  run_with (run_date "-3y" "now" s7).
  apply returns_ret. cbn [prod_stock_quantity prod_created app].
  split; [reflexivity |].
  split; [cbn; rewrite Hticks; reflexivity |].
  split; [exact Hq |].
  change (ticks s7) with (ticks s5). change (fake s7) with (fake s5).
  rewrite Hticks, Hfake. reflexivity.
Qed.

End ExactRows.

#[export] Hint Extern 1 (rows_satisfy _ _ _ _) => exact I : emits.

Lemma rows_of_satisfy Ps Pc Pp (evs : list event) :
  Forall (rows_satisfy Ps Pc Pp) evs ->
  Forall Ps (supplier_rows evs) /\ Forall Pc (customer_rows evs) /\
  Forall Pp (product_rows evs).
Proof.
  induction 1 as [| e evs He _ (IHs & IHc & IHp)]; [repeat split; constructor |].
  unfold supplier_rows, customer_rows, product_rows in *. cbn [flat_map].
  destruct e as [| | | | [l | l | l | l] | | |]; cbn [app]; cbn in He;
    repeat split; try assumption; apply Forall_app; split; assumption.
Qed.

Section EmitsRows.

Context {R F : Type} {random_lib : PyRandom R} {faker_lib : Faker F}.

Lemma emits_bind_outcomes {A B} (K : event -> Prop) (m : M R F A) (k : A -> M R F B)
      (Q : A -> Prop) :
  emits K m -> outcomes m Q (fun _ => True) -> (forall a, Q a -> emits K (k a)) ->
  emits K (bind m k).
Proof.
  intros Hm Ho Hk st. specialize (Hm st). specialize (Ho st).
  unfold bind, trace, outcome in *.
  destruct (m st) as [[[a | e] st1] ev1]; cbn [fst snd] in *; [| exact Hm].
  specialize (Hk a Ho st1). unfold trace in Hk.
  destruct (k a st1) as [[r st2] ev2]. cbn [snd] in *.
  apply Forall_app. split; assumption.
Qed.

Variable clock : nat -> Z.
Variable getenv : string -> option string.
Variable cfg : Config.

Variable Pn : string -> Prop.
Variable Ps : supplier -> Prop.
Variable Pc : customer -> Prop.
Variable Pp : product -> Prop.

Hypothesis supplier_names_ok :
  outcomes (generate_supplier_name (R := R) (F := F)) Pn (fun _ => True).
Hypothesis supplier_rows_ok :
  forall names i, Forall Pn names ->
                  outcomes (supplier_row (R := R) (F := F) names i) Ps (fun _ => True).
Hypothesis customer_rows_ok : forall st, silent (customer_row clock) st Pc.
Hypothesis product_rows_ok : forall i st, silent (product_row clock i) st Pp.

Lemma emits_rows_suppliers :
  emits (rows_satisfy Ps Pc Pp) (table_suppliers (R := R) (F := F)).
Proof.
  unfold table_suppliers, recreate_table, cursor_executemany, conn_commit, print.
  apply emits_bind; [apply emits_emit; exact I | intros _].
  apply emits_bind; [auto 10 using emits_emit with emits | intros _].
  apply emits_bind_outcomes with (Q := fun names => Forall Pn names).
  { apply emits_for_list. intro. apply emits_generate_supplier_name. }
  { eapply outcomes_weaken; [apply outcomes_for_list; intros; apply supplier_names_ok | |];
      cbv beta; [intros names [_ H]; exact H | trivial]. }
  intros names Hnames.
  apply emits_bind_outcomes with (Q := fun data => Forall Ps data).
  - apply emits_for_list. intro. apply emits_supplier_row.
  - eapply outcomes_weaken;
      [apply outcomes_for_list; intros; apply supplier_rows_ok; exact Hnames | |];
      cbv beta; [intros data [_ H]; exact H | trivial].
  - intros data Hdata.
    apply emits_bind; [apply emits_emit; exact Hdata | intros _].
    auto 10 using emits_emit with emits.
Qed.

Lemma emits_rows_customers :
  emits (rows_satisfy Ps Pc Pp) (table_customers (R := R) (F := F) clock cfg).
Proof.
  unfold table_customers, load_customers, recreate_table, conn_commit, print.
  apply emits_bind; [apply emits_emit; exact I | intros _].
  apply emits_bind; [auto 10 using emits_emit with emits | intros _].
  apply emits_bind; [apply emits_emit; exact I | intros _].
  apply emits_bind; [apply emits_floordiv |]. intro total_batches.
  apply emits_bind.
  - apply emits_for_each. intros total_inserted batch_num.
    apply emits_bind_outcomes with (Q := fun batch => Forall Pc batch).
    + apply emits_for_list. intro. apply emits_customer_row.
    + eapply outcomes_weaken with (E := fun _ => True);
        [apply outcomes_for_list; intros; apply outcomes_of_silent, customer_rows_ok | |];
        cbv beta; [intros batch [_ H]; exact H | trivial].
    + intros batch Hbatch.
      apply emits_bind; [apply emits_emit; exact Hbatch |]. intros _.
      unfold commit_periodically, conn_commit, print.
      auto 20 using emits_emit with emits.
  - intro total. auto 20 using emits_emit with emits.
Qed.

Lemma emits_rows_products :
  emits (rows_satisfy Ps Pc Pp) (table_products (R := R) (F := F) clock cfg).
Proof.
  unfold table_products, load_products, recreate_table, conn_commit, print.
  apply emits_bind; [apply emits_emit; exact I | intros _].
  apply emits_bind; [auto 10 using emits_emit with emits | intros _].
  apply emits_bind; [apply emits_emit; exact I | intros _].
  apply emits_bind; [apply emits_floordiv |]. intro total_batches.
  apply emits_bind.
  - apply emits_for_each. intros total_inserted batch_num.
    apply emits_bind_outcomes with (Q := fun batch => Forall Pp batch).
    + apply emits_for_list. intro. apply emits_product_row.
    + eapply outcomes_weaken with (E := fun _ => True);
        [apply outcomes_for_list; intros; apply outcomes_of_silent; intro;
         apply product_rows_ok | |];
        cbv beta; [intros batch [_ H]; exact H | trivial].
    + intros batch Hbatch.
      apply emits_bind; [apply emits_emit; exact Hbatch |]. intros _.
      unfold commit_periodically, conn_commit, print.
      auto 20 using emits_emit with emits.
  - intro total. auto 20 using emits_emit with emits.
Qed.

Lemma emits_rows_main :
  emits (rows_satisfy Ps Pc Pp) (main (R := R) (F := F) clock getenv cfg).
Proof.
  unfold main.
  apply emits_bind; [apply emits_seed_faker |]. intros _.
  apply emits_bind; [apply emits_seed_random |]. intros _.
  cbv zeta. apply emits_if_bool; [apply emits_raise |].
  unfold print.
  repeat (apply emits_bind; [apply emits_emit; exact I | intros _]).
  apply emits_bind; [apply emits_quiet; reflexivity | intros _].
  apply emits_try.
  - unfold try_body.
    apply emits_bind; [intro st; repeat constructor | intros _].
    apply emits_bind; [apply emits_emit; exact I | intros _].
    apply emits_bind.
    { unfold table_categories, recreate_table, cursor_executemany, conn_commit, print.
      auto 20 using emits_emit with emits. }
    intros _. apply emits_bind; [apply emits_rows_suppliers | intros _].
    apply emits_bind; [apply emits_rows_customers | intros _].
    apply emits_bind; [apply emits_rows_products | intros _].
    unfold final_summary, print. cbv zeta.
    repeat (apply emits_bind; [apply emits_emit; exact I | intros _]).
    apply emits_emit; exact I.
  - intro e. unfold except_handler, print. auto 10 using emits_emit with emits.
  - intro st. unfold finally_cleanup, trace. cbn [snd].
    destruct (cursor st), (conn st); repeat constructor.
Qed.

Lemma main_rows_satisfy (st : state R F) :
  Forall Ps (supplier_rows (trace (main clock getenv cfg st))) /\
  Forall Pc (customer_rows (trace (main clock getenv cfg st))) /\
  Forall Pp (product_rows (trace (main clock getenv cfg st))).
Proof. apply rows_of_satisfy. apply emits_rows_main. Qed.

End EmitsRows.

Section SupplierNames.

Context {R F : Type} {random_lib : PyRandom R} {faker_lib : Faker F}.

Lemma bind_quiet {A B} (m : M R F A) (k : A -> M R F B) (st st1 : state R F) (a : A) :
  m st = (Ok a, st1, []) -> bind m k st = k a st1.
Proof. intro Hm. unfold bind. rewrite Hm. destruct (k a st1) as [[r st2] ev2]. reflexivity. Qed.

Lemma bind_raised {A B} (m : M R F A) (k : A -> M R F B) (st st1 : state R F) e evs :
  m st = (Raise e, st1, evs) -> bind m k st = (Raise e, st1, evs).
Proof. intro Hm. unfold bind. rewrite Hm. reflexivity. Qed.

(** The suffix is drawn and the name assembled and stripped. *)
Lemma supplier_name_tail (base : string) (s : state R F) :
  exists suffix,
    nth_error SUPPLIER_SUFFIXES (Z.to_nat (fst (next_below 9 (rng s)))) = Some suffix /\
    bind (random_choice SUPPLIER_SUFFIXES)
         (fun suffix => ret (PyStr.strip (base ++ " " ++ suffix)%string)) s
    = (Ok (PyStr.strip (base ++ " " ++ suffix)%string),
       with_rng (snd (next_below 9 (rng s))) s, []).
Proof.
  destruct (run_choice SUPPLIER_SUFFIXES s ltac:(discriminate)) as (suffix & Hnth & Hrun).
  exists suffix. split; [exact Hnth |].
  rewrite (bind_quiet _ _ _ _ _ Hrun). reflexivity.
Qed.

Lemma supplier_type_drawn (s : state R F) :
  exists t, In t SUPPLIER_TYPES /\
            random_choice SUPPLIER_TYPES s = (Ok t, with_rng (snd (next_below 10 (rng s))) s, []).
Proof.
  destruct (run_choice SUPPLIER_TYPES s ltac:(discriminate)) as (t & Hnth & Hrun).
  exists t. split; [eapply nth_error_In; exact Hnth | exact Hrun].
Qed.

(** The three ways a supplier name is built, by the type drawn. *)
Lemma generate_supplier_name_cases (st : state R F) :
  let k := fst (next_below 3 (rng st)) in
  let st1 := with_rng (snd (next_below 3 (rng st))) st in
  let c := fst (draw_company (fake st)) in
  let b := fst (draw_bs (fake st)) in
  let l := fst (draw_last_name (fake st)) in
  0 <= k < 3 /\
  (k = 0 ->
   exists suffix st',
     nth_error SUPPLIER_SUFFIXES
               (Z.to_nat (fst (next_below 9 (rng st1)))) = Some suffix /\
     generate_supplier_name st
     = (Ok (PyStr.strip
              (PyStr.remove ", Ltd" (PyStr.remove ", LLC" (PyStr.remove ", Inc." c))
               ++ " " ++ suffix)%string), st', [])) /\
  (k = 1 ->
   (PyStr.split (PyStr.title b) = [] ->
    exists st', generate_supplier_name st = (Raise IndexError, st', [])) /\
   (PyStr.split (PyStr.title b) <> [] ->
    exists t suffix st',
      In t SUPPLIER_TYPES /\ In suffix SUPPLIER_SUFFIXES /\
      generate_supplier_name st
      = (Ok (PyStr.strip
               ((PyStr.first_of (PyStr.split (PyStr.title b)) ++ " " ++ t)
                ++ " " ++ suffix)%string), st', []))) /\
  (k = 2 ->
   exists t suffix st',
     In t SUPPLIER_TYPES /\ In suffix SUPPLIER_SUFFIXES /\
     generate_supplier_name st
     = (Ok (PyStr.strip ((l ++ " " ++ t) ++ " " ++ suffix)%string), st', [])).
Proof.
  intros k st1 c b l.
  destruct (run_choice ["company"; "business"; "combined"] st ltac:(discriminate))
    as (company_type & Hnth & Hrun).
  change (Z.of_nat (List.length ["company"; "business"; "combined"])) with 3 in Hnth, Hrun.
  fold k in Hnth. fold st1 in Hrun.
  assert (Hk : 0 <= k < 3) by (apply next_below_range; lia).
  split; [exact Hk |]. split; [| split].
  - intro H0. rewrite H0 in Hnth. cbn in Hnth. inversion Hnth; subst company_type.
    unfold generate_supplier_name. rewrite (bind_quiet _ _ _ _ _ Hrun).
    change ("company" =? "company")%string with true. cbv iota.
    set (st2 := with_fake (snd (draw_company (fake st1))) st1).
    destruct (supplier_name_tail
                (PyStr.remove ", Ltd" (PyStr.remove ", LLC" (PyStr.remove ", Inc." c))) st2)
      as (suffix & Hs & Htail).
    exists suffix. eexists. split; [exact Hs |].
    assert (Hbase : bind fake_company
                      (fun c0 => ret (PyStr.remove ", Ltd"
                                        (PyStr.remove ", LLC" (PyStr.remove ", Inc." c0)))) st1
                    = (Ok (PyStr.remove ", Ltd" (PyStr.remove ", LLC" (PyStr.remove ", Inc." c))),
                       st2, [])).
    { unfold fake_company. rewrite (bind_quiet _ _ _ _ _ (run_provider draw_company st1)).
      reflexivity. }
    rewrite (bind_quiet _ _ _ _ _ Hbase). exact Htail.
  - intro H1. rewrite H1 in Hnth. cbn in Hnth. inversion Hnth; subst company_type.
    unfold generate_supplier_name. rewrite (bind_quiet _ _ _ _ _ Hrun).
    change ("business" =? "company")%string with false.
    change ("business" =? "business")%string with true. cbv iota.
    set (st2 := with_fake (snd (draw_bs (fake st1))) st1).
    split.
    + intro Hempty. exists st2.
      apply bind_raised. unfold fake_bs.
      rewrite (bind_quiet _ _ _ _ _ (run_provider draw_bs st1)).
      change (fst (draw_bs (fake st1))) with b. rewrite Hempty. reflexivity.
    + intro Hne.
      destruct (PyStr.split (PyStr.title b)) as [| w ws] eqn:Hsplit; [contradiction |].
      destruct (supplier_type_drawn st2) as (t & Ht & Htype).
      set (st3 := with_rng (snd (next_below 10 (rng st2))) st2) in *.
      destruct (supplier_name_tail (w ++ " " ++ t)%string st3) as (suffix & Hs & Htail).
      exists t, suffix. eexists. split; [exact Ht |].
      split; [eapply nth_error_In; exact Hs |].
      assert (Hbase : bind fake_bs
                        (fun b0 => bind (index (PyStr.split (PyStr.title b0)) 0)
                           (fun w0 => bind (random_choice SUPPLIER_TYPES)
                              (fun t0 => ret (w0 ++ " " ++ t0)%string))) st1
                      = (Ok (w ++ " " ++ t)%string, st3, [])).
      { unfold fake_bs. rewrite (bind_quiet _ _ _ _ _ (run_provider draw_bs st1)).
        change (fst (draw_bs (fake st1))) with b. rewrite Hsplit. fold st2.
        rewrite (bind_quiet _ _ st2 st2 w) by reflexivity.
        rewrite (bind_quiet _ _ _ _ _ Htype). reflexivity. }
      rewrite (bind_quiet _ _ _ _ _ Hbase). exact Htail.
  - intro H2. rewrite H2 in Hnth. cbn in Hnth. inversion Hnth; subst company_type.
    unfold generate_supplier_name. rewrite (bind_quiet _ _ _ _ _ Hrun).
    change ("combined" =? "company")%string with false.
    change ("combined" =? "business")%string with false. cbv iota.
    set (st2 := with_fake (snd (draw_last_name (fake st1))) st1).
    destruct (supplier_type_drawn st2) as (t & Ht & Htype).
    set (st3 := with_rng (snd (next_below 10 (rng st2))) st2) in *.
    destruct (supplier_name_tail (l ++ " " ++ t)%string st3) as (suffix & Hs & Htail).
    exists t, suffix. eexists. split; [exact Ht |].
    split; [eapply nth_error_In; exact Hs |].
    assert (Hbase : bind fake_last_name
                      (fun l0 => bind (random_choice SUPPLIER_TYPES)
                         (fun t0 => ret (l0 ++ " " ++ t0)%string)) st1
                    = (Ok (l ++ " " ++ t)%string, st3, [])).
    { unfold fake_last_name. rewrite (bind_quiet _ _ _ _ _ (run_provider draw_last_name st1)).
      fold st2. change (fst (draw_last_name (fake st1))) with l.
      rewrite (bind_quiet _ _ _ _ _ Htype). reflexivity. }
    rewrite (bind_quiet _ _ _ _ _ Hbase). exact Htail.
Qed.

End SupplierNames.

Lemma email_domains_chars (host : string) :
  host = "invalid" \/ In host EMAIL_DOMAINS -> all_chars email_char host = true.
Proof.
  intros [-> | Hin]; [reflexivity |].
  cbn in Hin. repeat (destruct Hin as [<- | Hin]; [reflexivity |]). contradiction.
Qed.

Lemma scripted_dates_as_documented (script : Z -> Scripted.tapes) :
  dates_as_documented (faker_lib := Scripted.faker_of script).
Proof.
  unfold dates_as_documented, DAY. cbn [draw_date_time_between Scripted.faker_of].
  unfold Scripted.tape_date. cbn [fst].
  change (Scripted.offset "+1d") with 86400.
  change (Scripted.offset "+30d") with 2592000.
  change (Scripted.offset "-5y") with (-157680000).
  change (Scripted.offset "-3y") with (-94608000).
  change (Scripted.offset "now") with 0.
  split; [| split]; intros now f.
  - pose proof (Z.mod_pos_bound (fst (Scripted.pop (Scripted.numbers f)))
                  (now + 2592000 - (now + 86400) + 1) ltac:(lia)). lia.
  - pose proof (Z.mod_pos_bound (fst (Scripted.pop (Scripted.numbers f)))
                  (now + 0 - (now + -157680000) + 1) ltac:(lia)). lia.
  - pose proof (Z.mod_pos_bound (fst (Scripted.pop (Scripted.numbers f)))
                  (now + 0 - (now + -94608000) + 1) ltac:(lia)). lia.
Qed.

Section SupplierNameProperties.

Context {R F : Type} {random_lib : PyRandom R} {faker_lib : Faker F}.

(** A supplier name, when there is one, is stripped; there is none
    only on [IndexError]; and no event is caused either way. *)
Lemma supplier_name_outcome (st : state R F) :
  trace (generate_supplier_name st) = [] /\
  match outcome (generate_supplier_name st) with
  | Ok name => stripped name
  | Raise e => e = IndexError
  end.
Proof.
  destruct (generate_supplier_name_cases st) as (Hk & H0 & H1 & H2).
  assert (Hcase : fst (next_below 3 (rng st)) = 0 \/ fst (next_below 3 (rng st)) = 1 \/
                  fst (next_below 3 (rng st)) = 2) by lia.
  destruct Hcase as [Hc | [Hc | Hc]].
  - destruct (H0 Hc) as (suffix & st' & _ & Hrun). rewrite Hrun.
    split; [reflexivity | apply strip_clean].
  - destruct (H1 Hc) as (Hblank & Hword).
    destruct (PyStr.split (PyStr.title (fst (draw_bs (fake st))))) as [| w ws] eqn:Hsplit.
    + destruct (Hblank eq_refl) as (st' & Hrun). rewrite Hrun. split; reflexivity.
    + destruct (Hword ltac:(discriminate)) as (t & suffix & st' & _ & _ & Hrun).
      rewrite Hrun. split; [reflexivity | apply strip_clean].
  - destruct (H2 Hc) as (t & suffix & st' & _ & _ & Hrun). rewrite Hrun.
    split; [reflexivity | apply strip_clean].
Qed.

(** X2.  [generate_supplier_name] raises [IndexError] exactly when the
    type drawn is "business" (index 1 of the three) and the catch phrase
    [fake.bs()] is empty or all whitespace, so that [split()[0]] has no
    word to take; in every other case it returns a name. *)
Theorem supplier_name_fails_only_on_blank_catch_phrase (st : state R F) :
  let k := fst (next_below 3 (rng st)) in
  let b := fst (draw_bs (fake st)) in
  (outcome (generate_supplier_name st) = Raise IndexError <-> k = 1 /\ is_blank b = true) /\
  ((exists name, outcome (generate_supplier_name st) = Ok name) <->
   ~ (k = 1 /\ is_blank b = true)).
Proof.
  intros k b.
  destruct (generate_supplier_name_cases st) as (Hk & H0 & H1 & H2).
  fold k in Hk, H0, H1, H2. fold b in H1.
  assert (Hcase : k = 0 \/ k = 1 \/ k = 2) by lia.
  destruct Hcase as [Hc | [Hc | Hc]].
  - destruct (H0 Hc) as (suffix & st' & _ & Hrun). rewrite Hrun. unfold outcome. cbn [fst].
    split; split.
    + discriminate.
    + intros [H _]. lia.
    + intros _ [H _]. lia.
    + intros _. eexists. reflexivity.
  - destruct (H1 Hc) as (Hblank & Hword).
    destruct (is_blank b) eqn:Hb.
    + destruct (Hblank (proj2 (split_title_blank b) Hb)) as (st' & Hrun).
      rewrite Hrun. unfold outcome. cbn [fst]. split; split.
      * intros _. split; [exact Hc | reflexivity].
      * reflexivity.
      * intros [name H]. discriminate H.
      * intro H. exfalso. apply H. split; [exact Hc | reflexivity].
    + assert (Hne : PyStr.split (PyStr.title b) <> []).
      { intro H. apply split_title_blank in H. congruence. }
      destruct (Hword Hne) as (t & suffix & st' & _ & _ & Hrun).
      rewrite Hrun. unfold outcome. cbn [fst]. split; split.
      * discriminate.
      * intros [_ H]. discriminate H.
      * intros _ [_ H]. discriminate H.
      * intros _. eexists. reflexivity.
  - destruct (H2 Hc) as (t & suffix & st' & _ & _ & Hrun). rewrite Hrun.
    unfold outcome. cbn [fst]. split; split.
    + discriminate.
    + intros [H _]. lia.
    + intros _ [H _]. lia.
    + intros _. eexists. reflexivity.
Qed.

(** X3.  When the type drawn is "company" and [fake.company()] is a
    comma-free name followed by one of the legal forms ", Inc.", ", LLC",
    ", Ltd" (or by nothing), the three [replace] calls leave the name
    alone and cut the legal form, and the result is the name, a space and
    the suffix drawn from [SUPPLIER_SUFFIXES], stripped. *)
Theorem supplier_name_drops_legal_form (st : state R F) (x tail : string) :
  fst (next_below 3 (rng st)) = 0 ->
  fst (draw_company (fake st)) = (x ++ tail)%string ->
  all_chars not_comma x = true ->
  In tail [", Inc."; ", LLC"; ", Ltd"; EmptyString] ->
  exists suffix st',
    nth_error SUPPLIER_SUFFIXES
              (Z.to_nat (fst (next_below 9 (snd (next_below 3 (rng st)))))) = Some suffix /\
    generate_supplier_name st = (Ok (PyStr.strip (x ++ " " ++ suffix)%string), st', []).
Proof.
  intros Hk Hc Hx Htail.
  destruct (generate_supplier_name_cases st) as (_ & H0 & _).
  destruct (H0 Hk) as (suffix & st' & Hs & Hrun).
  exists suffix, st'. split; [exact Hs |].
  rewrite Hrun, Hc, (legal_form_removed x tail Hx Htail). reflexivity.
Qed.

End SupplierNameProperties.

(** X3 at the company "Acme, Inc." with the suffix "Group". *)
Lemma supplier_name_drops_legal_form_witness :
  exists st',
    generate_supplier_name (random_lib := Fixture.blank_random)
                           (faker_lib := Fixture.blank_faker) Scenario.acme
    = (Ok "Acme Group", st', []).
Proof.
  destruct (supplier_name_drops_legal_form
              (random_lib := Fixture.blank_random) (faker_lib := Fixture.blank_faker)
              Scenario.acme "Acme" ", Inc.")
    as (suffix & st' & Hs & Hrun);
    [reflexivity | reflexivity | reflexivity | cbn; tauto |].
  vm_compute in Hs. inversion Hs; subst suffix.
  exists st'. exact Hrun.
Defined.

Section During.

Context {R F : Type} {random_lib : PyRandom R} {faker_lib : Faker F}.
Variable K : nat -> event -> Prop.
Variable lo : nat.
Hypothesis K_later : forall (hi hi' : nat) (e : event), (hi <= hi')%nat -> K hi e -> K hi' e.

Lemma during_quiet {A} (m : M R F A) :
  (forall st, trace (m st) = [] /\ (ticks st <= ticks (final (m st)))%nat) -> during K lo m.
Proof.
  intros Hm st _. destruct (Hm st) as [Ht Hticks]. rewrite Ht.
  split; [exact Hticks | constructor].
Qed.

Lemma during_ret {A} (a : A) : during K lo (ret (R := R) (F := F) a).
Proof. apply during_quiet. intro st. split; [reflexivity | apply le_n]. Qed.

Lemma during_raise {A} (e : exn) : during K lo (raise (R := R) (F := F) (A := A) e).
Proof. apply during_quiet. intro st. split; [reflexivity | apply le_n]. Qed.

Lemma during_emit (e : event) :
  (forall hi, (lo <= hi)%nat -> K hi e) -> during K lo (emit (R := R) (F := F) e).
Proof.
  intros He st Hlo. split; [apply le_n |].
  unfold emit, trace, final. cbn [fst snd]. constructor; [apply He; exact Hlo | constructor].
Qed.

Lemma during_bind {A B} (m : M R F A) (k : A -> M R F B) :
  during K lo m -> (forall a, during K lo (k a)) -> during K lo (bind m k).
Proof.
  intros Hm Hk st Hlo. destruct (Hm st Hlo) as [Ht1 He1].
  unfold bind, trace, final in *.
  destruct (m st) as [[[a | e] st1] ev1]; cbn [fst snd] in *; [| split; assumption].
  destruct (Hk a st1 ltac:(lia)) as [Ht2 He2]. unfold trace, final in Ht2, He2.
  destruct (k a st1) as [[r st2] ev2]. cbn [fst snd] in *.
  split; [lia |]. apply Forall_app. split; [| exact He2].
  eapply Forall_impl; [| exact He1]. intros e. apply K_later. exact Ht2.
Qed.

(** When the first program is known to return without an event, the
    continuation is only run from the states it can leave, on the values
    it can leave there. *)
Lemma during_bind_returns {A B} (m : M R F A) (k : A -> M R F B) (Q : nat -> A -> Prop) :
  (forall st, (lo <= ticks st)%nat ->
              exists a st1, m st = (Ok a, st1, []) /\ (ticks st <= ticks st1)%nat /\
                            Q (ticks st1) a) ->
  (forall a st1, (lo <= ticks st1)%nat -> Q (ticks st1) a ->
                 (ticks st1 <= ticks (final (k a st1)))%nat /\
                 Forall (K (ticks (final (k a st1)))) (trace (k a st1))) ->
  during K lo (bind m k).
Proof.
  intros Hm Hk st Hlo. destruct (Hm st Hlo) as (a & st1 & Hrun & Ht1 & HQ).
  destruct (Hk a st1 ltac:(lia) HQ) as [Ht2 He2].
  unfold bind, trace, final in *. rewrite Hrun.
  destruct (k a st1) as [[r st2] ev2]. cbn [fst snd app] in *.
  split; [lia | exact He2].
Qed.

(** An event that is fine at the count of readings it is caused at. *)
Lemma during_emit_first {B} (e : event) (rest : M R F B) (st : state R F) :
  (lo <= ticks st)%nat -> K (ticks st) e -> during K lo rest ->
  (ticks st <= ticks (final (bind (emit e) (fun _ => rest) st)))%nat /\
  Forall (K (ticks (final (bind (emit e) (fun _ => rest) st))))
         (trace (bind (emit e) (fun _ => rest) st)).
Proof.
  intros Hlo He Hrest. destruct (Hrest st Hlo) as [Ht Hev].
  unfold bind, emit, trace, final in *.
  destruct (rest st) as [[r st2] ev2]. cbn [fst snd app] in *.
  split; [exact Ht |]. constructor; [| exact Hev].
  eapply K_later; [| exact He]. exact Ht.
Qed.

Lemma during_if_bool {A} (c : bool) (m1 m2 : M R F A) :
  during K lo m1 -> during K lo m2 -> during K lo (if c then m1 else m2).
Proof. destruct c; auto. Qed.

Lemma during_if_dec {A} {P Q : Prop} (c : {P} + {Q}) (m1 m2 : M R F A) :
  during K lo m1 -> during K lo m2 -> during K lo (if c then m1 else m2).
Proof. destruct c; auto. Qed.

Lemma during_random : during K lo (random_random (R := R) (F := F)).
Proof.
  apply during_quiet. intro st. unfold random_random.
  destruct (next_random (rng st)). split; [reflexivity | apply le_n].
Qed.

Lemma during_randbelow (n : Z) : during K lo (random_randbelow (R := R) (F := F) n).
Proof.
  apply during_quiet. intro st. unfold random_randbelow.
  destruct (next_below n (rng st)). split; [reflexivity | apply le_n].
Qed.

Lemma during_provider (draw : F -> string * F) : during K lo (provider (R := R) draw).
Proof.
  apply during_quiet. intro st. unfold provider.
  destruct (draw (fake st)). split; [reflexivity | apply le_n].
Qed.

Lemma during_date (clock : nat -> Z) (a b : string) :
  during K lo (fake_date_time_between (R := R) clock a b).
Proof.
  apply during_quiet. intro st. unfold fake_date_time_between.
  destruct (draw_date_time_between (clock (ticks st)) a b (fake st)).
  split; [reflexivity | apply le_S, le_n].
Qed.

Lemma during_seed_random (n : Z) : during K lo (random_seed (R := R) (F := F) n).
Proof. apply during_quiet. intro st. split; [reflexivity | apply le_n]. Qed.

Lemma during_seed_faker (n : Z) : during K lo (Faker_seed (R := R) (F := F) n).
Proof. apply during_quiet. intro st. split; [reflexivity | apply le_n]. Qed.

Lemma during_choice {A} (seq : list A) : during K lo (random_choice (R := R) (F := F) seq).
Proof.
  unfold random_choice. destruct seq as [| a l]; [apply during_raise |].
  apply during_bind; [apply during_randbelow |].
  intro k. destruct (nth_error (a :: l) (Z.to_nat k)); [apply during_ret | apply during_raise].
Qed.

Lemma during_randint (a b : Z) : during K lo (random_randint (R := R) (F := F) a b).
Proof.
  unfold random_randint. apply during_if_bool; [| apply during_raise].
  apply during_bind; [apply during_randbelow | intro; apply during_ret].
Qed.

Lemma during_uniform (a b : Q) : during K lo (random_uniform (R := R) (F := F) a b).
Proof.
  unfold random_uniform. apply during_bind; [apply during_random | intro; apply during_ret].
Qed.

Lemma during_index {A} (l : list A) (i : Z) : during K lo (index (R := R) (F := F) l i).
Proof.
  unfold index. cbv zeta. apply during_if_bool; [apply during_raise |].
  destruct (nth_error l _); [apply during_ret | apply during_raise].
Qed.

Lemma during_floordiv (a b : Z) : during K lo (floordiv (R := R) (F := F) a b).
Proof. unfold floordiv. apply during_if_bool; [apply during_raise | apply during_ret]. Qed.

Lemma during_for_list {A B} (l : list A) (f : A -> M R F B) :
  (forall x, during K lo (f x)) -> during K lo (for_list l f).
Proof.
  intro Hf. induction l as [| x l IH]; cbn [for_list].
  - apply during_ret.
  - apply during_bind; [apply Hf |]. intro y.
    apply during_bind; [exact IH |]. intro ys. apply during_ret.
Qed.

Lemma during_for_each {A S} (l : list A) (body : S -> A -> M R F S) :
  (forall acc x, during K lo (body acc x)) -> forall acc, during K lo (for_each l acc body).
Proof.
  intro Hb. induction l as [| x l IH]; intro acc; cbn [for_each].
  - apply during_ret.
  - apply during_bind; [apply Hb | exact IH].
Qed.

Lemma during_try (body : M R F unit) (handler : exn -> M R F unit) (cleanup : M R F unit) :
  during K lo body -> (forall e, during K lo (handler e)) -> during K lo cleanup ->
  during K lo (try_except_finally body handler cleanup).
Proof.
  intros Hb Hh Hc st Hlo. destruct (Hb st Hlo) as [Ht1 He1].
  unfold try_except_finally, trace, final in *.
  destruct (body st) as [[[u | e] st1] ev1]; cbn [fst snd] in *.
  - destruct (Hc st1 ltac:(lia)) as [Ht2 He2]. unfold trace, final in Ht2, He2.
    destruct (cleanup st1) as [[r st2] ev2]. cbn [fst snd] in *.
    split; [lia |]. apply Forall_app. split; [| exact He2].
    eapply Forall_impl; [| exact He1]. intros e. apply K_later. exact Ht2.
  - destruct (Hh e st1 ltac:(lia)) as [Ht2 He2]. unfold trace, final in Ht2, He2.
    destruct (handler e st1) as [[r2 st2] ev2]. cbn [fst snd] in *.
    destruct (Hc st2 ltac:(lia)) as [Ht3 He3]. unfold trace, final in Ht3, He3.
    destruct (cleanup st2) as [[r3 st3] ev3]. cbn [fst snd] in *.
    split; [lia |]. apply Forall_app. split; [| apply Forall_app; split; [| exact He3]].
    + eapply Forall_impl; [| exact He1]. intros e'. apply K_later. lia.
    + eapply Forall_impl; [| exact He2]. intros e'. apply K_later. exact Ht3.
Qed.

End During.

#[export] Hint Resolve during_ret during_raise during_bind during_if_bool during_if_dec
  during_random during_randbelow during_provider during_date during_seed_random
  during_seed_faker during_choice during_randint during_uniform during_index during_floordiv
  during_for_list during_for_each : during.

Section Dated.

Context {R F : Type} {random_lib : PyRandom R} {faker_lib : Faker F}.
Variable clock : nat -> Z.

Lemma dated_later (lo hi hi' : nat) (e : event) :
  (hi <= hi')%nat -> dated_between clock lo hi e -> dated_between clock lo hi' e.
Proof.
  intros Hhi. unfold dated_between, reading_between.
  destruct e as [| | | | [l | l | l | l] | | |]; cbn [rows_satisfy]; try exact (fun H => H);
    intro H; (eapply Forall_impl; [| exact H]); intros r (k & Hk & Hr);
    exists k; (split; [lia | exact Hr]).
Qed.

(** A list comprehension over rows that each read the clock once: the
    rows are bounded by the readings taken while it ran. *)
Lemma rows_read_the_clock {A B} (f : A -> M R F B) (P : nat -> B -> Prop) (l : list A) :
  (forall x st, exists y st', f x st = (Ok y, st', []) /\ ticks st' = S (ticks st) /\
                              P (ticks st) y) ->
  forall st,
  exists ys st1,
    for_list l f st = (Ok ys, st1, []) /\ (ticks st <= ticks st1)%nat /\
    Forall (fun y => exists k, reading_between (ticks st) (ticks st1) k /\ P k y) ys.
Proof.
  intro Hf. induction l as [| x l IH]; intro st; cbn [for_list].
  - exists [], st. split; [reflexivity |]. split; [apply le_n | constructor].
  - destruct (Hf x st) as (y & st' & Hrun & Hticks & Hy).
    destruct (IH st') as (ys & st1 & Hrest & Hle & Hys).
    exists (y :: ys), st1.
    split; [| split; [lia |]].
    + rewrite (bind_quiet _ _ _ _ _ Hrun), (bind_quiet _ _ _ _ _ Hrest). reflexivity.
    + constructor.
      * exists (ticks st). split; [unfold reading_between; lia | exact Hy].
      * eapply Forall_impl; [| exact Hys]. intros r (k & Hk & Hr).
        exists k. split; [unfold reading_between in *; lia | exact Hr].
Qed.

End Dated.

#[export] Hint Extern 1 (dated_between _ _ _ _) => exact I : during.
#[export] Hint Extern 2 (dated_between _ _ _ _) => (eapply dated_later; eassumption) : during.

Section DatedScript.

Context {R F : Type} {random_lib : PyRandom R} {faker_lib : Faker F}.
Variable clock : nat -> Z.
Variable getenv : string -> option string.
Variable cfg : Config.
Variable lo : nat.

Hypothesis customer_rows_read :
  forall st : state R F,
    exists row st', customer_row clock st = (Ok row, st', []) /\ ticks st' = S (ticks st) /\
                    customer_date_at clock (ticks st) row.
Hypothesis product_rows_read :
  forall (i : Z) (st : state R F),
    exists row st', product_row clock i st = (Ok row, st', []) /\ ticks st' = S (ticks st) /\
                    product_date_at clock (ticks st) row.

Lemma during_print (m : message) :
  during (dated_between clock lo) lo (print (R := R) (F := F) m).
Proof. apply during_emit. intros hi _. exact I. Qed.

Lemma during_commit : during (dated_between clock lo) lo (conn_commit (R := R) (F := F)).
Proof. apply during_emit. intros hi _. exact I. Qed.

Lemma during_recreate (t : table) :
  during (dated_between clock lo) lo (recreate_table (R := R) (F := F) t).
Proof.
  unfold recreate_table.
  apply during_bind; [apply dated_later | apply during_emit; intros hi _; exact I | intros _].
  apply during_emit. intros hi _. exact I.
Qed.

Lemma during_supplier_name :
  during (dated_between clock lo) lo (generate_supplier_name (R := R) (F := F)).
Proof.
  unfold generate_supplier_name, fake_company, fake_bs, fake_last_name.
  auto 30 with during.
Qed.

Lemma during_supplier_row (names : list string) (i : Z) :
  during (dated_between clock lo) lo (supplier_row (R := R) (F := F) names i).
Proof.
  unfold supplier_row, fake_name, fake_country, fake_phone_number.
  auto 30 with during.
Qed.

#[local] Hint Resolve during_print during_commit during_recreate during_supplier_name
  during_supplier_row : during.

Lemma during_table_categories :
  during (dated_between clock lo) lo (table_categories (R := R) (F := F)).
Proof.
  unfold table_categories, cursor_executemany.
  apply during_bind; [apply dated_later | auto with during | intros _].
  apply during_bind; [apply dated_later | auto with during | intros _].
  apply during_bind; [apply dated_later | apply during_emit; intros hi _; exact I | intros _].
  auto 10 with during.
Qed.

Lemma during_table_suppliers :
  during (dated_between clock lo) lo (table_suppliers (R := R) (F := F)).
Proof.
  unfold table_suppliers, cursor_executemany.
  apply during_bind; [apply dated_later | auto with during | intros _].
  apply during_bind; [apply dated_later | auto with during | intros _].
  apply during_bind; [apply dated_later | auto 10 with during | intro names].
  apply during_bind; [apply dated_later | auto 10 with during | intro data].
  apply during_bind; [apply dated_later | | intros _; auto 10 with during].
  apply during_emit. intros hi _. unfold dated_between. cbn [rows_satisfy].
  apply Forall_forall. trivial.
Qed.

Lemma during_commit_periodically (batch_num total : Z) (label : string) :
  during (dated_between clock lo) lo
         (commit_periodically (R := R) (F := F) batch_num total label).
Proof. unfold commit_periodically. auto 10 with during. Qed.

#[local] Hint Resolve during_commit_periodically : during.

Lemma during_load_customers :
  during (dated_between clock lo) lo (load_customers (R := R) (F := F) clock cfg).
Proof.
  unfold load_customers.
  apply during_bind; [apply dated_later | auto with during | intro total_batches].
  apply during_bind; [apply dated_later | | intro total; auto 10 with during].
  apply during_for_each; [apply dated_later |]. intros total_inserted batch_num.
  apply during_bind_returns
    with (Q := fun hi batch => dated_between clock lo hi (Executemany (CustomerRows batch))).
  - intros st Hlo.
    destruct (rows_read_the_clock (fun _ : Z => customer_row clock) (customer_date_at clock)
                (range (BATCH_SIZE cfg)) (fun _ => customer_rows_read) st)
      as (batch & st1 & Hrun & Hle & Hrows).
    exists batch, st1. split; [exact Hrun |]. split; [exact Hle |].
    unfold dated_between. cbn [rows_satisfy].
    eapply Forall_impl; [| exact Hrows]. intros r (k & Hk & Hr).
    exists k. split; [unfold reading_between in *; lia | exact Hr].
  - intros batch st1 Hlo Hbatch. unfold cursor_executemany.
    apply (during_emit_first (dated_between clock lo) lo (dated_later clock lo));
      [exact Hlo | exact Hbatch |].
    auto 10 with during.
Qed.

Lemma during_load_products :
  during (dated_between clock lo) lo (load_products (R := R) (F := F) clock cfg).
Proof.
  unfold load_products.
  apply during_bind; [apply dated_later | auto with during | intro total_batches].
  apply during_bind; [apply dated_later | | intro total; auto 10 with during].
  apply during_for_each; [apply dated_later |]. intros total_inserted batch_num.
  apply during_bind_returns
    with (Q := fun hi batch => dated_between clock lo hi (Executemany (ProductRows batch))).
  - intros st Hlo.
    destruct (rows_read_the_clock (product_row clock) (product_date_at clock)
                (range (BATCH_SIZE cfg)) product_rows_read st)
      as (batch & st1 & Hrun & Hle & Hrows).
    exists batch, st1. split; [exact Hrun |]. split; [exact Hle |].
    unfold dated_between. cbn [rows_satisfy].
    eapply Forall_impl; [| exact Hrows]. intros r (k & Hk & Hr).
    exists k. split; [unfold reading_between in *; lia | exact Hr].
  - intros batch st1 Hlo Hbatch. unfold cursor_executemany.
    apply (during_emit_first (dated_between clock lo) lo (dated_later clock lo));
      [exact Hlo | exact Hbatch |].
    auto 10 with during.
Qed.

#[local] Hint Resolve during_table_categories during_table_suppliers during_load_customers
  during_load_products : during.

Lemma during_main :
  during (dated_between clock lo) lo (main (R := R) (F := F) clock getenv cfg).
Proof.
  unfold main.
  apply during_bind; [apply dated_later | apply during_seed_faker | intros _].
  apply during_bind; [apply dated_later | apply during_seed_random | intros _].
  cbv zeta. apply during_if_bool; [apply during_raise |].
  repeat (apply during_bind; [apply dated_later | apply during_print | intros _]).
  apply during_bind; [apply dated_later | | intros _].
  { apply during_quiet. intro st. split; [reflexivity | apply le_n]. }
  apply during_try; [apply dated_later | | |].
  - unfold try_body.
    apply during_bind; [apply dated_later | | intros _].
    { intros st Hlo. split; [apply le_n |]. repeat constructor. }
    unfold table_customers, table_products, final_summary. cbv zeta.
    auto 40 with during.
  - intro e. unfold except_handler. auto 10 with during.
  - intros st Hlo. unfold finally_cleanup, trace, final. cbn [fst snd].
    split; [apply le_n |]. destruct (cursor st), (conn st); repeat constructor.
Qed.

End DatedScript.

Section RowProperties.

Context {R F : Type} {random_lib : PyRandom R} {faker_lib : Faker F}.
Variable clock : nat -> Z.

(** X5.  A customer row is always produced.  Its name is null exactly
    when the first [random()] of the row is below 0.005, and then the
    email is the one [fake.email()] returns; otherwise the name is the
    one [fake.name()] returns, and the email is "first.last@invalid" when
    the name has at least two words and the next [random()] is below
    0.01, and the [fake.email()] drawn after the name when the name has
    fewer than two words. *)
Theorem customer_defects_follow_the_draws (st : state R F) :
  let u := fst (next_random (rng st)) in
  let r1 := snd (next_random (rng st)) in
  let name := fst (draw_name (fake st)) in
  let parts := PyStr.split (PyStr.lower name) in
  let v := fst (next_random r1) in
  exists row st',
    customer_row clock st = (Ok row, st', []) /\
    (cust_name row = None <-> (u < 5 # 1000)%Q) /\
    ((u < 5 # 1000)%Q -> cust_email row = fst (draw_email (fake st))) /\
    (~ (u < 5 # 1000)%Q -> cust_name row = Some name) /\
    (~ (u < 5 # 1000)%Q -> (2 <= List.length parts)%nat -> (v < 1 # 100)%Q ->
     cust_email row
     = (PyStr.first_of parts ++ "." ++ PyStr.last_of parts ++ "@invalid")%string) /\
    (~ (u < 5 # 1000)%Q -> (List.length parts < 2)%nat ->
     cust_email row = fst (draw_email (snd (draw_name (fake st))))).
Proof.
  intros u r1 name parts v.
  destruct (customer_row_exact clock st)
    as (row & st' & evs & Hrun & -> & _ & Hname & Hemail & _).
  fold u r1 name parts v in Hname, Hemail.
  exists row, st'. split; [exact Hrun |].
  destruct (Qlt_le_dec u (5 # 1000)) as [Hu | Hu].
  - split; [split; [intros _; exact Hu | intros _; exact Hname] |].
    split; [intros _; exact Hemail |].
    split; [intro H; contradiction |].
    split; intro H; contradiction.
  - assert (Hnot : ~ (u < 5 # 1000)%Q) by (apply Qle_not_lt; exact Hu).
    split; [split; [rewrite Hname; discriminate | intro H; contradiction] |].
    split; [intro H; contradiction |].
    split; [intros _; exact Hname |].
    split.
    + intros _ Hparts Hv. rewrite Hemail.
      destruct (2 <=? Z.of_nat (List.length parts)) eqn:Hlen;
        [| apply Z.leb_gt in Hlen; lia].
      destruct (Qlt_le_dec v (1 # 100)) as [_ | Hge]; [reflexivity |].
      exfalso. exact (Qle_not_lt _ _ Hge Hv).
    + intros _ Hparts. rewrite Hemail.
      destruct (2 <=? Z.of_nat (List.length parts)) eqn:Hlen;
        [apply Z.leb_le in Hlen; lia | reflexivity].
Qed.

(** X6.  When the name is not null and has at least two words, the email
    is built from the name: first word, a dot, last word, "@" and either
    "invalid" or one of the six providers.  Both words are non-empty, and
    the whole address has no whitespace and no upper-case letter. *)
Theorem derived_email_shape (st : state R F) :
  let u := fst (next_random (rng st)) in
  let name := fst (draw_name (fake st)) in
  let parts := PyStr.split (PyStr.lower name) in
  ~ (u < 5 # 1000)%Q ->
  (2 <= List.length parts)%nat ->
  exists row st' host,
    customer_row clock st = (Ok row, st', []) /\
    cust_email row
    = (PyStr.first_of parts ++ "." ++ PyStr.last_of parts ++ "@" ++ host)%string /\
    (host = "invalid" \/ In host EMAIL_DOMAINS) /\
    PyStr.first_of parts <> EmptyString /\
    PyStr.last_of parts <> EmptyString /\
    all_chars email_char (cust_email row) = true.
Proof.
  intros u name parts Hu Hparts.
  destruct (customer_row_exact clock st)
    as (row & st' & evs & Hrun & -> & _ & _ & Hemail & _).
  fold u name parts in Hemail.
  destruct (Qlt_le_dec u (5 # 1000)) as [Hlt | _]; [contradiction |].
  destruct (2 <=? Z.of_nat (List.length parts)) eqn:Hlen; [| apply Z.leb_gt in Hlen; lia].
  set (k := fst (next_below 6 (snd (next_random (snd (next_random (rng st))))))) in *.
  set (v := fst (next_random (snd (next_random (rng st))))) in *.
  set (host := if Qlt_le_dec v (1 # 100) then "invalid" else nth (Z.to_nat k) EMAIL_DOMAINS EmptyString)
    in *.
  assert (Hhost : host = "invalid" \/ In host EMAIL_DOMAINS).
  { unfold host. destruct (Qlt_le_dec v (1 # 100)); [left; reflexivity | right].
    apply nth_In. pose proof (next_below_range 6 (snd (next_random (snd (next_random (rng st)))))
                                ltac:(lia)) as Hk.
    fold k in Hk. cbn [List.length EMAIL_DOMAINS]. lia. }
  assert (Htokens : Forall (fun t => t <> EmptyString /\
                                     all_chars (fun c => negb (PyStr.isupper c)) t = true /\
                                     all_chars (fun c => negb (PyStr.isspace c)) t = true) parts)
    by (apply split_tokens, lower_not_upper).
  assert (Hne : parts <> []) by (intros E; rewrite E in Hparts; cbn in Hparts; lia).
  rewrite Forall_forall in Htokens.
  destruct (Htokens _ (first_of_in parts Hne)) as (Hf1 & Hf2 & Hf3).
  destruct (Htokens _ (last_of_in parts Hne)) as (Hl1 & Hl2 & Hl3).
  assert (Hchars : forall t, all_chars (fun c => negb (PyStr.isupper c)) t = true ->
                             all_chars (fun c => negb (PyStr.isspace c)) t = true ->
                             all_chars email_char t = true).
  { induction t as [| c t IH]; [reflexivity |]. cbn [all_chars]. unfold email_char at 1.
    rewrite !andb_true_iff. intros [Hc1 Ht1] [Hc2 Ht2]. auto. }
  exists row, st', host. split; [exact Hrun |]. split; [exact Hemail |].
  split; [exact Hhost |]. split; [exact Hf1 |]. split; [exact Hl1 |].
  rewrite Hemail, !all_chars_app.
  rewrite (Hchars _ Hf2 Hf3), (Hchars _ Hl2 Hl3), (email_domains_chars host Hhost).
  reflexivity.
Qed.

(** X8.  A product row is always produced, and its stock quantity
    follows the fourth [random()] of the row: below 0.01 the quantity is
    [-randint(1, 100)], in [-100, -1]; otherwise it is [randint(0, 1000)],
    in [0, 1000].  So the quantity is negative exactly when that draw is
    below 0.01, and every product row any run of the script inserts has
    its quantity in [-100, 1000]. *)
Theorem stock_quantity_ranges (getenv : string -> option string) (cfg : Config) :
  (forall (i : Z) (st : state R F),
      let w := fst (next_random (snd (next_random (snd (next_random
                    (snd (next_random (rng st)))))))) in
      exists row st',
        product_row clock i st = (Ok row, st', []) /\
        ((w < 1 # 100)%Q -> -100 <= prod_stock_quantity row <= -1) /\
        (~ (w < 1 # 100)%Q -> 0 <= prod_stock_quantity row <= 1000) /\
        (prod_stock_quantity row < 0 <-> (w < 1 # 100)%Q)) /\
  (forall st : state R F,
      Forall (fun r => -100 <= prod_stock_quantity r <= 1000)
             (product_rows (trace (main clock getenv cfg st)))).
Proof.
  split.
  - intros i st w.
    destruct (product_stock_exact clock i st) as (row & st' & evs & Hrun & -> & _ & Hq & _).
    fold w in Hq. exists row, st'. split; [exact Hrun |].
    destruct (Qlt_le_dec w (1 # 100)) as [Hw | Hw].
    + split; [intros _; exact Hq |]. split; [intro H; contradiction |].
      split; [intros _; exact Hw | intros _; lia].
    + assert (Hnot : ~ (w < 1 # 100)%Q) by (apply Qle_not_lt; exact Hw).
      split; [intro H; contradiction |]. split; [intros _; exact Hq |].
      split; [intro H; lia | intro H; contradiction].
  - intro st. eapply Forall_impl; [| apply (main_product_rows clock getenv cfg st)].
    intros r (i & Hok). destruct Hok as (_ & _ & _ & _ & Hq). lia.
Qed.

Variable getenv : string -> option string.
Variable cfg : Config.

Lemma supplier_row_columns (names : list string) (i : Z) :
  outcomes (supplier_row (R := R) (F := F) names i)
           (fun r => (String.length (sup_country r) <= 100)%nat /\
                     (String.length (sup_phone r) <= 20)%nat)
           (fun _ => True).
Proof.
  unfold supplier_row.
  eapply outcomes_bind; [apply outcomes_index; trivial |]. intros n _.
  eapply outcomes_bind; [apply outcomes_provider |]. intros contact _.
  eapply outcomes_bind; [apply outcomes_provider |]. intros country _.
  eapply outcomes_bind; [apply outcomes_provider |]. intros phone _.
  apply outcomes_ret. cbn [sup_country sup_phone]. split; apply take_length.
Qed.

Lemma supplier_row_name (Pn : string -> Prop) (names : list string) (i : Z) :
  Forall Pn names ->
  outcomes (supplier_row (R := R) (F := F) names i) (fun r => Pn (sup_name r)) (fun _ => True).
Proof.
  intro Hnames. unfold supplier_row.
  eapply outcomes_bind; [apply outcomes_index; trivial |]. intros n Hn.
  eapply outcomes_bind; [apply outcomes_provider |]. intros contact _.
  eapply outcomes_bind; [apply outcomes_provider |]. intros country _.
  eapply outcomes_bind; [apply outcomes_provider |]. intros phone _.
  apply outcomes_ret. cbn [sup_name]. rewrite Forall_forall in Hnames. apply Hnames, Hn.
Qed.

(** X1.  [generate_supplier_name] prints nothing and touches no table;
    when it returns, the name has no whitespace at either end (it is its
    own [strip()]); when it does not return, it raises [IndexError].  So
    in every run of the script, every supplier name inserted has no
    whitespace at either end. *)
Theorem supplier_name_is_stripped :
  (forall st : state R F,
      trace (generate_supplier_name st) = [] /\
      match outcome (generate_supplier_name st) with
      | Ok name => stripped name
      | Raise e => e = IndexError
      end) /\
  (forall st : state R F,
      Forall (fun r => stripped (sup_name r))
             (supplier_rows (trace (main clock getenv cfg st)))).
Proof.
  split; [exact supplier_name_outcome |].
  intro st.
  destruct (main_rows_satisfy clock getenv cfg
              stripped (fun r => stripped (sup_name r)) (fun _ => True) (fun _ => True))
    with (st := st) as (Hs & _).
  - intro s. destruct (supplier_name_outcome s) as [_ H].
    destruct (outcome (generate_supplier_name s)); [exact H | exact I].
  - intros names i Hnames. apply supplier_row_name. exact Hnames.
  - intro s. eapply silent_weaken; [apply silent_customer_row | trivial].
  - intros i s. eapply silent_weaken; [apply silent_product_row | trivial].
  - exact Hs.
Qed.

(** X4.  The phone and country of a customer row are cut to 20 and 100
    characters, and so are those of a supplier row: in every run of the
    script, every row inserted into Suppliers or Customers has a country
    of at most 100 characters and a phone of at most 20, the widths of
    the two columns. *)
Theorem text_columns_fit :
  (forall st : state R F,
      exists row st',
        customer_row clock st = (Ok row, st', []) /\
        (String.length (cust_country row) <= 100)%nat /\
        (String.length (cust_phone row) <= 20)%nat) /\
  (forall st : state R F,
      Forall (fun r => (String.length (sup_country r) <= 100)%nat /\
                       (String.length (sup_phone r) <= 20)%nat)
             (supplier_rows (trace (main clock getenv cfg st))) /\
      Forall (fun r => (String.length (cust_country r) <= 100)%nat /\
                       (String.length (cust_phone r) <= 20)%nat)
             (customer_rows (trace (main clock getenv cfg st)))).
Proof.
  split.
  - intro st.
    destruct (customer_row_exact clock st)
      as (row & st' & evs & Hrun & -> & _ & _ & _ & _ & Hphone & Hcountry & _).
    exists row, st'. split; [exact Hrun |]. split; assumption.
  - intro st.
    destruct (main_rows_satisfy clock getenv cfg
                (fun _ => True)
                (fun r => (String.length (sup_country r) <= 100)%nat /\
                          (String.length (sup_phone r) <= 20)%nat)
                (fun r => (String.length (cust_country r) <= 100)%nat /\
                          (String.length (cust_phone r) <= 20)%nat)
                (fun _ => True)) with (st := st) as (Hs & Hc & _).
    + apply outcomes_any.
    + intros names i _. apply supplier_row_columns.
    + intro s. eapply returns_weaken; [apply customer_row_exact |].
      intros row s' evs (-> & _ & _ & _ & _ & Hphone & Hcountry & _).
      split; [split; assumption | reflexivity].
    + intros i s. eapply silent_weaken; [apply silent_product_row | trivial].
    + split; assumption.
Qed.

(** X9.  The activity flag of a customer row is [random.choice([0, 1])]:
    every customer row is produced with a flag that is 0 or 1, and so is
    every customer row any run of the script inserts. *)
Theorem is_active_is_a_bit :
  (forall st : state R F,
      exists row st',
        customer_row clock st = (Ok row, st', []) /\
        (cust_is_active row = 0 \/ cust_is_active row = 1)) /\
  (forall st : state R F,
      Forall (fun r => cust_is_active r = 0 \/ cust_is_active r = 1)
             (customer_rows (trace (main clock getenv cfg st)))).
Proof.
  split.
  - intro st.
    destruct (customer_row_exact clock st)
      as (row & st' & evs & Hrun & -> & _ & _ & _ & Hflag & _).
    exists row, st'. split; [exact Hrun | exact Hflag].
  - intro st.
    destruct (main_rows_satisfy clock getenv cfg
                (fun _ => True) (fun _ => True)
                (fun r => cust_is_active r = 0 \/ cust_is_active r = 1)
                (fun _ => True)) with (st := st) as (_ & Hc & _).
    + apply outcomes_any.
    + intros names i _. apply outcomes_any.
    + intro s. eapply returns_weaken; [apply customer_row_exact |].
      intros row s' evs (-> & _ & _ & _ & Hflag & _).
      split; [exact Hflag | reflexivity].
    + intros i s. eapply silent_weaken; [apply silent_product_row | trivial].
    + exact Hc.
Qed.

(** X7.  Take a [Faker] whose [date_time_between] keeps its documented
    bounds.  Then every customer row reads the clock once, and its
    creation date is either one to thirty days after that reading (the
    future-date defect) or not after it; every product row reads the
    clock once and its creation date is not after that reading.  A run
    never turns the count of readings back, and every Customers or
    Products row it inserts has its creation date bounded in that way by
    one of the readings the run itself took: a reading numbered from the
    count the run started with up to, but not including, the count it
    ended with. *)
Theorem created_dates_follow_the_clock :
  dates_as_documented ->
  (forall st : state R F,
      exists row st',
        customer_row clock st = (Ok row, st', []) /\ ticks st' = S (ticks st) /\
        (clock (ticks st) + DAY <= cust_created row <= clock (ticks st) + 30 * DAY \/
         cust_created row <= clock (ticks st))) /\
  (forall (i : Z) (st : state R F),
      exists row st',
        product_row clock i st = (Ok row, st', []) /\ ticks st' = S (ticks st) /\
        prod_created row <= clock (ticks st)) /\
  (forall st : state R F,
      let first := ticks st in
      let last := ticks (final (main clock getenv cfg st)) in
      (first <= last)%nat /\
      Forall (fun r => exists k : nat,
                  (first <= k < last)%nat /\
                  (clock k + DAY <= cust_created r <= clock k + 30 * DAY \/
                   cust_created r <= clock k))
             (customer_rows (trace (main clock getenv cfg st))) /\
      Forall (fun r => exists k : nat, (first <= k < last)%nat /\ prod_created r <= clock k)
             (product_rows (trace (main clock getenv cfg st)))).
Proof.
  intros (Hfuture & Hpast5 & Hpast3).
  assert (Hcust : forall st : state R F,
             exists row st', customer_row clock st = (Ok row, st', []) /\
                             ticks st' = S (ticks st) /\ customer_date_at clock (ticks st) row).
  { intro st. destruct (customer_row_exact clock st)
      as (row & s' & evs & Hrun & -> & Hticks & _ & _ & _ & _ & _ & w & f & Hcreated).
    exists row, s'. split; [exact Hrun |]. split; [exact Hticks |].
    unfold customer_date_at. rewrite Hcreated.
    destruct (Qlt_le_dec w (1 # 100)); [left; apply Hfuture | right; apply Hpast5]. }
  assert (Hprod : forall i (st : state R F),
             exists row st', product_row clock i st = (Ok row, st', []) /\
                             ticks st' = S (ticks st) /\ product_date_at clock (ticks st) row).
  { intros i st. destruct (product_stock_exact clock i st)
      as (row & s' & evs & Hrun & -> & Hticks & _ & Hcreated).
    exists row, s'. split; [exact Hrun |]. split; [exact Hticks |].
    unfold product_date_at. rewrite Hcreated. apply Hpast3. }
  split; [exact Hcust | split; [exact Hprod |]].
  intros st first last.
  destruct (during_main clock getenv cfg first Hcust Hprod st (le_n _)) as [Hle Hev].
  fold last in Hle, Hev.
  destruct (rows_of_satisfy _ _ _ _ Hev) as (_ & Hc & Hp).
  split; [exact Hle |]. split; assumption.
Qed.

End RowProperties.

(** X6 at the name "john smith". *)
Lemma derived_email_shape_witness :
  exists row st' host,
    customer_row (random_lib := Fixture.blank_random) (faker_lib := Fixture.blank_faker)
                 Fixture.at_2001 Fixture.john
    = (Ok row, st', []) /\
    cust_email row = ("john" ++ "." ++ "smith" ++ "@" ++ host)%string /\
    all_chars email_char (cust_email row) = true.
Proof.
  destruct (derived_email_shape
              (random_lib := Fixture.blank_random) (faker_lib := Fixture.blank_faker)
              Fixture.at_2001 Fixture.john)
    as (row & st' & host & Hrun & Hemail & _ & _ & _ & Hchars).
  - intro H. vm_compute in H. discriminate H.
  - vm_compute. lia.
  - exists row, st', host. split; [exact Hrun |]. split; [exact Hemail | exact Hchars].
Defined.

(** X7 for the scripted [Faker], whose dates keep the documented
    bounds: the first customer row of a run started at 1,000,000,000. *)
Lemma created_dates_follow_the_clock_witness :
  exists row st',
    customer_row (random_lib := Fixture.blank_random) (faker_lib := Fixture.blank_faker)
                 Fixture.at_2001 Fixture.blank
    = (Ok row, st', []) /\
    (1000000000 + DAY <= cust_created row <= 1000000000 + 30 * DAY \/
     cust_created row <= 1000000000).
Proof.
  destruct (created_dates_follow_the_clock
              (random_lib := Fixture.blank_random) (faker_lib := Fixture.blank_faker)
              Fixture.at_2001 Fixture.env_host Fixture.tiny
              (scripted_dates_as_documented (fun _ => Fixture.no_tapes)))
    as (Hcust & _).
  destruct (Hcust Fixture.blank) as (row & st' & Hrun & _ & Hdate).
  exists row, st'. split; [exact Hrun | exact Hdate].
Defined.

#[export] Hint Extern 1 (inside_connection _) => exact I : emits.
#[export] Hint Extern 1 (no_exception_shown _) => exact I : emits.
#[export] Hint Extern 1 (before_completion _) =>
  (let H := fresh in intro H; vm_compute in H; discriminate H) : emits.

Lemma inside_no_connect (evs : list event) :
  Forall inside_connection evs -> filter is_connect evs = [].
Proof.
  induction 1 as [| e evs He _ IH]; [reflexivity |].
  destruct e; cbn in He; try contradiction; cbn [filter is_connect]; exact IH.
Qed.

Section Shape.

Context {R F : Type} {random_lib : PyRandom R} {faker_lib : Faker F}.
Variable clock : nat -> Z.
Variable cfg : Config.

(** The [try] statement, exactly: the connection, what the block emits,
    the error report if the block raised, and the two [close] calls. *)
Lemma run_try_exact (conn_string : string) (st : state R F) :
  try_except_finally (try_body clock cfg conn_string) except_handler finally_cleanup st
  = (outcome (populate clock cfg (with_conn true true st)),
     final (populate clock cfg (with_conn true true st)),
     Connect conn_string
     :: trace (populate clock cfg (with_conn true true st))
        ++ match outcome (populate clock cfg (with_conn true true st)) with
           | Ok _ => []
           | Raise e => error_report e
           end
        ++ [CursorClose; ConnClose]).
Proof.
  pose proof (keeps_populate clock cfg (with_conn true true st)) as [Hconn Hcursor].
  unfold try_except_finally. rewrite try_body_populate.
  unfold bind at 1, pyodbc_connect.
  destruct (populate clock cfg (with_conn true true st)) as [[[u | e] s1] ev1];
    unfold outcome, trace, final in *; cbn [fst snd] in *.
  - destruct u. unfold finally_cleanup. rewrite Hconn, Hcursor. reflexivity.
  - unfold except_handler, bind, print, emit, finally_cleanup.
    rewrite Hconn, Hcursor. reflexivity.
Qed.

Variable getenv : string -> option string.

Lemma run_main_exact (st : state R F) :
  falsy (getenv "SQL_SERVER_HOST") = false ->
  main clock getenv cfg st
  = (outcome (populate clock cfg (started st)),
     final (populate clock cfg (started st)),
     banner (SQL_HOST_of getenv) (SQL_DB_of getenv)
     ++ Connect (conn_string_of (SQL_HOST_of getenv) (SQL_DB_of getenv))
     :: trace (populate clock cfg (started st))
        ++ match outcome (populate clock cfg (started st)) with
           | Ok _ => []
           | Raise e => error_report e
           end
        ++ [CursorClose; ConnClose]).
Proof.
  intro Hf.
  unfold main. unfold bind at 1 2, Faker_seed, random_seed. cbv zeta.
  rewrite Hf. cbv iota beta.
  fold (SQL_DB_of getenv). fold (SQL_HOST_of getenv).
  fold (conn_string_of (SQL_HOST_of getenv) (SQL_DB_of getenv)).
  unfold bind, print, emit. fold (seeded_state st).
  rewrite run_try_exact. reflexivity.
Qed.

Lemma emits_final_summary (K : event -> Prop) :
  (forall s, K (Stdout (Text s))) -> (forall b n a, K (Stdout (Count b n a))) ->
  emits K (final_summary (R := R) (F := F) cfg).
Proof.
  intros HT HC. unfold final_summary, print. cbv zeta.
  repeat (apply emits_bind; [apply emits_emit; first [apply HT | apply HC] | intros _]).
  apply emits_emit; apply HT.
Qed.

Lemma emits_phase_inside (t : table) {A} (m : M R F A) :
  emits (phase_event t) m -> emits inside_connection m.
Proof.
  apply emits_weaken. intros [| | | | | | |] He; cbn in He; try contradiction; exact I.
Qed.

Lemma emits_populate_inside :
  emits inside_connection (populate (R := R) (F := F) clock cfg).
Proof.
  unfold populate.
  apply emits_bind; [apply emits_emit; exact I | intros _].
  apply emits_bind; [apply (emits_phase_inside Categories), emits_table_categories | intros _].
  apply emits_bind; [apply (emits_phase_inside Suppliers), emits_table_suppliers | intros _].
  apply emits_bind; [apply (emits_phase_inside Customers), emits_table_customers | intros _].
  apply emits_bind; [apply (emits_phase_inside Products), emits_table_products | intros _].
  apply emits_final_summary; intros; exact I.
Qed.

(** No table phase prints an exception, and none announces completion. *)
Lemma emits_populate_no_exception :
  emits no_exception_shown (populate (R := R) (F := F) clock cfg).
Proof.
  unfold populate, table_categories, table_suppliers, table_customers, table_products,
    load_customers, load_products, commit_periodically, recreate_table,
    cursor_executemany, conn_commit, print.
  pose proof (emits_generate_supplier_name (R := R) (F := F) no_exception_shown).
  pose proof (emits_supplier_row (R := R) (F := F) no_exception_shown).
  pose proof (emits_customer_row (R := R) (F := F) clock no_exception_shown).
  pose proof (emits_product_row (R := R) (F := F) clock no_exception_shown).
  pose proof (emits_final_summary no_exception_shown (fun _ => I) (fun _ _ _ => I)).
  unfold print in *.
  auto 60 using emits_emit with emits.
Qed.

Lemma emits_tables_before_completion :
  emits before_completion
        (bind (print (Text ("✓ Connected to SQL Server" ++ newline))) (fun _ =>
         bind (table_categories (R := R) (F := F)) (fun _ =>
         bind table_suppliers (fun _ =>
         bind (table_customers clock cfg) (fun _ =>
         table_products clock cfg))))).
Proof.
  unfold table_categories, table_suppliers, table_customers, table_products,
    load_customers, load_products, commit_periodically, recreate_table,
    cursor_executemany, conn_commit, print.
  pose proof (emits_generate_supplier_name (R := R) (F := F) before_completion).
  pose proof (emits_supplier_row (R := R) (F := F) before_completion).
  pose proof (emits_customer_row (R := R) (F := F) clock before_completion).
  pose proof (emits_product_row (R := R) (F := F) clock before_completion).
  auto 60 using emits_emit with emits.
Qed.

Lemma bind_assoc_run {A B C} (m : M R F A) (k : A -> M R F B) (h : B -> M R F C)
      (st : state R F) :
  bind (bind m k) h st = bind m (fun a => bind (k a) h) st.
Proof.
  unfold bind. destruct (m st) as [[[a | e] st1] ev1]; [| reflexivity].
  destruct (k a st1) as [[[b | e] st2] ev2]; [| reflexivity].
  destruct (h b st2) as [[r st3] ev3]. rewrite app_assoc. reflexivity.
Qed.

Lemma bind_ext {A B} (m : M R F A) (k k' : A -> M R F B) (st : state R F) :
  (forall a s, k a s = k' a s) -> bind m k st = bind m k' st.
Proof.
  intro Hk. unfold bind. destruct (m st) as [[[a | e] st1] ev1]; [| reflexivity].
  rewrite Hk. reflexivity.
Qed.

(** [populate] is the table phases followed by the summary. *)
Lemma populate_tables_then_summary (st : state R F) :
  populate clock cfg st
  = bind (bind (print (Text ("✓ Connected to SQL Server" ++ newline))) (fun _ =>
          bind (table_categories (R := R) (F := F)) (fun _ =>
          bind table_suppliers (fun _ =>
          bind (table_customers clock cfg) (fun _ =>
          table_products clock cfg)))))
         (fun _ => final_summary cfg) st.
Proof.
  unfold populate.
  rewrite bind_assoc_run. apply bind_ext. intros _ s1.
  rewrite bind_assoc_run. apply bind_ext. intros _ s2.
  rewrite bind_assoc_run. apply bind_ext. intros _ s3.
  rewrite bind_assoc_run. reflexivity.
Qed.

(** A [try] block that raises did not reach the summary; one that
    returns printed it. *)
Lemma populate_completion (st : state R F) :
  match outcome (populate clock cfg st) with
  | Ok _ => In completion_line (trace (populate clock cfg st))
  | Raise _ => Forall before_completion (trace (populate clock cfg st))
  end.
Proof.
  rewrite populate_tables_then_summary.
  pose proof (emits_tables_before_completion st) as Hk.
  assert (Hsum : forall s : state R F,
             exists evs, final_summary cfg s = (Ok tt, s, evs) /\ In completion_line evs)
    by (intro s; eexists; split; [reflexivity | right; left; reflexivity]).
  match goal with
  | |- context [bind ?T (fun _ => final_summary cfg) st] => set (tables := T) in *
  end.
  unfold trace in Hk. unfold bind.
  destruct (tables st) as [[[t | e] s1] e1]; cbn [snd] in Hk.
  - destruct (Hsum s1) as (evs & -> & Hin). unfold outcome, trace. cbn [fst snd].
    apply in_or_app. right. exact Hin.
  - exact Hk.
Qed.

End Shape.

Section Lifecycle.

Context {R F : Type} {random_lib : PyRandom R} {faker_lib : Faker F}.
Variable clock : nat -> Z.
Variable cfg : Config.
Variable getenv : string -> option string.

(** X10.  Take a run that has a host and in which no call to the driver
    fails: a run that completes, or that stops at a [ZeroDivisionError]
    or an [IndexError] of the script's own.  It prints the banner, opens
    the connection exactly once with the connection string built from
    the host and the database, and ends by closing the cursor and then
    the connection; every other database call lies between.  (A run in
    which the driver raises is outside this statement: there the script
    may have nothing to close.) *)
Theorem connection_opened_once_and_closed_last (st : state R F) :
  falsy (getenv "SQL_SERVER_HOST") = false ->
  outcome (main clock getenv cfg st) = Ok tt \/
  outcome (main clock getenv cfg st) = Raise ZeroDivisionError \/
  outcome (main clock getenv cfg st) = Raise IndexError ->
  exists body,
    trace (main clock getenv cfg st)
    = banner (SQL_HOST_of getenv) (SQL_DB_of getenv)
      ++ Connect (conn_string_of (SQL_HOST_of getenv) (SQL_DB_of getenv))
      :: body ++ [CursorClose; ConnClose] /\
    Forall inside_connection body /\
    filter is_connect (trace (main clock getenv cfg st))
    = [Connect (conn_string_of (SQL_HOST_of getenv) (SQL_DB_of getenv))].
Proof.
  intros Hf _. rewrite (run_main_exact clock cfg getenv st Hf). unfold trace at 1 3. cbn [snd].
  set (out := populate clock cfg (started st)).
  set (report := match outcome out with Ok _ => [] | Raise e => error_report e end).
  assert (Hbody : Forall inside_connection (trace out ++ report)).
  { apply Forall_app. split; [apply emits_populate_inside |].
    unfold report. destruct (outcome out); repeat constructor. }
  exists (trace out ++ report). split; [rewrite <- app_assoc; reflexivity |].
  split; [exact Hbody |].
  rewrite filter_app. cbn [filter is_connect banner app].
  rewrite app_assoc, filter_app, (inside_no_connect _ Hbody). reflexivity.
Qed.

(** X11.  Take a run that has a host and ends with a [ZeroDivisionError]
    or an [IndexError], the exceptions the script's own statements raise
    inside the [try] block (an error of the driver is handled by the
    other [except] clause and is outside this statement).  The exception
    the block raised is the exception the script ends with; the last
    things the script does are to print the general error line and the
    exception and to close the cursor and the connection; the completion
    line is never printed.  A run that ends normally has printed the
    completion line and no exception. *)
Theorem failure_is_reported_and_reraised (st : state R F) :
  falsy (getenv "SQL_SERVER_HOST") = false ->
  match outcome (main clock getenv cfg st) with
  | Raise e =>
      e = ZeroDivisionError \/ e = IndexError ->
      outcome (populate clock cfg (started st)) = Raise e /\
      (exists before,
          trace (main clock getenv cfg st)
          = before ++ error_report e ++ [CursorClose; ConnClose]) /\
      ~ In completion_line (trace (main clock getenv cfg st))
  | Ok _ =>
      In completion_line (trace (main clock getenv cfg st)) /\
      Forall no_exception_shown (trace (main clock getenv cfg st))
  end.
Proof.
  intro Hf. rewrite (run_main_exact clock cfg getenv st Hf).
  unfold outcome at 1. unfold trace at 1 2 3 4. cbn [fst snd].
  pose proof (populate_completion clock cfg (started st)) as Hc.
  pose proof (emits_populate_no_exception clock cfg (started st)) as Hn.
  destruct (outcome (populate clock cfg (started st))) as [u | e].
  - split.
    + apply in_or_app. right. right. apply in_or_app. left. exact Hc.
    + apply Forall_app. split; [repeat constructor |].
      constructor; [exact I |]. apply Forall_app. split; [exact Hn | repeat constructor].
  - intros _. split; [reflexivity |]. split.
    + eexists. rewrite app_comm_cons, app_assoc. reflexivity.
    + intro Hin. apply in_app_or in Hin. destruct Hin as [Hin | Hin].
      * cbn in Hin. repeat (destruct Hin as [Hin | Hin]; [discriminate Hin |]). exact Hin.
      * destruct Hin as [Hin | Hin]; [discriminate Hin |].
        apply in_app_or in Hin. destruct Hin as [Hin | Hin].
        -- rewrite Forall_forall in Hc. exact (Hc _ Hin eq_refl).
        -- cbn in Hin. repeat (destruct Hin as [Hin | Hin]; [discriminate Hin |]). exact Hin.
Qed.

End Lifecycle.

Section Suppliers.

Context {R F : Type} {random_lib : PyRandom R} {faker_lib : Faker F}.

Lemma bind_known {A B} (m : M R F A) (k : A -> M R F B) (st st1 st2 : state R F)
      (a : A) (r : result B) (ev1 ev2 : list event) :
  m st = (Ok a, st1, ev1) -> k a st1 = (r, st2, ev2) -> bind m k st = (r, st2, ev1 ++ ev2).
Proof. intros Hm Hk. unfold bind. rewrite Hm, Hk. reflexivity. Qed.

Lemma outcomes_supplier_name (E : exn -> Prop) :
  (forall f, is_blank (fst (draw_bs f)) = true -> E IndexError) ->
  outcomes (generate_supplier_name (R := R) (F := F)) (fun _ => True) E.
Proof.
  intros HE st.
  destruct (generate_supplier_name_cases st) as (Hk & H0 & H1 & H2).
  assert (Hcase : fst (next_below 3 (rng st)) = 0 \/ fst (next_below 3 (rng st)) = 1 \/
                  fst (next_below 3 (rng st)) = 2) by lia.
  destruct Hcase as [Hc | [Hc | Hc]].
  - destruct (H0 Hc) as (suffix & st' & _ & Hrun). rewrite Hrun. exact I.
  - destruct (H1 Hc) as (Hblank & Hword).
    destruct (PyStr.split (PyStr.title (fst (draw_bs (fake st))))) as [| w ws] eqn:Hsplit.
    + destruct (Hblank eq_refl) as (st' & Hrun). rewrite Hrun.
      apply (HE (fake st)). apply split_title_blank. exact Hsplit.
    + destruct (Hword ltac:(discriminate)) as (t & suffix & st' & _ & _ & Hrun).
      rewrite Hrun. exact I.
  - destruct (H2 Hc) as (t & suffix & st' & _ & _ & Hrun). rewrite Hrun. exact I.
Qed.

Lemma supplier_row_returns (names : list string) (i : Z) :
  0 <= i < Z.of_nat (List.length names) ->
  outcomes (supplier_row (R := R) (F := F) names i) (fun _ => True) (fun _ => False).
Proof.
  intro Hi. unfold supplier_row.
  eapply outcomes_bind; [apply outcomes_index; lia |]. intros n _.
  eapply outcomes_bind; [apply outcomes_provider |]. intros contact _.
  eapply outcomes_bind; [apply outcomes_provider |]. intros country _.
  eapply outcomes_bind; [apply outcomes_provider |]. intros phone _.
  apply outcomes_ret. exact I.
Qed.

(** The Suppliers phase either inserts 5000 rows, or stops at a blank
    catch phrase before it has inserted any. *)
Lemma table_suppliers_run (st : state R F) :
  (exists data s,
      Z.of_nat (List.length data) = 5000 /\
      table_suppliers st = (Ok tt, s, suppliers_opening ++ suppliers_closing data)) \/
  (exists s,
      table_suppliers st = (Raise IndexError, s, suppliers_opening) /\
      exists f, is_blank (fst (draw_bs f)) = true).
Proof.
  assert (Hopen1 : print (R := R) (F := F) (Text "Creating dbo.Suppliers (5,000 rows) ...") st
                   = (Ok tt, st, [Stdout (Text "Creating dbo.Suppliers (5,000 rows) ...")]))
    by reflexivity.
  assert (Hopen2 : recreate_table (R := R) (F := F) Suppliers st
                   = (Ok tt, st, [ExecuteDropIfExists Suppliers; ExecuteCreateTable Suppliers]))
    by reflexivity.
  destruct (for_list (range 5000) (fun _ => generate_supplier_name) st)
    as [[[names | e] s3] e3] eqn:Hn.
  - assert (He3 : e3 = []).
    { change e3 with (trace (Ok names, s3, e3)). rewrite <- Hn. apply no_events.
      apply emits_for_list. intro. apply emits_generate_supplier_name. }
    subst e3.
    assert (Hlen : List.length names = List.length (range 5000))
      by (eapply for_list_ok_length; exact Hn).
    destruct (for_list (range 5000) (supplier_row names) s3) as [[[data | e] s4] e4] eqn:Hd.
    + assert (He4 : e4 = []).
      { change e4 with (trace (Ok data, s4, e4)). rewrite <- Hd. apply no_events.
        apply emits_for_list. intro. apply emits_supplier_row. }
      subst e4.
      assert (Hlen' : List.length data = List.length (range 5000))
        by (eapply for_list_ok_length; exact Hd).
      left. exists data, s4. split; [rewrite Hlen', range_length; reflexivity |].
      unfold table_suppliers.
      refine (bind_known _ _ _ _ _ _ _ _ _ Hopen1 _).
      refine (bind_known _ _ _ _ _ _ _ _ _ Hopen2 _).
      refine (bind_known _ _ _ _ _ _ _ _ _ Hn _).
      refine (bind_known _ _ _ _ _ _ _ _ _ Hd _).
      reflexivity.
    + exfalso.
      pose proof (outcomes_for_list (supplier_row (R := R) (F := F) names)
                    (fun _ => True) (fun _ => False) (range 5000)) as Hloop.
      specialize (Hloop ltac:(intros x Hx; apply supplier_row_returns;
                              apply in_range in Hx; rewrite Hlen, range_length; lia) s3).
      rewrite Hd in Hloop. exact Hloop.
  - assert (He3 : e3 = []).
    { change e3 with (trace (@Raise (list string) e, s3, e3)). rewrite <- Hn. apply no_events.
      apply emits_for_list. intro. apply emits_generate_supplier_name. }
    subst e3.
    pose proof (outcomes_for_list (fun _ : Z => generate_supplier_name (R := R) (F := F))
                  (fun _ => True)
                  (fun e => e = IndexError /\ exists f, is_blank (fst (draw_bs f)) = true)
                  (range 5000)) as Hloop.
    specialize (Hloop ltac:(intros x Hx; apply outcomes_supplier_name;
                            intros f Hf; split; [reflexivity | exists f; exact Hf]) st).
    rewrite Hn in Hloop. cbn in Hloop. destruct Hloop as (-> & Hblank).
    right. exists s3. split; [| exact Hblank].
    unfold table_suppliers.
    refine (bind_known _ _ _ _ _ _ _ _ _ Hopen1 _).
    refine (bind_known _ _ _ _ _ _ _ _ _ Hopen2 _).
    apply bind_raised. exact Hn.
Qed.

Variable clock : nat -> Z.
Variable cfg : Config.

Lemma run_table_categories (st : state R F) :
  table_categories st = (Ok tt, st, categories_events).
Proof. reflexivity. Qed.

Lemma populate_after (st s2 s3 : state R F) (e2 e3 : list event) (r : result unit) :
  table_suppliers st = (Ok tt, s2, e2) ->
  load_and_summarise clock cfg s2 = (r, s3, e3) ->
  populate clock cfg st
  = (r, s3, Stdout (Text ("✓ Connected to SQL Server" ++ newline))
            :: categories_events ++ e2 ++ e3).
Proof.
  intros Hsup Hrest. unfold populate.
  refine (bind_known _ _ _ _ _ _ _ [_] _ (eq_refl : print _ st = (Ok tt, st, [_])) _).
  refine (bind_known _ _ _ _ _ _ _ _ _ (run_table_categories st) _).
  refine (bind_known _ _ _ _ _ _ _ _ _ Hsup _).
  exact Hrest.
Qed.

Lemma populate_aborted (st s2 : state R F) (e2 : list event) (e : exn) :
  table_suppliers st = (Raise e, s2, e2) ->
  populate clock cfg st
  = (Raise e, s2, Stdout (Text ("✓ Connected to SQL Server" ++ newline))
                  :: categories_events ++ e2).
Proof.
  intros Hsup. unfold populate.
  refine (bind_known _ _ _ _ _ _ _ [_] _ (eq_refl : print _ st = (Ok tt, st, [_])) _).
  refine (bind_known _ _ _ _ _ _ _ _ _ (run_table_categories st) _).
  apply bind_raised. exact Hsup.
Qed.

(** With a batch size of zero the rest of the block stops at the first
    floor division, with Customers dropped, created and committed. *)
Lemma load_and_summarise_zero_batch (s : state R F) :
  BATCH_SIZE cfg = 0 ->
  load_and_summarise clock cfg s = (Raise ZeroDivisionError, s, customers_opening).
Proof.
  intro HB. unfold load_and_summarise. apply bind_raised. unfold table_customers.
  refine (bind_known _ _ _ _ _ _ _ [_] _ (eq_refl : print _ s = (Ok tt, s, [_])) _).
  refine (bind_known _ _ _ _ _ _ _ [_; _] _
            (eq_refl : recreate_table Customers s = (Ok tt, s, [_; _])) _).
  refine (bind_known _ _ _ _ _ _ _ [_] _ (eq_refl : conn_commit s = (Ok tt, s, [_])) _).
  apply load_customers_zero_batch. exact HB.
Qed.

(** With a positive batch size the rest of the block returns or stops
    at nothing: no step of it can raise. *)
Lemma outcomes_load_and_summarise (E : exn -> Prop) :
  (BATCH_SIZE cfg = 0 -> E ZeroDivisionError) ->
  outcomes (load_and_summarise (R := R) (F := F) clock cfg) (fun _ => True) E.
Proof.
  intro HE.
  assert (Hemit : forall e, outcomes (emit (R := R) (F := F) e) (fun _ => True) E)
    by (intro e; apply outcomes_emit; exact I).
  assert (Hcommit : forall b t l,
             outcomes (commit_periodically (R := R) (F := F) b t l) (fun _ => True) E).
  { intros b t l. unfold commit_periodically, conn_commit, print.
    apply outcomes_if_bool; intros _.
    - eapply outcomes_bind; [apply Hemit | intros; apply Hemit].
    - apply outcomes_ret. exact I. }
  assert (Hprogress : forall (c : bool) m,
             outcomes (if c then print (R := R) (F := F) m else ret tt) (fun _ => True) E).
  { intros c m. apply outcomes_if_bool; intros _; [apply Hemit | apply outcomes_ret; exact I]. }
  unfold load_and_summarise, table_customers, table_products, load_customers, load_products,
    recreate_table, cursor_executemany, conn_commit, print.
  eapply outcomes_bind.
  - eapply outcomes_bind; [apply Hemit | intros _ _].
    eapply outcomes_bind;
      [eapply outcomes_bind; [apply Hemit | intros; apply Hemit] | intros _ _].
    eapply outcomes_bind; [apply Hemit | intros _ _].
    eapply outcomes_bind; [apply outcomes_floordiv; exact HE | intros total_batches _].
    eapply outcomes_bind.
    + apply outcomes_for_each. intros total batch_num.
      eapply outcomes_bind;
        [apply outcomes_for_list; intros; apply outcomes_of_silent;
         intro; apply (silent_customer_row clock) | intros batch _].
      eapply outcomes_bind; [apply Hemit | intros _ _].
      eapply outcomes_bind; [apply Hcommit | intros _ _].
      eapply outcomes_bind; [apply Hprogress | intros _ _].
      apply outcomes_ret. exact I.
    + intros total _.
      eapply outcomes_bind; [apply Hemit | intros _ _].
      eapply outcomes_bind; [apply Hemit | intros _ _].
      apply outcomes_ret. exact I.
  - intros _ _. eapply outcomes_bind.
    + eapply outcomes_bind; [apply Hemit | intros _ _].
      eapply outcomes_bind;
        [eapply outcomes_bind; [apply Hemit | intros; apply Hemit] | intros _ _].
      eapply outcomes_bind; [apply Hemit | intros _ _].
      eapply outcomes_bind; [apply outcomes_floordiv; exact HE | intros total_batches _].
      eapply outcomes_bind.
      * apply outcomes_for_each. intros total batch_num.
        eapply outcomes_bind;
          [apply outcomes_for_list with (Q := fun _ => True); intros;
           apply outcomes_of_silent; intro;
           eapply silent_weaken; [apply (silent_product_row clock) | trivial]
          | intros batch _].
        eapply outcomes_bind; [apply Hemit | intros _ _].
        eapply outcomes_bind; [apply Hcommit | intros _ _].
        eapply outcomes_bind; [apply Hprogress | intros _ _].
        apply outcomes_ret. exact I.
      * intros total _.
        eapply outcomes_bind; [apply Hemit | intros _ _].
        eapply outcomes_bind; [apply Hemit | intros _ _].
        apply outcomes_ret. exact I.
    + intros _ _. intro st. destruct (run_final_summary cfg st) as (evs & -> & _). exact I.
Qed.

(** The database calls of the rest of the block, when it can run. *)
Lemma load_and_summarise_calls (s : state R F) :
  0 <= CUSTOMERS_TOTAL cfg -> 0 <= PRODUCTS_TOTAL cfg -> 0 < BATCH_SIZE cfg ->
  returns (load_and_summarise clock cfg) s (fun _ _ evs =>
    exists (customers : list (list customer)) (products : list (list product)),
      db_calls evs
      = create_calls Customers ++ [Commit] ++ loading_calls CustomerRows customers
        ++ create_calls Products ++ [Commit] ++ loading_calls ProductRows products /\
      Z.of_nat (List.length customers) = CUSTOMERS_TOTAL cfg / BATCH_SIZE cfg /\
      Z.of_nat (List.length products) = PRODUCTS_TOTAL cfg / BATCH_SIZE cfg /\
      Forall (fun b => Z.of_nat (List.length b) = BATCH_SIZE cfg) customers /\
      Forall (fun b => Z.of_nat (List.length b) = BATCH_SIZE cfg) products).
Proof.
  intros HNc HNp HB.
  unfold load_and_summarise, table_customers, table_products.
  apply returns_bind.
  apply returns_bind, returns_emit.
  apply returns_bind. apply returns_bind, returns_emit. apply returns_emit.
  apply returns_bind, returns_emit.
  eapply returns_weaken; [apply (loaded_customers clock cfg); assumption |].
  intros total_c s1 ev_c (customers & Hcalls_c & Hlen_c & _ & Hsizes_c & _).
  apply returns_bind.
  apply returns_bind, returns_emit.
  apply returns_bind. apply returns_bind, returns_emit. apply returns_emit.
  apply returns_bind, returns_emit.
  eapply returns_weaken; [apply (loaded_products clock cfg); assumption |].
  intros total_p s2 ev_p (products & Hcalls_p & Hlen_p & _ & Hsizes_p & _).
  destruct (run_final_summary cfg s2) as (summary & Hsum & _ & _).
  exists tt, s2, summary. split; [exact Hsum |].
  exists customers, products.
  split; [| split; [| split; [| split]]]; try assumption.
  assert (Hquiet : db_calls summary = []) by (inversion Hsum; reflexivity).
  cbn [app].
  change (Stdout (Text "Creating dbo.Customers (900,000 rows - batching) ...")
          :: ExecuteDropIfExists Customers :: ExecuteCreateTable Customers :: Commit
          :: ev_c ++ ?rest)
    with ([Stdout (Text "Creating dbo.Customers (900,000 rows - batching) ...");
           ExecuteDropIfExists Customers; ExecuteCreateTable Customers; Commit]
          ++ ev_c ++ rest).
  rewrite !db_calls_app, Hcalls_c.
  change (Stdout (Text "Creating dbo.Products (150,000 rows - batching) ...")
          :: ExecuteDropIfExists Products :: ExecuteCreateTable Products :: Commit
          :: ev_p ++ summary)
    with ([Stdout (Text "Creating dbo.Products (150,000 rows - batching) ...");
           ExecuteDropIfExists Products; ExecuteCreateTable Products; Commit]
          ++ ev_p ++ summary).
  rewrite !db_calls_app, Hcalls_p, Hquiet, app_nil_r. reflexivity.
Qed.

End Suppliers.

Lemma printed_app (ev1 ev2 : list event) : printed (ev1 ++ ev2) = printed ev1 ++ printed ev2.
Proof. apply flat_map_app. Qed.

Section MainCalls.

Context {R F : Type} {random_lib : PyRandom R} {faker_lib : Faker F}.
Variable clock : nat -> Z.
Variable cfg : Config.
Variable getenv : string -> option string.

Lemma outcome_main (st : state R F) :
  falsy (getenv "SQL_SERVER_HOST") = false ->
  outcome (main clock getenv cfg st) = outcome (populate clock cfg (started st)).
Proof. intro Hf. rewrite (run_main_exact clock cfg getenv st Hf). reflexivity. Qed.

Lemma db_calls_main (st : state R F) :
  falsy (getenv "SQL_SERVER_HOST") = false ->
  db_calls (trace (main clock getenv cfg st))
  = Connect (conn_string_of (SQL_HOST_of getenv) (SQL_DB_of getenv))
    :: db_calls (trace (populate clock cfg (started st))) ++ [CursorClose; ConnClose].
Proof.
  intro Hf. rewrite (run_main_exact clock cfg getenv st Hf). unfold trace at 1. cbn [snd].
  rewrite db_calls_app.
  change (db_calls (banner (SQL_HOST_of getenv) (SQL_DB_of getenv))) with (@nil event).
  cbn [app].
  change (db_calls (Connect ?c :: ?l)) with (Connect c :: db_calls l).
  rewrite !db_calls_app. f_equal. f_equal.
  destruct (outcome (populate clock cfg (started st))); reflexivity.
Qed.

Lemma rows_main (st : state R F) :
  falsy (getenv "SQL_SERVER_HOST") = false ->
  inserted (trace (main clock getenv cfg st))
  = inserted (trace (populate clock cfg (started st))) /\
  category_rows (trace (main clock getenv cfg st))
  = category_rows (trace (populate clock cfg (started st))).
Proof.
  intro Hf.
  assert (Ht : trace (main clock getenv cfg st)
               = banner (SQL_HOST_of getenv) (SQL_DB_of getenv)
                 ++ Connect (conn_string_of (SQL_HOST_of getenv) (SQL_DB_of getenv))
                 :: trace (populate clock cfg (started st))
                    ++ match outcome (populate clock cfg (started st)) with
                       | Ok _ => []
                       | Raise e => error_report e
                       end
                    ++ [CursorClose; ConnClose])
    by (rewrite (run_main_exact clock cfg getenv st Hf); reflexivity).
  rewrite Ht. clear Ht.
  assert (Hreport : inserted (match outcome (populate clock cfg (started st)) with
                              | Ok _ => []
                              | Raise e => error_report e
                              end) = [] /\
                    category_rows (match outcome (populate clock cfg (started st)) with
                                   | Ok _ => []
                                   | Raise e => error_report e
                                   end) = [])
    by (destruct (outcome (populate clock cfg (started st))); split; reflexivity).
  destruct Hreport as [Hi Hc].
  split.
  - rewrite inserted_app. change (inserted (banner _ _)) with (@nil rows). cbn [app].
    change (inserted (Connect ?c :: ?l)) with (inserted l).
    rewrite !inserted_app, Hi. cbn [app]. change (inserted [CursorClose; ConnClose]) with (@nil rows).
    rewrite app_nil_r. reflexivity.
  - rewrite category_rows_app. change (category_rows (banner _ _)) with (@nil (string * string)).
    cbn [app]. change (category_rows (Connect ?c :: ?l)) with (category_rows l).
    rewrite !category_rows_app, Hc. cbn [app].
    change (category_rows [CursorClose; ConnClose]) with (@nil (string * string)).
    rewrite app_nil_r. reflexivity.
Qed.

(** X12.  With a host and a batch size of zero no run completes.  A run
    that ends with [ZeroDivisionError] raised it at
    [CUSTOMERS_TOTAL // BATCH_SIZE], after it had replaced and committed
    Categories and Suppliers (5000 rows) and had dropped, re-created and
    committed an empty Customers; it never touched Products, and it
    closed the cursor and the connection.  A run that ends with
    [IndexError] stopped at the supplier names.  And when no call to the
    driver fails, these are the only two ways such a run ends. *)
Theorem zero_batch_size_stops_the_run (st : state R F) :
  falsy (getenv "SQL_SERVER_HOST") = false ->
  BATCH_SIZE cfg = 0 ->
  outcome (main clock getenv cfg st) <> Ok tt /\
  (outcome (main clock getenv cfg st) = Raise ZeroDivisionError ->
   exists suppliers,
     Z.of_nat (List.length suppliers) = 5000 /\
     db_calls (trace (main clock getenv cfg st))
     = calls_until_customer_batches
         (conn_string_of (SQL_HOST_of getenv) (SQL_DB_of getenv)) suppliers) /\
  (outcome (main clock getenv cfg st) = Raise IndexError ->
   db_calls (trace (main clock getenv cfg st))
   = calls_until_supplier_names (conn_string_of (SQL_HOST_of getenv) (SQL_DB_of getenv))) /\
  (outcome (main clock getenv cfg st) = Raise ZeroDivisionError \/
   outcome (main clock getenv cfg st) = Raise IndexError).
Proof.
  intros Hf HB.
  rewrite (outcome_main st Hf), (db_calls_main st Hf).
  destruct (table_suppliers_run (started st)) as [(data & s & Hlen & Hsup) | (s & Hsup & _)].
  - rewrite (populate_after clock cfg _ _ _ _ _ _ Hsup
               (load_and_summarise_zero_batch clock cfg s HB)).
    unfold outcome, trace. cbn [fst snd].
    split; [discriminate |]. split; [| split; [discriminate | left; reflexivity]].
    intros _. exists data. split; [exact Hlen | reflexivity].
  - rewrite (populate_aborted clock cfg _ _ _ _ Hsup).
    unfold outcome, trace. cbn [fst snd].
    split; [discriminate |]. split; [discriminate |]. split; [| right; reflexivity].
    intros _. reflexivity.
Qed.

(** X13.  A run that ends with [IndexError] stopped while it generated
    supplier names, at a blank catch phrase: Categories is replaced and
    committed, Suppliers is dropped and re-created but receives no row
    and no commit, the other two tables are never touched, and the
    cursor and the connection are closed. *)
Theorem index_error_stops_before_any_supplier_row (st : state R F) :
  falsy (getenv "SQL_SERVER_HOST") = false ->
  outcome (main clock getenv cfg st) = Raise IndexError ->
  db_calls (trace (main clock getenv cfg st))
  = calls_until_supplier_names (conn_string_of (SQL_HOST_of getenv) (SQL_DB_of getenv)) /\
  inserted (trace (main clock getenv cfg st)) = [CategoryRows categories_data] /\
  exists f, is_blank (fst (draw_bs f)) = true.
Proof.
  intros Hf Hout.
  rewrite (outcome_main st Hf) in Hout.
  rewrite (db_calls_main st Hf), (proj1 (rows_main st Hf)).
  destruct (table_suppliers_run (started st)) as [(data & s & Hlen & Hsup) | (s & Hsup & Hblank)].
  - exfalso.
    pose proof (outcomes_load_and_summarise clock cfg (fun e => e = ZeroDivisionError)
                  (fun _ => eq_refl) s) as Hrest.
    destruct (load_and_summarise clock cfg s) as [[r s3] e3] eqn:Hrun.
    rewrite (populate_after clock cfg _ _ _ _ _ _ Hsup Hrun) in Hout.
    unfold outcome in Hout, Hrest. cbn [fst] in Hout, Hrest. subst r. discriminate Hrest.
  - rewrite (populate_aborted clock cfg _ _ _ _ Hsup).
    split; [reflexivity |]. split; [reflexivity | exact Hblank].
Qed.

(** X14.  With a host and a positive batch size, a run either completes
    or raises [IndexError]; and it completes whenever the catch-phrase
    provider never returns a blank string. *)
Theorem run_completes_unless_a_catch_phrase_is_blank (st : state R F) :
  falsy (getenv "SQL_SERVER_HOST") = false ->
  0 < BATCH_SIZE cfg ->
  (outcome (main clock getenv cfg st) = Ok tt \/
   outcome (main clock getenv cfg st) = Raise IndexError) /\
  ((forall f, is_blank (fst (draw_bs f)) = false) ->
   outcome (main clock getenv cfg st) = Ok tt).
Proof.
  intros Hf HB. rewrite (outcome_main st Hf).
  destruct (table_suppliers_run (started st)) as [(data & s & Hlen & Hsup) | (s & Hsup & Hblank)].
  - pose proof (outcomes_load_and_summarise clock cfg (fun _ => False)
                  ltac:(intro H0; lia) s) as Hrest.
    destruct (load_and_summarise clock cfg s) as [[r s3] e3] eqn:Hrun.
    rewrite (populate_after clock cfg _ _ _ _ _ _ Hsup Hrun).
    unfold outcome in *. cbn [fst] in *.
    destruct r as [[] | e]; [| contradiction].
    split; [left; reflexivity | intros _; reflexivity].
  - rewrite (populate_aborted clock cfg _ _ _ _ Hsup). unfold outcome. cbn [fst].
    split; [right; reflexivity |].
    intro Hbs. destruct Hblank as (f & Hb). rewrite Hbs in Hb. discriminate Hb.
Qed.

(** X18.  The database calls of a run that completes (with [N >= 0] for
    both tables and [B > 0]) are, in order: the connection; for
    Categories and then Suppliers, drop, create, one bulk insert (the 8
    fixed rows, then 5000 rows) and a commit; for Customers and then
    Products, drop, create, a commit and the batches of the loading
    loop on their commit schedule; and the two [close] calls.  The run
    commits [6 + (Nc // B) // 10 + (Np // B) // 10] times. *)
Theorem database_calls_of_a_complete_run (st : state R F) :
  falsy (getenv "SQL_SERVER_HOST") = false ->
  0 <= CUSTOMERS_TOTAL cfg -> 0 <= PRODUCTS_TOTAL cfg -> 0 < BATCH_SIZE cfg ->
  outcome (main clock getenv cfg st) = Ok tt ->
  exists suppliers customers products,
    db_calls (trace (main clock getenv cfg st))
    = calls_of_complete_run (conn_string_of (SQL_HOST_of getenv) (SQL_DB_of getenv))
                            suppliers customers products /\
    Z.of_nat (List.length suppliers) = 5000 /\
    Z.of_nat (List.length customers) = CUSTOMERS_TOTAL cfg / BATCH_SIZE cfg /\
    Z.of_nat (List.length products) = PRODUCTS_TOTAL cfg / BATCH_SIZE cfg /\
    Forall (fun b => Z.of_nat (List.length b) = BATCH_SIZE cfg) customers /\
    Forall (fun b => Z.of_nat (List.length b) = BATCH_SIZE cfg) products /\
    Z.of_nat (commits (trace (main clock getenv cfg st)))
    = 6 + CUSTOMERS_TOTAL cfg / BATCH_SIZE cfg / 10 + PRODUCTS_TOTAL cfg / BATCH_SIZE cfg / 10.
Proof.
  intros Hf HNc HNp HB Hout.
  rewrite (outcome_main st Hf) in Hout.
  rewrite <- commits_db_calls. rewrite (db_calls_main st Hf).
  destruct (table_suppliers_run (started st)) as [(data & s & Hlen & Hsup) | (s & Hsup & _)].
  - destruct (load_and_summarise_calls clock cfg s HNc HNp HB)
      as (u & s3 & e3 & Hrun & customers & products & Hcalls & Hlc & Hlp & Hsc & Hsp).
    rewrite (populate_after clock cfg _ _ _ _ _ _ Hsup Hrun).
    unfold trace. cbn [snd].
    assert (Hdb : db_calls (Stdout (Text ("✓ Connected to SQL Server" ++ newline))
                            :: categories_events
                               ++ (suppliers_opening ++ suppliers_closing data) ++ e3)
                  = create_calls Categories
                    ++ [Executemany (CategoryRows categories_data); Commit]
                    ++ create_calls Suppliers
                    ++ [Executemany (SupplierRows data); Commit]
                    ++ create_calls Customers ++ [Commit]
                    ++ loading_calls CustomerRows customers
                    ++ create_calls Products ++ [Commit]
                    ++ loading_calls ProductRows products).
    { change (Stdout (Text ("✓ Connected to SQL Server" ++ newline))
              :: categories_events ++ (suppliers_opening ++ suppliers_closing data) ++ e3)
        with ((Stdout (Text ("✓ Connected to SQL Server" ++ newline))
               :: categories_events ++ suppliers_opening ++ suppliers_closing data) ++ e3).
      rewrite db_calls_app, Hcalls. reflexivity. }
    rewrite Hdb. exists data, customers, products.
    split; [unfold calls_of_complete_run; rewrite <- !app_assoc; reflexivity |].
    split; [exact Hlen |]. split; [exact Hlc |]. split; [exact Hlp |].
    split; [exact Hsc |]. split; [exact Hsp |].
    change (Connect ?c :: ?l) with ([Connect c] ++ l).
    rewrite !commits_app, !Nat2Z.inj_add, !commits_loading_calls, Hlc, Hlp.
    change (commits [Connect (conn_string_of (SQL_HOST_of getenv) (SQL_DB_of getenv))])
      with 0%nat.
    change (commits (create_calls Categories)) with 0%nat.
    change (commits (create_calls Suppliers)) with 0%nat.
    change (commits (create_calls Customers)) with 0%nat.
    change (commits (create_calls Products)) with 0%nat.
    change (commits [Executemany (CategoryRows categories_data); Commit]) with 1%nat.
    change (commits [Executemany (SupplierRows data); Commit]) with 1%nat.
    change (commits [Commit]) with 1%nat.
    change (commits [CursorClose; ConnClose]) with 0%nat.
    lia.
  - rewrite (populate_aborted clock cfg _ _ _ _ Hsup) in Hout. discriminate Hout.
Qed.

(** X16.  Take a run that has a host and in which no call to the driver
    fails: a run that completes, or that stops at a [ZeroDivisionError]
    or an [IndexError] of the script's own.  Categories receives exactly
    the eight fixed rows; so, the identity column numbering them from 1,
    every product row the run inserts has a [CategoryID] that is the
    number of a row inserted into Categories by the same run. *)
Theorem category_ids_refer_to_inserted_categories (st : state R F) :
  falsy (getenv "SQL_SERVER_HOST") = false ->
  outcome (main clock getenv cfg st) = Ok tt \/
  outcome (main clock getenv cfg st) = Raise ZeroDivisionError \/
  outcome (main clock getenv cfg st) = Raise IndexError ->
  category_rows (trace (main clock getenv cfg st)) = categories_data /\
  Forall (fun r => 1 <= prod_category_id r /\
                   exists c,
                     nth_error (category_rows (trace (main clock getenv cfg st)))
                               (Z.to_nat (prod_category_id r - 1)) = Some c)
         (product_rows (trace (main clock getenv cfg st))).
Proof.
  intros Hf _.
  assert (Hcat : category_rows (trace (main clock getenv cfg st)) = categories_data).
  { rewrite (proj2 (rows_main st Hf)). apply populate_first_tables. }
  split; [exact Hcat |]. rewrite Hcat.
  eapply Forall_impl; [| apply (main_product_rows clock getenv cfg st)].
  intros r (i & _ & Hc & _). split; [lia |].
  destruct (nth_error categories_data (Z.to_nat (prod_category_id r - 1))) as [c |] eqn:Hn.
  - exists c. reflexivity.
  - apply nth_error_None in Hn. cbn [List.length categories_data] in Hn. lia.
Qed.

End MainCalls.

Section ProgressLines.

Context {R F : Type} {random_lib : PyRandom R} {faker_lib : Faker F}.
Variable clock : nat -> Z.
Variable cfg : Config.

Lemma iteration_lines {B} (rows_of : M R F (list B)) (wrap : list B -> rows)
      (label noun : string) (progress : Z) (total_inserted batch_num : Z) (st : state R F) :
  (forall st, silent rows_of st (fun batch => Z.of_nat (List.length batch) = BATCH_SIZE cfg)) ->
  returns
    (bind rows_of (fun batch =>
     bind (cursor_executemany (wrap batch)) (fun _ =>
     bind (commit_periodically batch_num
             (total_inserted + Z.of_nat (List.length batch)) label) (fun _ =>
     bind (if (batch_num + 1) mod progress =? 0
           then print (Count "  Inserted "
                         (total_inserted + Z.of_nat (List.length batch)) noun)
           else ret tt) (fun _ =>
     ret (total_inserted + Z.of_nat (List.length batch)))))))
    st
    (fun total' _ evs =>
       total' = total_inserted + BATCH_SIZE cfg /\
       printed evs = progress_lines label noun progress batch_num
                                    (total_inserted + BATCH_SIZE cfg)).
Proof.
  intro Hrows.
  apply returns_bind. eapply returns_weaken; [apply Hrows |].
  intros batch st1 ev1 [Hlen ->]. rewrite Hlen.
  apply returns_bind. apply returns_emit.
  apply returns_bind.
  assert (Hcommit : returns
            (commit_periodically batch_num (total_inserted + BATCH_SIZE cfg) label) st1
            (fun _ _ evs =>
               printed evs
               = if (batch_num + 1) mod COMMIT_EVERY_N_BATCHES =? 0
                 then [Count "  ✓ Committed " (total_inserted + BATCH_SIZE cfg)
                             (" " ++ label ++ "...")]
                 else [])).
  { unfold commit_periodically.
    destruct ((batch_num + 1) mod COMMIT_EVERY_N_BATCHES =? 0).
    - apply returns_bind. apply returns_emit. apply returns_emit. reflexivity.
    - apply returns_ret. reflexivity. }
  eapply returns_weaken; [exact Hcommit |].
  intros u2 st2 ev2 Hev2. cbv beta in Hev2.
  apply returns_bind.
  assert (Hprint : returns
            (if (batch_num + 1) mod progress =? 0
             then print (Count "  Inserted " (total_inserted + BATCH_SIZE cfg) noun)
             else ret tt) st2
            (fun _ _ evs =>
               printed evs
               = if (batch_num + 1) mod progress =? 0
                 then [Count "  Inserted " (total_inserted + BATCH_SIZE cfg) noun]
                 else [])).
  { destruct ((batch_num + 1) mod progress =? 0).
    - apply returns_emit. reflexivity.
    - apply returns_ret. reflexivity. }
  eapply returns_weaken; [exact Hprint |].
  intros u3 st3 ev3 Hev3. cbv beta in Hev3.
  apply returns_ret. split; [reflexivity |].
  rewrite app_nil_r. cbn [app].
  change (Executemany (wrap batch) :: ev2 ++ ev3)
    with ([Executemany (wrap batch)] ++ (ev2 ++ ev3)).
  rewrite !printed_app, Hev2, Hev3. reflexivity.
Qed.

Lemma loop_lines (lines : Z -> Z -> list message) (body : Z -> Z -> M R F Z) :
  (forall total i st,
      returns (body total i) st (fun total' _ evs =>
        total' = total + BATCH_SIZE cfg /\ printed evs = lines i (total + BATCH_SIZE cfg))) ->
  forall (n s : nat) (st : state R F),
    returns (for_each (map Z.of_nat (seq s n)) (Z.of_nat s * BATCH_SIZE cfg) body) st
            (fun total' _ evs =>
               total' = Z.of_nat (s + n) * BATCH_SIZE cfg /\
               printed evs
               = flat_map (fun i => lines i ((i + 1) * BATCH_SIZE cfg))
                          (map Z.of_nat (seq s n))).
Proof.
  intro Hbody. induction n as [| n IH]; intros s st.
  - apply returns_ret. split; [f_equal; lia | reflexivity].
  - cbn [seq map for_each]. apply returns_bind.
    eapply returns_weaken; [apply Hbody |].
    intros total1 st1 ev1 (-> & Hev1).
    replace (Z.of_nat s * BATCH_SIZE cfg + BATCH_SIZE cfg)
      with (Z.of_nat (S s) * BATCH_SIZE cfg) in * by lia.
    eapply returns_weaken; [apply IH |].
    intros total2 st2 ev2 (-> & Hev2).
    split; [f_equal; lia |].
    rewrite printed_app, Hev1, Hev2. cbn [flat_map].
    replace ((Z.of_nat s + 1) * BATCH_SIZE cfg) with (Z.of_nat (S s) * BATCH_SIZE cfg) by lia.
    reflexivity.
Qed.

Lemma batch_has_size {B} (row : Z -> M R F B) (st : state R F) :
  0 < BATCH_SIZE cfg ->
  (forall i st, silent (row i) st (fun _ => True)) ->
  silent (for_list (range (BATCH_SIZE cfg)) row) st
         (fun batch => Z.of_nat (List.length batch) = BATCH_SIZE cfg).
Proof.
  intros HB Hrow.
  eapply silent_weaken; [apply (silent_batch cfg row (fun _ _ => True)); exact Hrow |].
  intros batch Hbatch. eapply Forall2_length_range; [| exact Hbatch]. lia.
Qed.

(** X15.  For [N >= 0] and [B > 0], the lines a loading phase prints
    are, for each batch number [b] in order, the commit line when
    [(b + 1) mod 10 = 0] and then the progress line when [(b + 1)] is a
    multiple of 10 (Customers) or of 5 (Products), both showing the
    running total [(b + 1) * B]; and after the loop the line that shows
    the final total [(N // B) * B]. *)
Theorem progress_lines_show_running_totals (st : state R F) :
  0 <= CUSTOMERS_TOTAL cfg -> 0 <= PRODUCTS_TOTAL cfg -> 0 < BATCH_SIZE cfg ->
  (exists total st' evs,
      load_customers clock cfg st = (Ok total, st', evs) /\
      printed evs
      = flat_map (fun b => progress_lines "customers" " customers..." 10 b
                                          ((b + 1) * BATCH_SIZE cfg))
                 (range (CUSTOMERS_TOTAL cfg / BATCH_SIZE cfg))
        ++ [Count "✓ Customers inserted: "
                  (CUSTOMERS_TOTAL cfg / BATCH_SIZE cfg * BATCH_SIZE cfg)
                  (" rows" ++ newline)]) /\
  (exists total st' evs,
      load_products clock cfg st = (Ok total, st', evs) /\
      printed evs
      = flat_map (fun b => progress_lines "products" " products..." 5 b
                                          ((b + 1) * BATCH_SIZE cfg))
                 (range (PRODUCTS_TOTAL cfg / BATCH_SIZE cfg))
        ++ [Count "✓ Products inserted: "
                  (PRODUCTS_TOTAL cfg / BATCH_SIZE cfg * BATCH_SIZE cfg)
                  (" rows" ++ newline)]).
Proof.
  intros HNc HNp HB. split.
  - assert (Hq : 0 <= CUSTOMERS_TOTAL cfg / BATCH_SIZE cfg) by (apply Z.div_pos; lia).
    assert (Hret : returns (load_customers clock cfg) st (fun total _ evs =>
              printed evs
              = flat_map (fun b => progress_lines "customers" " customers..." 10 b
                                                  ((b + 1) * BATCH_SIZE cfg))
                         (range (CUSTOMERS_TOTAL cfg / BATCH_SIZE cfg))
                ++ [Count "✓ Customers inserted: "
                          (CUSTOMERS_TOTAL cfg / BATCH_SIZE cfg * BATCH_SIZE cfg)
                          (" rows" ++ newline)])).
    { unfold load_customers.
      apply returns_bind. apply returns_floordiv; [lia |].
      apply returns_bind. unfold range.
      eapply returns_weaken.
      - apply (loop_lines (progress_lines "customers" " customers..." 10) _) with (s := O).
        intros total i st0.
        apply (iteration_lines
                 (for_list (range (BATCH_SIZE cfg)) (fun _ => customer_row clock))
                 CustomerRows "customers" " customers..." 10).
        intro st1. apply batch_has_size; [exact HB |].
        intros _ st2. apply silent_customer_row.
      - intros total st1 ev1 (-> & Hev1).
        apply returns_bind. apply returns_emit.
        apply returns_bind. apply returns_emit.
        apply returns_ret.
        rewrite !printed_app, Hev1. cbn [Nat.add]. rewrite Z2Nat.id by lia. reflexivity. }
    destruct Hret as (total & st' & evs & Hrun & Hlines).
    exists total, st', evs. split; assumption.
  - assert (Hq : 0 <= PRODUCTS_TOTAL cfg / BATCH_SIZE cfg) by (apply Z.div_pos; lia).
    assert (Hret : returns (load_products clock cfg) st (fun total _ evs =>
              printed evs
              = flat_map (fun b => progress_lines "products" " products..." 5 b
                                                  ((b + 1) * BATCH_SIZE cfg))
                         (range (PRODUCTS_TOTAL cfg / BATCH_SIZE cfg))
                ++ [Count "✓ Products inserted: "
                          (PRODUCTS_TOTAL cfg / BATCH_SIZE cfg * BATCH_SIZE cfg)
                          (" rows" ++ newline)])).
    { unfold load_products.
      apply returns_bind. apply returns_floordiv; [lia |].
      apply returns_bind. unfold range.
      eapply returns_weaken.
      - apply (loop_lines (progress_lines "products" " products..." 5) _) with (s := O).
        intros total i st0.
        apply (iteration_lines
                 (for_list (range (BATCH_SIZE cfg)) (product_row clock))
                 ProductRows "products" " products..." 5).
        intro st1. apply batch_has_size; [exact HB |].
        intros j st2. eapply silent_weaken; [apply silent_product_row | trivial].
      - intros total st1 ev1 (-> & Hev1).
        apply returns_bind. apply returns_emit.
        apply returns_bind. apply returns_emit.
        apply returns_ret.
        rewrite !printed_app, Hev1. cbn [Nat.add]. rewrite Z2Nat.id by lia. reflexivity. }
    destruct Hret as (total & st' & evs & Hrun & Hlines).
    exists total, st', evs. split; assumption.
Qed.

(** X17.  With a positive batch size, a total below the batch size
    (zero and negative totals included) gives zero batches: the loading
    phase draws nothing from the generators, inserts nothing, commits
    once and reports 0 rows. *)
Theorem total_below_batch_size_inserts_nothing (st : state R F) :
  0 < BATCH_SIZE cfg ->
  (CUSTOMERS_TOTAL cfg < BATCH_SIZE cfg ->
   load_customers clock cfg st
   = (Ok 0, st, [Commit; Stdout (Count "✓ Customers inserted: " 0 (" rows" ++ newline))])) /\
  (PRODUCTS_TOTAL cfg < BATCH_SIZE cfg ->
   load_products clock cfg st
   = (Ok 0, st, [Commit; Stdout (Count "✓ Products inserted: " 0 (" rows" ++ newline))])).
Proof.
  intro HB.
  assert (Hdiv : forall N, floordiv (R := R) (F := F) N (BATCH_SIZE cfg) st
                           = (Ok (N / BATCH_SIZE cfg), st, [])).
  { intro N. unfold floordiv. rewrite (proj2 (Z.eqb_neq _ _)) by lia. reflexivity. }
  assert (Hrange : forall N, N < BATCH_SIZE cfg -> range (N / BATCH_SIZE cfg) = []).
  { intros N HN. unfold range.
    assert (Hq : N / BATCH_SIZE cfg <= 0).
    { destruct (Z_lt_le_dec N 0) as [Hneg | Hpos].
      - pose proof (Z.div_lt_upper_bound N (BATCH_SIZE cfg) 0 HB ltac:(lia)). lia.
      - rewrite Z.div_small by lia. lia. }
    replace (Z.to_nat (N / BATCH_SIZE cfg)) with O by lia. reflexivity. }
  split; intro HN.
  - unfold load_customers.
    refine (bind_known _ _ _ _ _ _ _ [] _ (Hdiv _) _).
    rewrite (Hrange _ HN). reflexivity.
  - unfold load_products.
    refine (bind_known _ _ _ _ _ _ _ [] _ (Hdiv _) _).
    rewrite (Hrange _ HN). reflexivity.
Qed.

End ProgressLines.

Lemma zero_batch_run_raises :
  outcome (main (random_lib := Fixture.blank_random) (faker_lib := Fixture.blank_faker)
                Fixture.at_2001 Fixture.env_host Scenario.zero_batch Fixture.blank)
  = Raise ZeroDivisionError.
Proof.
  rewrite (proj1 (blank_main Fixture.at_2001 Scenario.zero_batch)). vm_compute. reflexivity.
Qed.

Lemma tiny_run_completes :
  outcome (main (random_lib := Fixture.blank_random) (faker_lib := Fixture.blank_faker)
                Fixture.at_2001 Fixture.env_host Fixture.tiny Fixture.blank)
  = Ok tt.
Proof.
  rewrite (proj1 (blank_main Fixture.at_2001 Fixture.tiny)). vm_compute. reflexivity.
Qed.

Lemma blank_phrase_run_raises :
  outcome (main (random_lib := Scenario.business_random)
                (faker_lib := Scenario.blank_phrase_faker)
                Fixture.at_2001 Fixture.env_host Fixture.tiny Fixture.blank)
  = Raise IndexError.
Proof. vm_compute. reflexivity. Qed.

(** X10 for a run of the doubles that completes: one connection, to the
    default database. *)
Lemma connection_opened_once_and_closed_last_witness :
  filter is_connect
         (trace (main (random_lib := Fixture.blank_random) (faker_lib := Fixture.blank_faker)
                      Fixture.at_2001 Fixture.env_host Fixture.tiny Fixture.blank))
  = [Connect (conn_string_of "localhost\SQLEXPRESS" "TransactionDB_UAT")].
Proof.
  destruct (connection_opened_once_and_closed_last
              (random_lib := Fixture.blank_random) (faker_lib := Fixture.blank_faker)
              Fixture.at_2001 Fixture.tiny Fixture.env_host Fixture.blank eq_refl
              (or_introl tiny_run_completes))
    as (body & _ & _ & Hconnect).
  exact Hconnect.
Defined.

(** X11 for a run with a batch size of zero: the error report and the
    two [close] calls end the trace. *)
Lemma failure_is_reported_and_reraised_witness :
  outcome (main (random_lib := Fixture.blank_random) (faker_lib := Fixture.blank_faker)
                Fixture.at_2001 Fixture.env_host Scenario.zero_batch Fixture.blank)
  = Raise ZeroDivisionError /\
  exists before,
    trace (main (random_lib := Fixture.blank_random) (faker_lib := Fixture.blank_faker)
                Fixture.at_2001 Fixture.env_host Scenario.zero_batch Fixture.blank)
    = before ++ error_report ZeroDivisionError ++ [CursorClose; ConnClose].
Proof.
  pose proof (failure_is_reported_and_reraised
                (random_lib := Fixture.blank_random) (faker_lib := Fixture.blank_faker)
                Fixture.at_2001 Scenario.zero_batch Fixture.env_host Fixture.blank eq_refl) as H.
  rewrite zero_batch_run_raises in H.
  destruct (H (or_introl eq_refl)) as (_ & Hreport & _).
  split; [exact zero_batch_run_raises | exact Hreport].
Defined.

(** X12 for a run of the doubles with a batch size of zero. *)
Lemma zero_batch_size_stops_the_run_witness :
  exists suppliers,
    db_calls (trace (main (random_lib := Fixture.blank_random)
                          (faker_lib := Fixture.blank_faker)
                          Fixture.at_2001 Fixture.env_host Scenario.zero_batch Fixture.blank))
    = calls_until_customer_batches
        (conn_string_of "localhost\SQLEXPRESS" "TransactionDB_UAT") suppliers.
Proof.
  destruct (zero_batch_size_stops_the_run
              (random_lib := Fixture.blank_random) (faker_lib := Fixture.blank_faker)
              Fixture.at_2001 Scenario.zero_batch Fixture.env_host Fixture.blank
              eq_refl eq_refl)
    as (_ & Hcalls & _).
  destruct (Hcalls zero_batch_run_raises) as (suppliers & _ & Hs).
  exists suppliers. exact Hs.
Defined.

(** X13 for a run whose first supplier is a "business" with a blank
    catch phrase. *)
Lemma index_error_stops_before_any_supplier_row_witness :
  db_calls (trace (main (random_lib := Scenario.business_random)
                        (faker_lib := Scenario.blank_phrase_faker)
                        Fixture.at_2001 Fixture.env_host Fixture.tiny Fixture.blank))
  = calls_until_supplier_names (conn_string_of "localhost\SQLEXPRESS" "TransactionDB_UAT") /\
  inserted (trace (main (random_lib := Scenario.business_random)
                        (faker_lib := Scenario.blank_phrase_faker)
                        Fixture.at_2001 Fixture.env_host Fixture.tiny Fixture.blank))
  = [CategoryRows categories_data].
Proof.
  destruct (index_error_stops_before_any_supplier_row
              (random_lib := Scenario.business_random)
              (faker_lib := Scenario.blank_phrase_faker)
              Fixture.at_2001 Fixture.tiny Fixture.env_host Fixture.blank
              eq_refl blank_phrase_run_raises)
    as (Hcalls & Hrows & _).
  split; [exact Hcalls | exact Hrows].
Defined.

(** X14 for a [Faker] whose catch phrase is never blank. *)
Lemma run_completes_unless_a_catch_phrase_is_blank_witness :
  outcome (main (random_lib := Fixture.blank_random) (faker_lib := Scenario.steady_faker)
                Fixture.at_2001 Fixture.env_host Fixture.tiny (fresh [] tt))
  = Ok tt.
Proof.
  apply (run_completes_unless_a_catch_phrase_is_blank
           (random_lib := Fixture.blank_random) (faker_lib := Scenario.steady_faker)
           Fixture.at_2001 Fixture.tiny Fixture.env_host (fresh [] tt)).
  - reflexivity.
  - cbn. lia.
  - intro f. reflexivity.
Defined.

(** X15 at ten products in batches of one: a progress line after the
    fifth batch, a commit line and a progress line after the tenth. *)
Lemma progress_lines_show_running_totals_witness :
  exists total st' evs,
    load_products (random_lib := Fixture.blank_random) (faker_lib := Fixture.blank_faker)
                  Fixture.at_2001 Scenario.ten_batches Fixture.blank
    = (Ok total, st', evs) /\
    printed evs
    = [ Count "  Inserted " 5 " products...";
        Count "  ✓ Committed " 10 " products...";
        Count "  Inserted " 10 " products...";
        Count "✓ Products inserted: " 10 (" rows" ++ newline) ].
Proof.
  destruct (progress_lines_show_running_totals
              (random_lib := Fixture.blank_random) (faker_lib := Fixture.blank_faker)
              Fixture.at_2001 Scenario.ten_batches Fixture.blank)
    as (_ & total & st' & evs & Hrun & Hlines); [cbn; lia | cbn; lia | cbn; lia |].
  exists total, st', evs. split; [exact Hrun |].
  rewrite Hlines. vm_compute. reflexivity.
Defined.

(** X16 for a run of the doubles that completes. *)
Lemma category_ids_refer_to_inserted_categories_witness :
  category_rows
    (trace (main (random_lib := Fixture.blank_random) (faker_lib := Fixture.blank_faker)
                 Fixture.at_2001 Fixture.env_host Fixture.tiny Fixture.blank))
  = categories_data.
Proof.
  exact (proj1 (category_ids_refer_to_inserted_categories
                  (random_lib := Fixture.blank_random) (faker_lib := Fixture.blank_faker)
                  Fixture.at_2001 Fixture.tiny Fixture.env_host Fixture.blank eq_refl
                  (or_introl tiny_run_completes))).
Defined.

(** X17 at 9,999 customers and -1 products in batches of 10,000. *)
Lemma total_below_batch_size_inserts_nothing_witness :
  load_customers (random_lib := Fixture.blank_random) (faker_lib := Fixture.blank_faker)
                 Fixture.at_2001 Scenario.small_totals Fixture.blank
  = (Ok 0, Fixture.blank,
     [Commit; Stdout (Count "✓ Customers inserted: " 0 (" rows" ++ newline))]) /\
  load_products (random_lib := Fixture.blank_random) (faker_lib := Fixture.blank_faker)
                Fixture.at_2001 Scenario.small_totals Fixture.blank
  = (Ok 0, Fixture.blank,
     [Commit; Stdout (Count "✓ Products inserted: " 0 (" rows" ++ newline))]).
Proof.
  destruct (total_below_batch_size_inserts_nothing
              (random_lib := Fixture.blank_random) (faker_lib := Fixture.blank_faker)
              Fixture.at_2001 Scenario.small_totals Fixture.blank)
    as (Hc & Hp); [cbn; lia |].
  split; [apply Hc | apply Hp]; cbn; lia.
Defined.

(** X18 at 5 customers and 3 products in batches of 2: the run
    completes and commits six times. *)
Lemma database_calls_of_a_complete_run_witness :
  exists suppliers customers products,
    db_calls (trace (main (random_lib := Fixture.blank_random)
                          (faker_lib := Fixture.blank_faker)
                          Fixture.at_2001 Fixture.env_host Fixture.tiny Fixture.blank))
    = calls_of_complete_run (conn_string_of "localhost\SQLEXPRESS" "TransactionDB_UAT")
                            suppliers customers products /\
    Z.of_nat (commits (trace (main (random_lib := Fixture.blank_random)
                                   (faker_lib := Fixture.blank_faker)
                                   Fixture.at_2001 Fixture.env_host Fixture.tiny
                                   Fixture.blank)))
    = 6.
Proof.
  destruct (database_calls_of_a_complete_run
              (random_lib := Fixture.blank_random) (faker_lib := Fixture.blank_faker)
              Fixture.at_2001 Fixture.tiny Fixture.env_host Fixture.blank)
    as (suppliers & customers & products & Hcalls & _ & _ & _ & _ & _ & Hcommits);
    [reflexivity | cbn; lia | cbn; lia | cbn; lia | exact tiny_run_completes |].
  exists suppliers, customers, products. split; [exact Hcalls | exact Hcommits].
Defined.
